(** * Bulk SOL transfer tools: a shallow embedding and its properties

    Three programs are embedded here, each in a module of its own:

    - [Bulk]:   bulk-sol-transfer.go, the Go batch job
                ([executeTransfer] and [main]);
    - [Geyser]: solana-geyser-subscription.go, the Go block-triggered sender
                ([sendTransaction]);
    - [Multi]:  the Rust multi-transfer CLI ([execute_transfers],
                [execute_single_transfer], [main]).

    The network endpoint, the file system and the cryptographic libraries are
    not part of the repository.  They appear as records of functions
    ([Library], [Client], [RpcClient]) over which every general theorem
    quantifies; the module [Stub] gives concrete instances used by the
    examples, and the module [Claims] the predicates the statements are
    written with.

    Time is a wall clock in nanoseconds carried by the state of each task.
    A remote call advances the clock by the latency of its reply and is
    written, with the instant it was issued at, to the log of the task. *)

From Stdlib Require Import ZArith List String Ascii Bool Arith Lia.
Import ListNotations.

Set Implicit Arguments.
Open Scope string_scope.
Open Scope list_scope.
Open Scope Z_scope.

(* ===================================================================== *)
(** * Shared vocabulary *)
(* ===================================================================== *)

Module Rt.

(** A value or an error: Go's [(T, error)], Rust's [Result<T, E>]. *)
Inductive Result (E A : Type) : Type :=
| Ok (a : A)
| Err (e : E).
Arguments Ok {E A} a.
Arguments Err {E A} e.

(** What the endpoint answers to one request, and how long it took. *)
Record Reply (A : Type) : Type := mkReply {
  latency : Z;
  answer : Result string A
}.

(** The remote calls and suspensions a task can make. *)
Inductive Call : Type :=
| CallBlockhash
| CallSend
| CallStatus
| CallSleep.

Definition Call_eqb (a b : Call) : bool :=
  match a, b with
  | CallBlockhash, CallBlockhash => true
  | CallSend, CallSend => true
  | CallStatus, CallStatus => true
  | CallSleep, CallSleep => true
  | _, _ => false
  end.

(** A log entry: the instant of the call and the call. *)
Definition Event : Type := (Z * Call)%type.

Definition count_calls (c : Call) (l : list Event) : nat :=
  List.length (filter (fun e => Call_eqb (snd e) c) l).

(** Durations are nanoseconds, as in Go's [time.Duration]. *)
Definition Millisecond : Z := 1000000.
Definition poll_interval : Z := 500 * Millisecond.

(** The outcome vocabulary of the specification (sections 3, 4.2 and 5).
    The programs do not have this type; [Bulk.outcome_of] and
    [Multi.outcome_of] read their results in these words. *)
Inductive Outcome : Type :=
| Confirmed
| Rejected (reason : string)
| TimedOut
| PrecursorFailed (reason : string)
| PollError (reason : string)
| Cancelled.

Definition Hash : Type := string.
Definition Signature : Type := string.
(** A public key is kept as its base58 text. *)
Definition PublicKey : Type := string.

(** How a process ends: with an exit code and what it printed, by a crash
    (a Go panic exits with code 2, a Rust panic with code 101), or not at
    all within the fuel given. *)
Inductive ProcessEnd (Report : Type) : Type :=
| Exit (code : Z) (report : Report)
| Crashed (code : Z) (msg : string)
| Hung.
Arguments Exit {Report} code report.
Arguments Crashed {Report} code msg.
Arguments Hung {Report}.

Definition exit_code (Report : Type) (e : ProcessEnd Report) : option Z :=
  match e with
  | Exit c _ => Some c
  | Crashed c _ => Some c
  | Hung => None
  end.

End Rt.
Import Rt.

(* ===================================================================== *)
(** * The Go runtime pieces both Go programs use *)
(* ===================================================================== *)

Module Go.

(** A byte slice: its backing array and its length.  The capacity is the
    length of the backing array. *)
Record Slice : Type := mkSlice {
  array : list Byte.byte;
  len : nat
}.

Definition cap (s : Slice) : nat := List.length (array s).
Definition elems (s : Slice) : list Byte.byte := firstn (len s) (array s).

(** [s[:n]]: allowed up to the capacity, a run-time panic beyond it. *)
Definition slice_to (s : Slice) (n : nat) : option Slice :=
  if (n <=? cap s)%nat then Some (mkSlice (array s) n) else None.

Record Account : Type := mkAccount {
  acc_PrivateKey : list Byte.byte;
  acc_PublicKey : PublicKey
}.

(** [solana.NewTransferInstruction(lamports, from, to).Build()] *)
Record Instruction : Type := NewTransferInstruction {
  ix_Lamports : Z;
  ix_From : PublicKey;
  ix_To : PublicKey
}.

Record Transaction : Type := mkTransaction {
  tx_Instructions : list Instruction;
  tx_RecentBlockhash : Hash;
  tx_Payer : PublicKey;
  tx_Signatures : list Signature
}.

Inductive Commitment : Type := CommitmentFinalized | CommitmentConfirmed.

Record TransactionOpts : Type := mkOpts {
  SkipPreflight : bool;
  PreflightCommitment : Commitment
}.

(** One entry of [GetSignatureStatuses(...).Value]: [status.Err] is [nil]
    on success. *)
Record SignatureStatus : Type := mkStatus {
  st_Err : option string
}.

(** The library functions the programs call.  [None] from
    [NewAccountFromPrivateKeyBytes] stands for a panic inside the call: its
    Go signature has no error result, so a key it cannot use has no other
    way out. *)
Record Library : Type := mkLibrary {
  DecodeString : string -> Result string Slice;
  NewKeyFromSeed : list Byte.byte -> list Byte.byte;
  NewAccountFromPrivateKeyBytes : list Byte.byte -> option Account;
  PublicKeyFromBase58 : string -> Result string PublicKey;
  NewTransaction : list Instruction -> Hash -> PublicKey -> Result string Transaction;
  Sign : Transaction -> (PublicKey -> option (list Byte.byte)) -> Result string Transaction
}.

(** The endpoint as one task sees it.  The status query is indexed by the
    number of status queries the task has made before.  Every call is
    answered with a result or with an error; a call that hands back a nil
    result together with a nil error, which the programs would dereference,
    is not among the replies. *)
Record Client : Type := mkClient {
  GetRecentBlockhash : Commitment -> Reply Hash;
  SendTransactionWithOpts : Transaction -> TransactionOpts -> Reply Signature;
  GetSignatureStatuses : nat -> list Signature -> Reply (list (option SignatureStatus))
}.

(** The state of a goroutine: its clock, its log of calls, and what it has
    sent on the results channel. *)
Record Goroutine (R : Type) : Type := mkGoroutine {
  clock : Z;
  calls : list Event;
  sent : list R
}.

Definition spawn (R : Type) (t : Z) : Goroutine R := mkGoroutine t [] (@nil R).

(** How a function call ends: it returns, it panics, or the fuel given to
    its loop runs out while the loop is still running. *)
Inductive Run (R A : Type) : Type :=
| Returned (a : A) (g : Goroutine R)
| Panicked (msg : string) (g : Goroutine R)
| Spinning (g : Goroutine R).
Arguments Returned {R A} a g.
Arguments Panicked {R A} msg g.
Arguments Spinning {R A} g.

Definition final (R A : Type) (r : Run R A) : Goroutine R :=
  match r with
  | Returned _ g => g
  | Panicked _ g => g
  | Spinning g => g
  end.

Definition rpc (R A : Type) (c : Call) (r : Reply A) (g : Goroutine R)
  : Result string A * Goroutine R :=
  (answer r,
   mkGoroutine (clock g + latency r) (calls g ++ [(clock g, c)]) (sent g)).

(** [time.Sleep(d)] *)
Definition Sleep (R : Type) (d : Z) (g : Goroutine R) : Goroutine R :=
  mkGoroutine (clock g + d) (calls g ++ [(clock g, CallSleep)]) (sent g).

(** [results <- r] *)
Definition send (R : Type) (r : R) (g : Goroutine R) : Goroutine R :=
  mkGoroutine (clock g) (calls g) (sent g ++ [r]).

(** int64 arithmetic wraps around. *)
Definition wrap64 (z : Z) : Z := (z + 2 ^ 63) mod 2 ^ 64 - 2 ^ 63.

End Go.
Import Go.

(* ===================================================================== *)
(** * bulk-sol-transfer.go *)
(* ===================================================================== *)

Module Bulk.

Record TransferInstruction : Type := mkTransfer {
  FromPrivateKey : string;
  ToAddress : string;
  Amount : Z
}.

Record Config : Type := mkConfig {
  RpcURL : string;
  Transfers : list TransferInstruction
}.

(** The errors [executeTransfer] builds with [fmt.Errorf]; the argument is
    the wrapped cause. *)
Inductive error : Type :=
| FailedDecodeKey (cause : string)
| InvalidDestination (cause : string)
| FailedBlockhash (cause : string)
| FailedCreateTx (cause : string)
| FailedSign (cause : string)
| FailedSend (cause : string)
| FailedStatus (cause : string)
| TransactionFailed (cause : string).

Definition error_text (e : error) : string :=
  match e with
  | FailedDecodeKey c => "failed to decode private key: " ++ c
  | InvalidDestination c => "invalid destination address: " ++ c
  | FailedBlockhash c => "failed to get recent blockhash: " ++ c
  | FailedCreateTx c => "failed to create transaction: " ++ c
  | FailedSign c => "failed to sign transaction: " ++ c
  | FailedSend c => "failed to send transaction: " ++ c
  | FailedStatus c => "failed to get transaction status: " ++ c
  | TransactionFailed c => "transaction failed: " ++ c
  end%string.

(** The fields [Amount] and [Signature] of the Go struct are [ResAmount] and
    [ResSignature] here: the two names are taken. *)
Record TransferResult : Type := mkResult {
  FromAccount : string;
  ToAccount : string;
  ResAmount : Z;
  ResSignature : string;
  Status : string;
  ProcessingTime : Z;
  Error : option error
}.

Definition set_FromAccount (v : string) (r : TransferResult) : TransferResult :=
  mkResult v (ToAccount r) (ResAmount r) (ResSignature r) (Status r)
           (ProcessingTime r) (Error r).
Definition set_ToAccount (v : string) (r : TransferResult) : TransferResult :=
  mkResult (FromAccount r) v (ResAmount r) (ResSignature r) (Status r)
           (ProcessingTime r) (Error r).
Definition set_Signature (v : string) (r : TransferResult) : TransferResult :=
  mkResult (FromAccount r) (ToAccount r) (ResAmount r) v (Status r)
           (ProcessingTime r) (Error r).
Definition set_Status (v : string) (r : TransferResult) : TransferResult :=
  mkResult (FromAccount r) (ToAccount r) (ResAmount r) (ResSignature r) v
           (ProcessingTime r) (Error r).
Definition set_ProcessingTime (v : Z) (r : TransferResult) : TransferResult :=
  mkResult (FromAccount r) (ToAccount r) (ResAmount r) (ResSignature r)
           (Status r) v (Error r).
Definition set_Error (v : error) (r : TransferResult) : TransferResult :=
  mkResult (FromAccount r) (ToAccount r) (ResAmount r) (ResSignature r)
           (Status r) (ProcessingTime r) (Some v).

Definition Task : Type := Goroutine TransferResult.
Definition Ended : Type := Run TransferResult unit.

(** [results <- result; return] *)
Definition fail_with (e : error) (result : TransferResult) (g : Task) : Ended :=
  Returned tt (send (set_Error e result) g).

(** The status loop of [executeTransfer] (lines 144-170).  [k] is the number
    of status queries made so far; one unit of fuel is one turn of the
    loop.  The loop itself has no bound. *)
Fixpoint poll (fuel : nat) (k : nat) (client : Client) (sig : Signature)
    (startTime : Z) (result : TransferResult) (g : Task) : Ended :=
  match fuel with
  | O => Spinning g
  | S fuel' =>
    let (status, g) := rpc CallStatus (GetSignatureStatuses client k [sig]) g in
    match status with
    | Err err => fail_with (FailedStatus err) result g
    | Ok value =>
      match value with
      | [] => Panicked "index out of range [0] with length 0" g
      | Some st :: _ =>
        let result :=
          match st_Err st with
          | Some e => set_Error (TransactionFailed e) (set_Status "Failed" result)
          | None => set_Status "Confirmed" result
          end in
        let result := set_ProcessingTime (clock g - startTime) result in
        Returned tt (send result g)
      | None :: _ =>
        poll fuel' (S k) client sig startTime result (Sleep poll_interval g)
      end
    end
  end.

(** [executeTransfer] (lines 55-171).  Every [return] of the Go function is
    preceded by one send on the results channel, which is buffered for all
    the transfers and never blocks; the deferred [wg.Done()] is what lets
    [main] close the channel once every goroutine has returned (see
    [main]). *)
Definition executeTransfer (fuel : nat) (lib : Library) (client : Client)
    (transfer : TransferInstruction) (g : Task) : Ended :=
  let result := mkResult "" "" (Amount transfer) "" "" 0 None in
  let startTime := clock g in
  match DecodeString lib (FromPrivateKey transfer) with
  | Err err => fail_with (FailedDecodeKey err) result g
  | Ok privateKeyBytes =>
  match NewAccountFromPrivateKeyBytes lib (elems privateKeyBytes) with
  | None => Panicked "NewAccountFromPrivateKeyBytes" g
  | Some account =>
  let result := set_FromAccount (acc_PublicKey account) result in
  match PublicKeyFromBase58 lib (ToAddress transfer) with
  | Err err => fail_with (InvalidDestination err) result g
  | Ok destination =>
  let result := set_ToAccount destination result in
  let (recentBlockhash, g) :=
    rpc CallBlockhash (GetRecentBlockhash client CommitmentFinalized) g in
  match recentBlockhash with
  | Err err => fail_with (FailedBlockhash err) result g
  | Ok blockhash =>
  let instruction :=
    NewTransferInstruction (Amount transfer) (acc_PublicKey account) destination in
  match NewTransaction lib [instruction] blockhash (acc_PublicKey account) with
  | Err err => fail_with (FailedCreateTx err) result g
  | Ok tx =>
  match Sign lib tx (fun key =>
                if String.eqb (acc_PublicKey account) key
                then Some (acc_PrivateKey account) else None) with
  | Err err => fail_with (FailedSign err) result g
  | Ok tx =>
  let (sig, g) :=
    rpc CallSend
        (SendTransactionWithOpts client tx (mkOpts false CommitmentFinalized)) g in
  match sig with
  | Err err => fail_with (FailedSend err) result g
  | Ok sig =>
  let result := set_Signature sig result in
  poll fuel 0 client sig startTime result g
  end end end end end end end.

(** The endpoint never reports a status for the transaction. *)
Definition never_reports (client : Client) : Prop :=
  forall k sigs, answer (GetSignatureStatuses client k sigs) = Ok [None].

(** Everything before the status loop succeeds and the endpoint hands out
    [sig] for the transaction. *)
Definition submits (lib : Library) (client : Client)
    (transfer : TransferInstruction) (sig : Signature) : Prop :=
  exists privateKeyBytes account destination blockhash tx tx',
    DecodeString lib (FromPrivateKey transfer) = Ok privateKeyBytes /\
    NewAccountFromPrivateKeyBytes lib (elems privateKeyBytes) = Some account /\
    PublicKeyFromBase58 lib (ToAddress transfer) = Ok destination /\
    answer (GetRecentBlockhash client CommitmentFinalized) = Ok blockhash /\
    NewTransaction lib
      [NewTransferInstruction (Amount transfer) (acc_PublicKey account) destination]
      blockhash (acc_PublicKey account) = Ok tx /\
    Sign lib tx (fun key =>
                   if String.eqb (acc_PublicKey account) key
                   then Some (acc_PrivateKey account) else None) = Ok tx' /\
    answer (SendTransactionWithOpts client tx' (mkOpts false CommitmentFinalized))
      = Ok sig.

(** The result in the words of the specification.  [main] counts a result
    as a success exactly when its [Error] is [nil] (line 231). *)
Definition outcome_of (r : TransferResult) : Outcome :=
  match Error r with
  | None => Confirmed
  | Some (TransactionFailed c) => Rejected c
  | Some (FailedStatus c) => PollError c
  | Some e => PrecursorFailed (error_text e)
  end.

(** ** [main] *)

(** The accumulators of the collecting loop (lines 205-208). *)
Record Stats : Type := mkStats {
  successCount : Z;
  failCount : Z;
  totalProcessingTime : Z;
  minTime : Z;
  maxTime : Z;
  allResults : list TransferResult
}.

Definition no_stats : Stats := mkStats 0 0 0 0 0 [].

(** One turn of [for result := range results] (lines 213-240).  The two
    counters are [int]s that count results, of which there are at most
    [len(config.Transfers)], itself an [int]: they cannot wrap.  The sum of
    the durations is an int64 and can. *)
Definition collect_one (st : Stats) (result : TransferResult) : Stats :=
  let allResults := allResults st ++ [result] in
  let minTime := if minTime st =? 0 then ProcessingTime result else minTime st in
  let minTime :=
    if ProcessingTime result <? minTime then ProcessingTime result else minTime in
  let maxTime :=
    if ProcessingTime result >? maxTime st then ProcessingTime result
    else maxTime st in
  let totalProcessingTime :=
    wrap64 (totalProcessingTime st + ProcessingTime result) in
  match Error result with
  | Some _ =>
    mkStats (successCount st) (failCount st + 1) totalProcessingTime
            minTime maxTime allResults
  | None =>
    mkStats (successCount st + 1) (failCount st) totalProcessingTime
            minTime maxTime allResults
  end.

Definition collect (results : list TransferResult) : Stats :=
  fold_left collect_one results no_stats.

(** What the statistics block prints (lines 246-255). *)
Record Report : Type := mkReport {
  TotalTransactions : nat;
  Successful : Z;
  Failed : Z;
  TotalTime : Z;
  MinimumProcessingTime : Z;
  MaximumProcessingTime : Z;
  AverageProcessingTime : Z
}.

(** The goroutines run side by side from the same instant, one per transfer,
    each against its own view of the endpoint ([clients i] for the i-th
    transfer). *)
Fixpoint run_workers (fuel : nat) (lib : Library) (clients : nat -> Client)
    (i : nat) (transfers : list TransferInstruction) (start : Z) : list Ended :=
  match transfers with
  | [] => []
  | transfer :: rest =>
    executeTransfer fuel lib (clients i) transfer (spawn TransferResult start)
    :: run_workers fuel lib clients (S i) rest start
  end.

Definition first_panic (runs : list Ended) : option string :=
  match filter (fun r => match r with Panicked _ _ => true | _ => false end) runs with
  | Panicked msg _ :: _ => Some msg
  | _ => None
  end.

Definition any_spinning (runs : list Ended) : bool :=
  existsb (fun r => match r with Spinning _ => true | _ => false end) runs.

(** What a goroutine put on the channel, with the instant it did so. *)
Definition deliveries (r : Ended) : list (Z * TransferResult) :=
  map (fun x => (clock (final r), x)) (sent (final r)).

(** The channel hands results over in the order they were sent. *)
Fixpoint insert_by_time (x : Z * TransferResult) (l : list (Z * TransferResult))
  : list (Z * TransferResult) :=
  match l with
  | [] => [x]
  | y :: l' => if fst x <? fst y then x :: y :: l' else y :: insert_by_time x l'
  end.

Definition arrival (l : list (Z * TransferResult)) : list (Z * TransferResult) :=
  fold_left (fun acc x => insert_by_time x acc) l [].

Definition channel (runs : list Ended) : list TransferResult :=
  map snd (arrival (flat_map deliveries runs)).

Definition last_finish (start : Z) (runs : list Ended) : Z :=
  fold_left (fun m r => Z.max m (clock (final r))) runs start.

(** Lines 242-260.  The division of line 244 is Go's integer division: it
    panics on a zero divisor and truncates otherwise. *)
Definition finish (start : Z) (config : Config) (runs : list Ended)
  : ProcessEnd Report :=
  let st := collect (channel runs) in
  let totalTime := last_finish start runs - start in
  let n := Z.of_nat (List.length (Transfers config)) in
  if n =? 0 then Crashed 2 "integer divide by zero"
  else
    let avgProcessingTime := Z.quot (totalProcessingTime st) n in
    let report :=
      mkReport (List.length (Transfers config)) (successCount st) (failCount st)
               totalTime (minTime st) (maxTime st) avgProcessingTime in
    if failCount st >? 0 then Exit 1 report else Exit 0 report.

(** [main] after the configuration is loaded.  A panic in any goroutine
    ends the process; a goroutine that never returns keeps [wg.Wait] from
    returning, so the channel is never closed and the collecting loop never
    ends. *)
Definition main (fuel : nat) (lib : Library) (clients : nat -> Client)
    (config : Config) (start : Z) : ProcessEnd Report :=
  let runs := run_workers fuel lib clients 0 (Transfers config) start in
  match first_panic runs with
  | Some msg => Crashed 2 msg
  | None =>
    if any_spinning runs then Hung else finish start config runs
  end.

End Bulk.

(* ===================================================================== *)
(** * solana-geyser-subscription.go *)
(* ===================================================================== *)

Module Geyser.

Inductive error : Type :=
| FailedBlockhash (cause : string)
| InvalidRecipient (cause : string)
| FailedCreateTx (cause : string)
| FailedSign (cause : string)
| FailedSend (cause : string).

Definition Task : Type := Goroutine Empty_set.

(** [sendTransaction] (lines 137-198); it returns [nil] or an error. *)
Definition sendTransaction (lib : Library) (client : Client)
    (privateKeyBytes : Slice) (recipientAddr : string) (amount : Z) (g : Task)
  : Run Empty_set (option error) :=
  match slice_to privateKeyBytes 32 with
  | None => Panicked "slice bounds out of range [:32]" g
  | Some seed =>
  let privateKey := NewKeyFromSeed lib (elems seed) in
  match NewAccountFromPrivateKeyBytes lib privateKey with
  | None => Panicked "NewAccountFromPrivateKeyBytes" g
  | Some account =>
  let (recentBlockhash, g) :=
    rpc CallBlockhash (GetRecentBlockhash client CommitmentFinalized) g in
  match recentBlockhash with
  | Err err => Returned (Some (FailedBlockhash err)) g
  | Ok blockhash =>
  match PublicKeyFromBase58 lib recipientAddr with
  | Err err => Returned (Some (InvalidRecipient err)) g
  | Ok recipient =>
  match NewTransaction lib
          [NewTransferInstruction amount (acc_PublicKey account) recipient]
          blockhash (acc_PublicKey account) with
  | Err err => Returned (Some (FailedCreateTx err)) g
  | Ok tx =>
  match Sign lib tx (fun key =>
                if String.eqb (acc_PublicKey account) key
                then Some (acc_PrivateKey account) else None) with
  | Err err => Returned (Some (FailedSign err)) g
  | Ok tx =>
  let (sig, g) :=
    rpc CallSend
        (SendTransactionWithOpts client tx (mkOpts false CommitmentFinalized)) g in
  match sig with
  | Err err => Returned (Some (FailedSend err)) g
  | Ok _ => Returned None g
  end end end end end end end.

(** ** The event loop of [main] (lines 108-130) *)

(** What [stream.Recv()] hands over: an update, with a slot or without, or
    an error. *)
Inductive Received : Type :=
| Update (slot : option Z)
| RecvFailed (err : string).

(** The lines the loop logs. *)
Inductive Line : Type :=
| ErrorReceiving (err : string)
| NewBlock (slot : Z)
| FailedToSend (e : error)
| SentFor (slot : Z).

(** The goroutine of [main] over the updates the stream delivers, in order.
    [n] is the number of transactions attempted so far; the [n]-th attempt
    sees the endpoint as [clients n].  A receive error ends the goroutine
    (after [cancel()]); a panic in [sendTransaction] ends the process; when
    the updates are used up the goroutine is waiting in [Recv].  The first
    component is what has been logged. *)
Fixpoint event_loop (lib : Library) (clients : nat -> Client)
    (privateKeyBytes : Slice) (recipientAddr : string) (amount : Z)
    (stream : list Received) (n : nat) (g : Task)
  : list Line * Run Empty_set unit :=
  match stream with
  | [] => ([], Spinning g)
  | RecvFailed err :: _ => ([ErrorReceiving err], Returned tt g)
  | Update None :: rest =>
    event_loop lib clients privateKeyBytes recipientAddr amount rest n g
  | Update (Some slot) :: rest =>
    match sendTransaction lib (clients n) privateKeyBytes recipientAddr amount g with
    | Panicked msg g => ([NewBlock slot], Panicked msg g)
    | Spinning g => ([NewBlock slot], Spinning g)
    | Returned err g =>
      let (lines, ending) :=
        event_loop lib clients privateKeyBytes recipientAddr amount rest (S n) g in
      (NewBlock slot
       :: match err with
          | Some e => FailedToSend e
          | None => SentFor slot
          end
       :: lines, ending)
    end
  end.

End Geyser.

(* ===================================================================== *)
(** * The Rust multi-transfer CLI *)
(* ===================================================================== *)

Module Multi.

Record WalletInfo : Type := mkWallet {
  address : string;
  keypair_path : option string
}.

Record WalletConfig : Type := mkWalletConfig {
  from_wallets : list WalletInfo;
  to_wallets : list WalletInfo
}.

Record TransferResult : Type := mkResult {
  from : string;
  to : string;
  signature : string;
  success : bool;
  processing_time : Z
}.

Definition Pubkey : Type := string.

Record Keypair : Type := mkKeypair {
  secret : list Byte.byte;
  pubkey : Pubkey
}.

(** [system_instruction::transfer(&from, &to, lamports)] *)
Record Instruction : Type := transfer {
  ix_from : Pubkey;
  ix_to : Pubkey;
  ix_lamports : Z
}.

(** [Transaction::new_signed_with_payer(instructions, payer, signers, hash)] *)
Record Transaction : Type := new_signed_with_payer {
  instructions : list Instruction;
  payer : option Pubkey;
  signers : list Keypair;
  recent_blockhash : Hash
}.

(** The file system and the key parser. *)
Record Library : Type := mkLibrary {
  read_keypair_file : string -> Result string Keypair;
  Pubkey_from_str : string -> Result string Pubkey
}.

(** The endpoint as one task sees it.  A present status is [Ok tt] for a
    transaction that went through and [Err e] for one that failed on chain. *)
Record RpcClient : Type := mkRpcClient {
  get_latest_blockhash : Reply Hash;
  send_transaction : Transaction -> Reply Signature;
  get_signature_status : nat -> Signature -> Reply (option (Result string unit))
}.

(** The errors [execute_single_transfer] returns. *)
Inductive Error : Type :=
| ReadKeypairFailed (cause : string)
| InvalidFromAddress (cause : string)
| InvalidToAddress (cause : string)
| KeypairMismatch (loaded expected : Pubkey)
| ClientError (cause : string)
| TransactionFailedStatus (status : string)
| StatusQueryFailed (cause : string)
| ConfirmationTimedOut.

Definition Error_text (e : Error) : string :=
  match e with
  | ReadKeypairFailed c => "Failed to read keypair file: " ++ c
  | InvalidFromAddress c => "Invalid from address: " ++ c
  | InvalidToAddress c => "Invalid to address: " ++ c
  | KeypairMismatch l x =>
    "Keypair public key (" ++ l
      ++ ") doesn't match the specified from address (" ++ x ++ ")"
  | ClientError c => c
  | TransactionFailedStatus s => "Transaction failed with status: " ++ s
  | StatusQueryFailed c => "Failed to get transaction status: " ++ c
  | ConfirmationTimedOut => "Transaction confirmation timed out"
  end%string.

(** The state of a task: its clock and its log of calls. *)
Record Task : Type := mkTask {
  now : Z;
  log : list Event
}.

Definition boot (t : Z) : Task := mkTask t [].

Definition rpc (A : Type) (c : Call) (r : Reply A) (t : Task)
  : Result string A * Task :=
  (answer r, mkTask (now t + latency r) (log t ++ [(now t, c)])).

(** [sleep(d).await] *)
Definition sleep (d : Z) (t : Task) : Task :=
  mkTask (now t + d) (log t ++ [(now t, CallSleep)]).

Definition max_retries : nat := 20.

(** The confirmation loop, [for _ in 0..max_retries] (lines 487-505).
    [Ok true] is the [break] with [confirmed] set, [Ok false] the end of the
    range with [confirmed] still unset, [Err e] a [return Err(e)] from
    inside the loop.  [k] is the number of status queries made so far. *)
Fixpoint confirm (retries : nat) (k : nat) (client : RpcClient)
    (sig : Signature) (t : Task) : Result Error bool * Task :=
  match retries with
  | O => (Ok false, t)
  | S retries' =>
    let (status, t) := rpc CallStatus (get_signature_status client k sig) t in
    match status with
    | Ok (Some (Ok _)) => (Ok true, t)
    | Ok (Some (Err status)) => (Err (TransactionFailedStatus status), t)
    | Ok None => confirm retries' (S k) client sig (sleep poll_interval t)
    | Err e => (Err (StatusQueryFailed e), t)
    end
  end.

Definition execute_single_transfer (lib : Library) (client : RpcClient)
    (keypair_path from_pubkey_str to_pubkey_str : string) (amount : Z) (t : Task)
  : Result Error (string * Z) * Task :=
  let start_time := now t in
  match read_keypair_file lib keypair_path with
  | Err e => (Err (ReadKeypairFailed e), t)
  | Ok from_keypair =>
  match Pubkey_from_str lib from_pubkey_str with
  | Err e => (Err (InvalidFromAddress e), t)
  | Ok from_pubkey =>
  match Pubkey_from_str lib to_pubkey_str with
  | Err e => (Err (InvalidToAddress e), t)
  | Ok to_pubkey =>
  if negb (String.eqb (pubkey from_keypair) from_pubkey)
  then (Err (KeypairMismatch (pubkey from_keypair) from_pubkey), t)
  else
  let instruction := transfer from_pubkey to_pubkey amount in
  let (recent_blockhash, t) := rpc CallBlockhash (get_latest_blockhash client) t in
  match recent_blockhash with
  | Err e => (Err (ClientError e), t)
  | Ok recent_blockhash =>
  let transaction :=
    new_signed_with_payer [instruction] (Some from_pubkey) [from_keypair]
                          recent_blockhash in
  let (signature, t) := rpc CallSend (send_transaction client transaction) t in
  match signature with
  | Err e => (Err (ClientError e), t)
  | Ok signature =>
  let (confirmed, t) := confirm max_retries 0 client signature t in
  match confirmed with
  | Err e => (Err e, t)
  | Ok false => (Err ConfirmationTimedOut, t)
  | Ok true =>
  let processing_time := now t - start_time in
  (Ok (signature, processing_time), t)
  end end end end end end.

(** The endpoint never reports a status for the transaction. *)
Definition never_reports (client : RpcClient) : Prop :=
  forall k sig, answer (get_signature_status client k sig) = Ok None.

(** Everything before the confirmation loop succeeds and the endpoint hands
    out [sig] for the transaction. *)
Definition submits (lib : Library) (client : RpcClient)
    (keypair_path from_pubkey_str to_pubkey_str : string) (amount : Z)
    (sig : Signature) : Prop :=
  exists from_keypair from_pubkey to_pubkey blockhash,
    read_keypair_file lib keypair_path = Ok from_keypair /\
    Pubkey_from_str lib from_pubkey_str = Ok from_pubkey /\
    Pubkey_from_str lib to_pubkey_str = Ok to_pubkey /\
    String.eqb (pubkey from_keypair) from_pubkey = true /\
    answer (get_latest_blockhash client) = Ok blockhash /\
    answer (send_transaction client
              (new_signed_with_payer [transfer from_pubkey to_pubkey amount]
                                     (Some from_pubkey) [from_keypair] blockhash))
      = Ok sig.

(** The outcome of one transfer in the words of the specification. *)
Definition outcome_of (r : Result Error (string * Z)) : Outcome :=
  match r with
  | Ok _ => Confirmed
  | Err (TransactionFailedStatus s) => Rejected s
  | Err ConfirmationTimedOut => TimedOut
  | Err (StatusQueryFailed c) => PollError c
  | Err e => PrecursorFailed (Error_text e)
  end.

(** How a call ends: it comes back or it panics. *)
Inductive Ran (A : Type) : Type :=
| Finished (a : A)
| Panic (msg : string).
Arguments Finished {A} a.
Arguments Panic {A} msg.

(** Indexing a vector, [v[i]]: a panic when [i] is out of bounds. *)
Definition index (A : Type) (v : list A) (i : nat) : option A := nth_error v i.

(** The body of a spawned task (lines 397-427). *)
Definition task_body (lib : Library) (client : RpcClient)
    (keypair_path from_pubkey_str to_pubkey_str : string) (amount : Z)
    (start : Z) : TransferResult :=
  let result :=
    fst (execute_single_transfer lib client keypair_path from_pubkey_str
                                 to_pubkey_str amount (boot start)) in
  match result with
  | Ok (signature, processing_time) =>
    mkResult from_pubkey_str to_pubkey_str signature true processing_time
  | Err e =>
    mkResult from_pubkey_str to_pubkey_str "FAILED" false 0
  end.

(** The destination for the source at index [i] (lines 379-383): [None] is
    the panic of an index out of bounds. *)
Definition to_wallet_of (config : WalletConfig) (i : nat) : option WalletInfo :=
  if (i <? List.length (to_wallets config))%nat
  then index (to_wallets config) i
  else index (to_wallets config) 0.

(** The loop of [execute_transfers] from index [i] on (lines 377-428),
    followed by [join_all], which keeps the tasks in the order they were
    spawned in.  The tasks run side by side from the same instant, the task
    of the i-th source wallet against [clients i]. *)
Fixpoint transfer_tasks (lib : Library) (clients : nat -> RpcClient)
    (config : WalletConfig) (amount : Z) (start : Z)
    (i : nat) (wallets : list WalletInfo) : Ran (list TransferResult) :=
  match wallets with
  | [] => Finished []
  | from_wallet :: rest =>
    match to_wallet_of config i with
    | None => Panic "index out of bounds"
    | Some to_wallet =>
      match keypair_path from_wallet with
      | None => transfer_tasks lib clients config amount start (S i) rest
      | Some path =>
        match transfer_tasks lib clients config amount start (S i) rest with
        | Panic msg => Panic msg
        | Finished results =>
          Finished (task_body lib (clients i) path (address from_wallet)
                              (address to_wallet) amount start :: results)
        end
      end
    end
  end.

Definition execute_transfers (lib : Library) (clients : nat -> RpcClient)
    (config : WalletConfig) (amount : Z) (start : Z)
  : Ran (Result string (list TransferResult)) :=
  match transfer_tasks lib clients config amount start 0 (from_wallets config) with
  | Panic msg => Panic msg
  | Finished results => Finished (Ok results)
  end.

(** The summary [main] prints (lines 356-365); the average is printed only
    when there is a result. *)
Record Report : Type := mkReport {
  total_transfers : nat;
  successful_transfers : nat;
  failed_transfers : nat;
  average_ms : option Z
}.

Definition as_millis (d : Z) : Z := d / Millisecond.

(** One turn of [for result in &results] (lines 341-354): the running
    [success_count] and [total_time]. *)
Definition tally (acc : nat * Z) (result : TransferResult) : nat * Z :=
  let (success_count, total_time) := acc in
  (if success result then S success_count else success_count,
   total_time + processing_time result).

(** Lines 338-365. *)
Definition summarize (results : list TransferResult) : Report :=
  let (success_count, total_time) := fold_left tally results (O, 0) in
  mkReport (List.length results) success_count
           (List.length results - success_count)%nat
           (if (List.length results =? 0)%nat then None
            else Some (as_millis total_time / Z.of_nat (List.length results))).

(** ** The table [main] prints (lines 341-354) *)

(** [s.is_char_boundary(i)] on the UTF-8 bytes of [s]: a byte that is not a
    continuation byte, or the end of the string. *)
Definition is_char_boundary (s : string) (i : nat) : bool :=
  match i with
  | O => true
  | S _ =>
    match String.get i s with
    | None => (i =? String.length s)%nat
    | Some b => negb ((128 <=? N_of_ascii b)%N && (N_of_ascii b <? 192)%N)
    end
  end.

(** [shorten_address] (lines 516-524).  Lengths and indices are in bytes;
    slicing a [str] at an index that is not a character boundary panics
    ([None]). *)
Definition shorten_address (address : string) : option string :=
  if (String.length address <=? 10)%nat then Some address
  else
    if is_char_boundary address 5
       && is_char_boundary address (String.length address - 5)
    then
      let start := substring 0 5 address in
      let ending := substring (String.length address - 5) 5 address in
      Some (start ++ "..." ++ ending)%string
    else None.

(** One line of the table. *)
Record Row : Type := mkRow {
  from_short : string;
  to_short : string;
  row_signature : string;
  status : string;
  time_ms : Z
}.

Definition print_row (result : TransferResult) : option Row :=
  match shorten_address (from result) with
  | None => None
  | Some from_short =>
    match shorten_address (to result) with
    | None => None
    | Some to_short =>
      Some (mkRow from_short to_short (signature result)
                  (if success result then "SUCCESS" else "FAILED")
                  (as_millis (processing_time result)))
    end
  end.

(** The rows of [for result in &results]; [None] when shortening an address
    panics (the rows before it have been printed by then; they are not kept
    here). *)
Fixpoint print_rows (results : list TransferResult) : option (list Row) :=
  match results with
  | [] => Some []
  | result :: rest =>
    match print_row result with
    | None => None
    | Some row =>
      match print_rows rest with
      | None => None
      | Some rows => Some (row :: rows)
      end
    end
  end.

(** [main] from line 329 on: the table, one row per result (lines 341-354),
    then the summary (lines 356-365).  An [Err] from [execute_transfers]
    would leave [main] through [?] with exit code 1; a panic ends the
    process with code 101; every other way out is [Ok(())]. *)
Definition main_with_table (lib : Library) (clients : nat -> RpcClient)
    (config : WalletConfig) (amount : Z) (start : Z)
  : ProcessEnd (list Row * Report) :=
  match execute_transfers lib clients config amount start with
  | Panic msg => Crashed 101 msg
  | Finished (Err e) => Crashed 1 e
  | Finished (Ok results) =>
    match print_rows results with
    | None => Crashed 101 "byte index is not a char boundary"
    | Some rows => Exit 0 (rows, summarize results)
    end
  end.

End Multi.

(* ===================================================================== *)
(** * Stand-ins for the world outside the repository *)
(* ===================================================================== *)

(** Concrete libraries and endpoints for the examples.  [DecodeString] is
    the standard base64 alphabet with padding; the key and address
    functions are simple stand-ins with the shape of the real ones (a
    64-byte key, a base58 address of 32 to 44 characters). *)
Module Stub.

Definition b64_value (c : ascii) : option N :=
  let n := N_of_ascii c in
  if ((65 <=? n) && (n <=? 90))%N then Some (n - 65)%N
  else if ((97 <=? n) && (n <=? 122))%N then Some (n - 71)%N
  else if ((48 <=? n) && (n <=? 57))%N then Some (n + 4)%N
  else if (n =? 43)%N then Some 62%N
  else if (n =? 47)%N then Some 63%N
  else None.

Definition byte_of (n : N) : Byte.byte :=
  match Byte.of_N (n mod 256) with
  | Some b => b
  | None => Byte.x00
  end.

Definition is_pad (c : ascii) : bool := (N_of_ascii c =? 61)%N.

(** Four characters give three bytes; the last group may be padded. *)
Fixpoint decode_quads (l : list ascii) : option (list Byte.byte) :=
  match l with
  | [] => Some []
  | a :: b :: c :: d :: rest =>
    match b64_value a, b64_value b with
    | Some x, Some y =>
      let b1 := byte_of (x * 4 + y / 16) in
      if is_pad d then
        match rest with
        | [] =>
          if is_pad c then Some [b1]
          else
            match b64_value c with
            | Some z => Some [b1; byte_of (y * 16 + z / 4)]
            | None => None
            end
        | _ => None
        end
      else
        match b64_value c, b64_value d, decode_quads rest with
        | Some z, Some w, Some tl =>
          Some (b1 :: byte_of (y * 16 + z / 4) :: byte_of (z * 64 + w) :: tl)
        | _, _, _ => None
        end
    | _, _ => None
    end
  | _ => None
  end.

(** [base64.StdEncoding.DecodeString]: the buffer is made for
    [len(s) / 4 * 3] bytes and the result is its decoded prefix. *)
Definition DecodeString (s : string) : Result string Slice :=
  match decode_quads (list_ascii_of_string s) with
  | Some bs =>
    Ok (mkSlice (bs ++ repeat Byte.x00 (String.length s / 4 * 3 - List.length bs))
                (List.length bs))
  | None => Err "illegal base64 data"%string
  end.

Definition base58_alphabet : string :=
  "123456789ABCDEFGHJKLMNPQRSTUVWXYZabcdefghijkmnopqrstuvwxyz".

Definition base58_digit (b : Byte.byte) : ascii :=
  match String.get (N.to_nat (Byte.to_N b) mod 58) base58_alphabet with
  | Some c => c
  | None => "1"%char
  end.

Definition is_base58 (c : ascii) : bool :=
  existsb (Ascii.eqb c) (list_ascii_of_string base58_alphabet).

Definition well_formed_address (s : string) : bool :=
  ((32 <=? String.length s) && (String.length s <=? 44))%nat
  && forallb is_base58 (list_ascii_of_string s).

Definition parse_address (s : string) : Result string PublicKey :=
  if well_formed_address s then Ok s else Err "invalid base58 address"%string.

Definition golib : Go.Library :=
  Go.mkLibrary
    DecodeString
    (fun seed => seed ++ seed)
    (fun key =>
       if (List.length key =? 64)%nat
       then Some (mkAccount key
                    (string_of_list_ascii (map base58_digit (skipn 32 key))))
       else None)
    parse_address
    (fun ixs blockhash payer =>
       match ixs with
       | [] => Err "no instructions"%string
       | _ => Ok (mkTransaction ixs blockhash payer [])
       end)
    (fun tx key_of =>
       match key_of (tx_Payer tx) with
       | Some _ =>
         Ok (mkTransaction (tx_Instructions tx) (tx_RecentBlockhash tx)
                           (tx_Payer tx) ["5sig"%string])
       | None => Err "signer key not found"%string
       end).

Fixpoint replicate (n : nat) (c : ascii) : string :=
  match n with
  | O => EmptyString
  | S n' => String c (replicate n' c)
  end.

(** 64 zero bytes in base64; its public key reads as 32 ones. *)
Definition good_key : string := (replicate 86 "A" ++ "==")%string.
(** 16 zero bytes in base64. *)
Definition short_key : string := "AAAAAAAAAAAAAAAAAAAAAA==".
(** The placeholders of the sample configuration file. *)
Definition placeholder_key : string := "BASE64_PRIVATE_KEY_1".
Definition placeholder_address : string := "TARGET_WALLET_ADDRESS_1".
Definition good_address : string := "Vote111111111111111111111111111111111111111".
Definition system_address : string := replicate 32 "1".

Definition ms (n : Z) : Z := n * Millisecond.

(** An endpoint that accepts the transaction and reports no status before
    the [n]-th status query (counted from 0), then [st]. *)
Definition go_endpoint (n : nat) (st : Result string (list (option SignatureStatus)))
  : Go.Client :=
  Go.mkClient
    (fun _ => mkReply (ms 10) (Ok "hash"%string))
    (fun _ _ => mkReply (ms 10) (Ok "5sig"%string))
    (fun k _ => if (k <? n)%nat then mkReply (ms 5) (Ok [None])
                else mkReply (ms 5) st).

(** An endpoint that never reports a status. *)
Definition go_silent : Go.Client :=
  Go.mkClient
    (fun _ => mkReply (ms 10) (Ok "hash"%string))
    (fun _ _ => mkReply (ms 10) (Ok "5sig"%string))
    (fun _ _ => mkReply (ms 5) (Ok [None])).

(** An endpoint whose blockhash request fails after 7 ms. *)
Definition go_down : Go.Client :=
  Go.mkClient
    (fun _ => mkReply (ms 7) (Err "connection refused"%string))
    (fun _ _ => mkReply (ms 10) (Err "connection refused"%string))
    (fun _ _ => mkReply (ms 5) (Err "connection refused"%string)).

Definition go_confirmed : Result string (list (option SignatureStatus)) :=
  Ok [Some (mkStatus None)].

Definition rustlib : Multi.Library :=
  Multi.mkLibrary
    (fun path =>
       if String.eqb path "id.json"
       then Ok (Multi.mkKeypair (repeat Byte.x00 64) system_address)
       else Err "No such file or directory"%string)
    parse_address.

Definition rust_endpoint (n : nat) (st : Result string (option (Result string unit)))
  : Multi.RpcClient :=
  Multi.mkRpcClient
    (mkReply (ms 10) (Ok "hash"%string))
    (fun _ => mkReply (ms 10) (Ok "5sig"%string))
    (fun k _ => if (k <? n)%nat then mkReply (ms 5) (Ok None)
                else mkReply (ms 5) st).

Definition rust_silent : Multi.RpcClient :=
  Multi.mkRpcClient
    (mkReply (ms 10) (Ok "hash"%string))
    (fun _ => mkReply (ms 10) (Ok "5sig"%string))
    (fun _ _ => mkReply (ms 5) (Ok None)).

Definition rust_down : Multi.RpcClient :=
  Multi.mkRpcClient
    (mkReply (ms 7) (Err "connection refused"%string))
    (fun _ => mkReply (ms 10) (Err "connection refused"%string))
    (fun _ _ => mkReply (ms 5) (Err "connection refused"%string)).

Definition sample_transfer : Bulk.TransferInstruction :=
  Bulk.mkTransfer good_key good_address 100000000.

Definition sample_source : Multi.WalletInfo :=
  Multi.mkWallet system_address (Some "id.json").

Definition keyless_source : Multi.WalletInfo :=
  Multi.mkWallet system_address None.

Definition sample_destination : Multi.WalletInfo :=
  Multi.mkWallet good_address None.

(** A batch of two transfers: the endpoint confirms the first at its fourth
    status query and is down for the second. *)
Definition mixed_clients (i : nat) : Go.Client :=
  match i with
  | O => go_endpoint 3 go_confirmed
  | S _ => go_down
  end.

Definition mixed_config : Bulk.Config :=
  Bulk.mkConfig "https://api.devnet.solana.com" [sample_transfer; sample_transfer].

(** The state the first worker of that batch ends in, and the one the
    second ends in. *)
Definition confirmed_end : Bulk.Task :=
  Eval vm_compute in
    final (Bulk.executeTransfer 30 golib (go_endpoint 3 go_confirmed)
             sample_transfer (spawn Bulk.TransferResult 0)).

Definition down_end : Bulk.Task :=
  Eval vm_compute in
    final (Bulk.executeTransfer 30 golib go_down sample_transfer
             (spawn Bulk.TransferResult 0)).

(** What [main] prints for that batch. *)
Definition mixed_report : Bulk.Report :=
  Eval vm_compute in
    match Bulk.main 30 golib mixed_clients mixed_config 0 with
    | Exit _ report => report
    | _ => Bulk.mkReport 0 0 0 0 0 0 0
    end.

(** Three sources and one destination, against an endpoint that is down,
    and the results [execute_transfers] returns for them. *)
Definition three_sources_one_destination : Multi.WalletConfig :=
  Multi.mkWalletConfig [sample_source; sample_source; sample_source]
                       [sample_destination].

Definition three_results : list Multi.TransferResult :=
  Eval vm_compute in
    match Multi.execute_transfers rustlib (fun _ => rust_down)
            three_sources_one_destination 100000000 0 with
    | Multi.Finished (Ok results) => results
    | _ => []
    end.

(** The 16-byte key as [DecodeString] hands it over: length 16 in a buffer
    of 18. *)
Definition short_slice : Slice := mkSlice (repeat Byte.x00 18) 16.

End Stub.

(* ===================================================================== *)
(** * The words of the claims *)
(* ===================================================================== *)

Module Claims.

(** The status query number [k] of a Go task answers "absent". *)
Definition absent_at (client : Go.Client) (sig : Signature) (k : nat) : Prop :=
  exists rest, answer (GetSignatureStatuses client k [sig]) = Ok (None :: rest).

(** The source wallet names a keypair file. *)
Definition has_keypair (w : Multi.WalletInfo) : bool :=
  match Multi.keypair_path w with
  | Some _ => true
  | None => false
  end.

(** What the result of a Go worker that ran from [start] to [finish] looks
    like: the time in it is the time the worker took when the status loop
    ended with a status, and zero otherwise; the worker has no other
    outcome. *)
Definition go_result_ok (start finish : Z) (r : Bulk.TransferResult) : Prop :=
  match Bulk.outcome_of r with
  | Confirmed | Rejected _ => Bulk.ProcessingTime r = finish - start
  | PrecursorFailed _ | PollError _ => Bulk.ProcessingTime r = 0
  | TimedOut | Cancelled => False
  end.

(** The result has an error, as [main] tests it (line 231). *)
Definition has_error (r : Bulk.TransferResult) : bool :=
  match Bulk.Error r with
  | Some _ => true
  | None => false
  end.

(** The source key of a Go transfer is not valid base64. *)
Definition malformed_key (lib : Go.Library) (transfer : Bulk.TransferInstruction)
  : Prop :=
  exists e, DecodeString lib (Bulk.FromPrivateKey transfer) = Err e.

(** The destination address of a Go transfer does not parse. *)
Definition malformed_destination (lib : Go.Library)
    (transfer : Bulk.TransferInstruction) : Prop :=
  exists e, PublicKeyFromBase58 lib (Bulk.ToAddress transfer) = Err e.

(** The source key decodes and the library makes an account of it. *)
Definition key_accepted (lib : Go.Library) (transfer : Bulk.TransferInstruction)
  : Prop :=
  exists privateKeyBytes account,
    DecodeString lib (Bulk.FromPrivateKey transfer) = Ok privateKeyBytes /\
    NewAccountFromPrivateKeyBytes lib (elems privateKeyBytes) = Some account.

(** The source key decodes and the library panics on the decoded bytes. *)
Definition key_unusable (lib : Go.Library) (transfer : Bulk.TransferInstruction)
  : Prop :=
  exists privateKeyBytes,
    DecodeString lib (Bulk.FromPrivateKey transfer) = Ok privateKeyBytes /\
    NewAccountFromPrivateKeyBytes lib (elems privateKeyBytes) = None.

(** With a key the library accepts, one of the steps of a Go worker between
    the account and the status loop comes back with an error: parsing the
    destination address, fetching the blockhash, building the transaction,
    signing it, or submitting it. *)
Definition fails_before_polling (lib : Go.Library) (client : Go.Client)
    (transfer : Bulk.TransferInstruction) : Prop :=
  exists privateKeyBytes account,
    DecodeString lib (Bulk.FromPrivateKey transfer) = Ok privateKeyBytes /\
    NewAccountFromPrivateKeyBytes lib (elems privateKeyBytes) = Some account /\
    ((exists e, PublicKeyFromBase58 lib (Bulk.ToAddress transfer) = Err e) \/
     exists destination,
       PublicKeyFromBase58 lib (Bulk.ToAddress transfer) = Ok destination /\
       ((exists e, answer (GetRecentBlockhash client CommitmentFinalized) = Err e) \/
        exists blockhash,
          answer (GetRecentBlockhash client CommitmentFinalized) = Ok blockhash /\
          ((exists e,
               NewTransaction lib
                 [NewTransferInstruction (Bulk.Amount transfer)
                    (acc_PublicKey account) destination]
                 blockhash (acc_PublicKey account) = Err e) \/
           exists tx,
             NewTransaction lib
               [NewTransferInstruction (Bulk.Amount transfer)
                  (acc_PublicKey account) destination]
               blockhash (acc_PublicKey account) = Ok tx /\
             ((exists e,
                  Sign lib tx (fun key =>
                                 if String.eqb (acc_PublicKey account) key
                                 then Some (acc_PrivateKey account) else None)
                  = Err e) \/
              exists tx',
                Sign lib tx (fun key =>
                               if String.eqb (acc_PublicKey account) key
                               then Some (acc_PrivateKey account) else None)
                = Ok tx' /\
                exists e,
                  answer (SendTransactionWithOpts client tx'
                            (mkOpts false CommitmentFinalized)) = Err e)))).

(** The status query number [k] of a Go task fails, or answers with a list
    that starts with a status. *)
Definition settled_at (client : Go.Client) (sig : Signature) (k : nat) : Prop :=
  (exists e, answer (GetSignatureStatuses client k [sig]) = Err e) \/
  (exists st rest,
      answer (GetSignatureStatuses client k [sig]) = Ok (Some st :: rest)).

(** The run of a Go worker meets an error, or a status, within [fuel] turns
    of the status loop: the key is not valid base64, or a step before the
    loop fails, or the transaction is submitted and, after fewer than [fuel]
    answers "absent", a status query fails or reports a status. *)
Definition settles (fuel : nat) (lib : Go.Library) (client : Go.Client)
    (transfer : Bulk.TransferInstruction) : Prop :=
  malformed_key lib transfer \/
  fails_before_polling lib client transfer \/
  exists sig n,
    Bulk.submits lib client transfer sig /\
    (n < fuel)%nat /\
    (forall j, (j < n)%nat -> absent_at client sig j) /\
    settled_at client sig n.

End Claims.

(* ===================================================================== *)
(** * Further vocabulary *)
(* ===================================================================== *)

Module Facts.

(** The time the Go status queries number [k], ..., [k + n - 1] take. *)
Fixpoint status_latency (client : Go.Client) (sig : Signature) (k n : nat) : Z :=
  match n with
  | O => 0
  | S n' =>
    latency (GetSignatureStatuses client k [sig])
    + status_latency client sig (S k) n'
  end.

(** The same for the Rust endpoint. *)
Fixpoint rust_status_latency (client : Multi.RpcClient) (sig : Signature)
    (k n : nat) : Z :=
  match n with
  | O => 0
  | S n' =>
    latency (Multi.get_signature_status client k sig)
    + rust_status_latency client sig (S k) n'
  end.

(** The status query number [k] of a Rust task answers "absent". *)
Definition rust_absent_at (client : Multi.RpcClient) (sig : Signature) (k : nat)
  : Prop :=
  answer (Multi.get_signature_status client k sig) = Ok None.

(** The key slice can be cut to 32 bytes and the library makes an account
    of the key derived from them. *)
Definition seed_accepted (lib : Go.Library) (privateKeyBytes : Slice) : Prop :=
  (32 <= cap privateKeyBytes)%nat /\
  exists account,
    NewAccountFromPrivateKeyBytes lib
      (NewKeyFromSeed lib (firstn 32 (array privateKeyBytes))) = Some account.

(** The updates with a slot among the updates received before the first
    receive error. *)
Fixpoint slots_before_error (stream : list Geyser.Received) : list Z :=
  match stream with
  | [] => []
  | Geyser.RecvFailed _ :: _ => []
  | Geyser.Update None :: rest => slots_before_error rest
  | Geyser.Update (Some slot) :: rest => slot :: slots_before_error rest
  end.

Definition has_receive_error (stream : list Geyser.Received) : bool :=
  existsb (fun u => match u with Geyser.RecvFailed _ => true | _ => false end)
          stream.

(** The lines that report the end of an attempt to send. *)
Definition is_attempt (l : Geyser.Line) : bool :=
  match l with
  | Geyser.FailedToSend _ | Geyser.SentFor _ => true
  | _ => false
  end.

(** Every byte of the string is below 128. *)
Definition is_ascii (s : string) : bool :=
  forallb (fun c => (N_of_ascii c <? 128)%N) (list_ascii_of_string s).


(** The least and the greatest of a list of durations. *)
Definition least (x : Z) (l : list Z) : Z := fold_left Z.min l x.
Definition greatest (x : Z) (l : list Z) : Z := fold_left Z.max l x.

Definition times (l : list Bulk.TransferResult) : list Z :=
  map Bulk.ProcessingTime l.

Definition sum (l : list Z) : Z := fold_left Z.add l 0.

(** The calls of a status loop, in order: a status query, then a sleep and
    the next status query, and so on; the last call is a status query (the
    loop ended) or a sleep (it is still running). *)
Fixpoint polling_order (l : list Call) : bool :=
  match l with
  | [] => true
  | CallStatus :: rest =>
    match rest with
    | [] => true
    | CallSleep :: rest' => polling_order rest'
    | _ => false
    end
  | _ => false
  end.

(** The calls of a Go worker, in order: none; or a blockhash request; or a
    blockhash request, then a submission, then the calls of a status
    loop. *)
Definition go_worker_order (l : list Call) : bool :=
  match l with
  | [] => true
  | [CallBlockhash] => true
  | CallBlockhash :: CallSend :: rest => polling_order rest
  | _ => false
  end.

(** The calls of [sendTransaction], in order: none; or a blockhash request;
    or a blockhash request, then a submission. *)
Definition geyser_order (l : list Call) : bool :=
  match l with
  | [] => true
  | [CallBlockhash] => true
  | [CallBlockhash; CallSend] => true
  | _ => false
  end.

(** Every blockhash request of the event loop is answered with a blockhash
    or with an error. *)
Definition blockhash_answered (clients : nat -> Go.Client) : Prop :=
  forall n,
    (exists blockhash,
        answer (GetRecentBlockhash (clients n) CommitmentFinalized)
        = Ok blockhash) \/
    (exists e,
        answer (GetRecentBlockhash (clients n) CommitmentFinalized) = Err e).

(** Both addresses of a row of the table can be shortened. *)
Definition row_prints (f d : string) : bool :=
  match Multi.shorten_address f, Multi.shorten_address d with
  | Some _, Some _ => true
  | _, _ => false
  end.

(** What the wallet lists alone decide about a run of the Rust [main], for
    the source wallets from index [i] on: [None] when picking a destination
    panics, and otherwise whether every row of the table can be printed. *)
Fixpoint table_prints (config : Multi.WalletConfig) (i : nat)
    (wallets : list Multi.WalletInfo) : option bool :=
  match wallets with
  | [] => Some true
  | w :: rest =>
    match Multi.to_wallet_of config i with
    | None => None
    | Some d =>
      match table_prints config (S i) rest with
      | None => None
      | Some b =>
        Some (match Multi.keypair_path w with
              | None => b
              | Some _ =>
                row_prints (Multi.address w) (Multi.address d) && b
              end)
      end
    end
  end.

End Facts.

(* ===================================================================== *)
(** * Further sample data *)
(* ===================================================================== *)

Module Samples.

(** An endpoint whose third status query fails. *)
Definition go_flaky : Go.Client :=
  Stub.go_endpoint 2 (Err "connection reset").

(** An endpoint that reports an on-chain error at the second status
    query. *)
Definition go_rejecting : Go.Client :=
  Stub.go_endpoint 1 (Ok [Some (mkStatus (Some "insufficient funds"))]).

(** The Rust endpoint confirming at its fourth status query. *)
Definition rust_confirming : Multi.RpcClient :=
  Stub.rust_endpoint 3 (Ok (Some (Ok tt))).

(** The Rust endpoint that would confirm at its twenty-first status query. *)
Definition rust_late : Multi.RpcClient :=
  Stub.rust_endpoint 20 (Ok (Some (Ok tt))).

(** A 64-byte key slice in a buffer of 66, and a 40-byte one with the same
    first 32 bytes. *)
Definition full_slice : Slice := mkSlice (repeat Byte.x00 66) 64.
Definition other_slice : Slice :=
  mkSlice (repeat Byte.x00 32 ++ repeat Byte.xff 10) 40.

(** A stream of four updates, the second without a slot, then an error. *)
Definition sample_stream : list Geyser.Received :=
  [Geyser.Update (Some 100); Geyser.Update None; Geyser.Update (Some 101);
   Geyser.Update (Some 102); Geyser.RecvFailed "EOF";
   Geyser.Update (Some 103)].

(** The endpoint is down for the second transaction only. *)
Definition sample_clients (n : nat) : Go.Client :=
  match n with
  | 1%nat => Stub.go_down
  | _ => Stub.go_silent
  end.



(** Three results of the Go batch with times 5, 0 and 7 ms. *)
Definition timed (t : Z) (e : option Bulk.error) : Bulk.TransferResult :=
  Bulk.mkResult "" "" 1 "" "" t e.

(** A batch of two transfers that the endpoint confirms, the first at its
    fourth status query and the second at its second; what the channel
    carries for it and what [main] prints. *)
Definition steady_clients (i : nat) : Go.Client :=
  match i with
  | O => Stub.go_endpoint 3 Stub.go_confirmed
  | S _ => Stub.go_endpoint 1 Stub.go_confirmed
  end.

Definition steady_channel : list Bulk.TransferResult :=
  Eval vm_compute in
    Bulk.channel
      (Bulk.run_workers 30 Stub.golib steady_clients 0
         (Bulk.Transfers Stub.mixed_config) 0).

Definition steady_report : Bulk.Report :=
  Eval vm_compute in
    match Bulk.main 30 Stub.golib steady_clients Stub.mixed_config 0 with
    | Exit _ report => report
    | _ => Bulk.mkReport 0 0 0 0 0 0 0
    end.

(** The state [sendTransaction] ends in when all goes well. *)
Definition sent_end : Geyser.Task :=
  Eval vm_compute in
    final (Geyser.sendTransaction Stub.golib Stub.go_silent full_slice
             Stub.good_address 100000000 (spawn Empty_set 0)).

(** What the event loop logs for [sample_stream] and how it ends. *)
Definition sample_lines : list Geyser.Line :=
  Eval vm_compute in
    fst (Geyser.event_loop Stub.golib sample_clients full_slice
           Stub.good_address 100000000 sample_stream 0 (spawn Empty_set 0)).

Definition sample_ending : Run Empty_set unit :=
  Eval vm_compute in
    snd (Geyser.event_loop Stub.golib sample_clients full_slice
           Stub.good_address 100000000 sample_stream 0 (spawn Empty_set 0)).

(** A batch whose second transfer is never reported on. *)
Definition stuck_clients (i : nat) : Go.Client :=
  match i with
  | 1%nat => Stub.go_silent
  | _ => Stub.go_endpoint 3 Stub.go_confirmed
  end.

End Samples.

(* ===================================================================== *)
(** * Properties *)
(* ===================================================================== *)

(** An early [return] of [executeTransfer]: the run is the send of one
    result, and a fact about that result holds by computation ([tac]). *)
Ltac early_return tac :=
  intros [= <-]; eexists; split; [reflexivity|tac].

(** A fact about a concrete run, settled by evaluation. *)
Ltac by_evaluation := vm_compute; reflexivity.

(** The steps before the loop, one conjunct each, on concrete inputs. *)
Ltac each_step_evaluates :=
  repeat (split; [by_evaluation|]); by_evaluation.

Lemma count_calls_app (c : Call) (l1 l2 : list Event) :
  count_calls c (l1 ++ l2) = (count_calls c l1 + count_calls c l2)%nat.
Proof.
  unfold count_calls. rewrite filter_app, List.length_app. reflexivity.
Qed.

(** ** The confirmation loops *)

Section RustLoop.

Variable client : Multi.RpcClient.
Hypothesis silent : Multi.never_reports client.

(** Against an endpoint that never reports, [n] turns of the Rust loop make
    [n] status queries, sleep [n] times, and leave [confirmed] unset. *)
Lemma confirm_silent (n : nat) :
  forall k sig t,
  exists t',
    Multi.confirm n k client sig t = (Ok false, t') /\
    count_calls CallStatus (Multi.log t')
      = (count_calls CallStatus (Multi.log t) + n)%nat /\
    count_calls CallSleep (Multi.log t')
      = (count_calls CallSleep (Multi.log t) + n)%nat /\
    count_calls CallSend (Multi.log t') = count_calls CallSend (Multi.log t).
Proof.
  induction n as [|n IH]; intros k sig t.
  - exists t. cbn. repeat split; lia.
  - cbn [Multi.confirm]. unfold Multi.rpc. rewrite (silent k sig).
    destruct (IH (S k) sig
                 (Multi.sleep poll_interval
                    (Multi.mkTask
                       (Multi.now t
                        + latency (Multi.get_signature_status client k sig))
                       (Multi.log t ++ [(Multi.now t, CallStatus)]))))
      as (t' & Hrun & Hq & Hs & Hsend).
    exists t'. split; [exact Hrun|].
    rewrite Hq, Hs, Hsend. cbn [Multi.sleep Multi.log Multi.now].
    rewrite !count_calls_app. cbn. repeat split; lia.
Qed.

End RustLoop.

Section GoLoop.

Variable client : Go.Client.
Hypothesis silent : Bulk.never_reports client.

(** Against the same endpoint the Go loop is still running after any number
    of turns, with one status query made per turn. *)
Lemma poll_silent (fuel : nat) :
  forall k sig startTime result g,
  exists g',
    Bulk.poll fuel k client sig startTime result g = Spinning g' /\
    count_calls CallStatus (calls g')
      = (count_calls CallStatus (calls g) + fuel)%nat /\
    sent g' = sent g.
Proof.
  induction fuel as [|fuel IH]; intros k sig startTime result g.
  - exists g. cbn. repeat split; lia.
  - cbn [Bulk.poll]. unfold rpc. rewrite (silent k [sig]).
    match goal with
    | |- context [Bulk.poll fuel (S k) client sig startTime result ?g1] =>
      destruct (IH (S k) sig startTime result g1) as (g' & Hrun & Hq & Hs)
    end.
    exists g'. split; [exact Hrun|].
    rewrite Hq, Hs. cbn [Sleep calls sent].
    rewrite !count_calls_app. cbn. split; [lia|reflexivity].
Qed.

End GoLoop.

(** A submitted Go transfer enters the status loop. *)
Lemma executeTransfer_submitted fuel lib client transfer sig g :
  Bulk.submits lib client transfer sig ->
  exists result g1,
    Bulk.executeTransfer fuel lib client transfer g
      = Bulk.poll fuel 0 client sig (clock g) result g1 /\
    sent g1 = sent g /\
    count_calls CallStatus (calls g1) = count_calls CallStatus (calls g) /\
    count_calls CallSend (calls g1) = S (count_calls CallSend (calls g)) /\
    Bulk.ResSignature result = sig /\ Bulk.Error result = None /\
    Bulk.ProcessingTime result = 0.
Proof.
  intros (pk & account & destination & blockhash & tx & tx' &
          Hdec & Hacc & Hdst & Hbh & Htx & Hsign & Hsend).
  unfold Bulk.executeTransfer, rpc.
  rewrite Hdec, Hacc, Hdst, Hbh, Htx, Hsign, Hsend.
  eexists. eexists. split; [reflexivity|].
  cbn [calls sent Bulk.ResSignature Bulk.Error Bulk.ProcessingTime
       Bulk.set_Signature Bulk.set_ToAccount Bulk.set_FromAccount].
  rewrite !count_calls_app. cbn. repeat split; lia.
Qed.

(** A submitted Rust transfer enters the confirmation loop. *)
Lemma execute_single_transfer_submitted lib client kp f d amount sig t :
  Multi.submits lib client kp f d amount sig ->
  exists t1,
    Multi.execute_single_transfer lib client kp f d amount t
      = (let (confirmed, t2) := Multi.confirm Multi.max_retries 0 client sig t1 in
         match confirmed with
         | Err e => (Err e, t2)
         | Ok false => (Err Multi.ConfirmationTimedOut, t2)
         | Ok true => (Ok (sig, Multi.now t2 - Multi.now t), t2)
         end) /\
    count_calls CallStatus (Multi.log t1) = count_calls CallStatus (Multi.log t) /\
    count_calls CallSend (Multi.log t1) = S (count_calls CallSend (Multi.log t)).
Proof.
  intros (kpair & fp & tp & bh & Hkp & Hf & Hd & Heq & Hbh & Hsend).
  unfold Multi.execute_single_transfer, Multi.rpc.
  rewrite Hkp, Hf, Hd, Heq, Hbh. cbn [negb]. rewrite Hsend.
  eexists. split; [reflexivity|].
  cbn [Multi.log]. rewrite !count_calls_app. cbn. split; lia.
Qed.

Lemma go_silent_never_reports : Bulk.never_reports Stub.go_silent.
Proof. intros k sigs. reflexivity. Qed.

Lemma rust_silent_never_reports : Multi.never_reports Stub.rust_silent.
Proof. intros k sig. reflexivity. Qed.

Lemma sample_transfer_submits :
  Bulk.submits Stub.golib Stub.go_silent Stub.sample_transfer "5sig".
Proof.
  unfold Bulk.submits.
  do 6 eexists. each_step_evaluates.
Qed.

Lemma sample_wallet_submits :
  Multi.submits Stub.rustlib Stub.rust_silent "id.json" Stub.system_address
                Stub.good_address 100000000 "5sig".
Proof.
  unfold Multi.submits.
  do 4 eexists. each_step_evaluates.
Qed.

(** ** C1: the retry budget *)

(** C1, as the programs have it.  In the Rust CLI a submitted transaction
    whose status query always answers "absent" leaves the confirmation loop
    after exactly 20 status queries, and [execute_single_transfer] returns
    the timed-out error.  The status loop of the Go worker has no budget:
    against the same endpoint it is still running after any number of turns,
    having made one status query per turn and sent no result. *)
Theorem C1_retry_budget :
  (forall lib client kp f d amount sig t,
      Multi.never_reports client ->
      Multi.submits lib client kp f d amount sig ->
      exists t',
        Multi.execute_single_transfer lib client kp f d amount t
          = (Err Multi.ConfirmationTimedOut, t') /\
        Multi.outcome_of (Err Multi.ConfirmationTimedOut) = TimedOut /\
        count_calls CallStatus (Multi.log t')
          = (count_calls CallStatus (Multi.log t) + 20)%nat)
  /\
  (forall lib client transfer sig g fuel,
      Bulk.never_reports client ->
      Bulk.submits lib client transfer sig ->
      exists g',
        Bulk.executeTransfer fuel lib client transfer g = Spinning g' /\
        count_calls CallStatus (calls g')
          = (count_calls CallStatus (calls g) + fuel)%nat /\
        sent g' = sent g).
Proof.
  split.
  - intros lib client kp f d amount sig t Hsilent Hsub.
    destruct (execute_single_transfer_submitted t Hsub) as (t1 & Hrun & Hq & _).
    destruct (confirm_silent Hsilent Multi.max_retries 0 sig t1)
      as (t' & Hloop & Hq' & _).
    exists t'. rewrite Hrun, Hloop. split; [reflexivity|].
    split; [reflexivity|]. rewrite Hq', Hq. reflexivity.
  - intros lib client transfer sig g fuel Hsilent Hsub.
    destruct (executeTransfer_submitted fuel g Hsub)
      as (result & g1 & Hrun & Hs & Hq & _).
    destruct (poll_silent Hsilent fuel 0 sig (clock g) result g1)
      as (g' & Hloop & Hq' & Hs').
    exists g'. rewrite Hrun, Hloop. split; [reflexivity|].
    rewrite Hq', Hq, Hs', Hs. split; reflexivity.
Qed.

Lemma C1_retry_budget_witness :
  (Multi.never_reports Stub.rust_silent /\
   Multi.submits Stub.rustlib Stub.rust_silent "id.json" Stub.system_address
                 Stub.good_address 100000000 "5sig" /\
   exists t',
     Multi.execute_single_transfer Stub.rustlib Stub.rust_silent "id.json"
       Stub.system_address Stub.good_address 100000000 (Multi.boot 0)
       = (Err Multi.ConfirmationTimedOut, t') /\
     Multi.outcome_of (Err Multi.ConfirmationTimedOut) = TimedOut /\
     count_calls CallStatus (Multi.log t') = 20%nat)
  /\
  (Bulk.never_reports Stub.go_silent /\
   Bulk.submits Stub.golib Stub.go_silent Stub.sample_transfer "5sig" /\
   exists g',
     Bulk.executeTransfer 1000 Stub.golib Stub.go_silent Stub.sample_transfer
       (spawn Bulk.TransferResult 0) = Spinning g' /\
     count_calls CallStatus (calls g') = 1000%nat /\
     sent g' = []).
Proof.
  destruct C1_retry_budget as [rust go].
  split.
  - split; [exact rust_silent_never_reports|].
    split; [exact sample_wallet_submits|].
    exact (rust Stub.rustlib Stub.rust_silent "id.json"%string
                Stub.system_address Stub.good_address 100000000 "5sig"%string
                (Multi.boot 0) rust_silent_never_reports sample_wallet_submits).
  - split; [exact go_silent_never_reports|].
    split; [exact sample_transfer_submits|].
    exact (go Stub.golib Stub.go_silent Stub.sample_transfer "5sig"%string
              (spawn Bulk.TransferResult 0) 1000%nat
              go_silent_never_reports sample_transfer_submits).
Defined.

(** C1 as stated fails on the Go worker: against an endpoint that accepts
    the transaction and never reports a status, the loop has made 21 status
    queries and is still running, and no amount of fuel makes
    [executeTransfer] return. *)
Lemma C1_go_loop_has_no_budget :
  Bulk.never_reports Stub.go_silent /\
  Bulk.submits Stub.golib Stub.go_silent Stub.sample_transfer "5sig" /\
  (exists g',
      Bulk.executeTransfer 21 Stub.golib Stub.go_silent Stub.sample_transfer
        (spawn Bulk.TransferResult 0) = Spinning g' /\
      count_calls CallStatus (calls g') = 21%nat) /\
  ~ (exists fuel g',
        Bulk.executeTransfer fuel Stub.golib Stub.go_silent Stub.sample_transfer
          (spawn Bulk.TransferResult 0) = Returned tt g').
Proof.
  split; [exact go_silent_never_reports|].
  split; [exact sample_transfer_submits|].
  split.
  - eexists. split; vm_compute; reflexivity.
  - intros (fuel & g' & Hret).
    destruct (executeTransfer_submitted fuel (spawn Bulk.TransferResult 0)
                sample_transfer_submits) as (result & g1 & Hrun & _).
    destruct (poll_silent go_silent_never_reports fuel 0 "5sig"%string
                (clock (spawn Bulk.TransferResult 0)) result g1)
      as (g2 & Hloop & _).
    rewrite Hrun, Hloop in Hret. discriminate Hret.
Qed.

(** ** C2: the empty batch *)

(** C2 at the failing input.  With no transfers configured, the Go [main]
    reaches the division of line 244 with a zero divisor and the process
    ends in a panic, whatever the library and the endpoint are. *)
Theorem C2_go_main_divides_by_zero :
  forall fuel lib clients url start,
    Bulk.main fuel lib clients (Bulk.mkConfig url []) start
      = Crashed 2 "integer divide by zero".
Proof.
  intros fuel lib clients url start. reflexivity.
Qed.

(** The Rust [main] has the guard: on an empty list of results it prints the
    counts and no average. *)
Lemma rust_main_empty lib clients to_list amount start :
  Multi.main_with_table lib clients (Multi.mkWalletConfig [] to_list) amount start
    = Exit 0 ([], Multi.mkReport 0 0 0 None).
Proof. reflexivity. Qed.

(** ** What a Go worker that returns has done *)

(** A status loop that returns has sent one result; it made [n + 1] status
    queries, of which the first [n] answered "absent" and the last did
    not. *)
Lemma poll_returned (client : Go.Client) (sig : Signature) (startTime : Z)
    (result : Bulk.TransferResult) :
  Bulk.Error result = None ->
  Bulk.ProcessingTime result = 0 ->
  forall fuel k g g',
    Bulk.poll fuel k client sig startTime result g = Returned tt g' ->
    exists n r,
      sent g' = sent g ++ [r] /\
      Claims.go_result_ok startTime (clock g') r /\
      count_calls CallStatus (calls g')
        = (count_calls CallStatus (calls g) + S n)%nat /\
      count_calls CallSend (calls g') = count_calls CallSend (calls g) /\
      (forall j, (j < n)%nat -> Claims.absent_at client sig (k + j)) /\
      ~ Claims.absent_at client sig (k + n).
Proof.
  intros Herr Htime.
  induction fuel as [|fuel IH]; intros k g g' Hrun; [discriminate Hrun|].
  cbn [Bulk.poll] in Hrun. unfold rpc in Hrun.
  destruct (answer (GetSignatureStatuses client k [sig])) as [value|e] eqn:Hans.
  - destruct value as [|[st|] rest].
    + discriminate Hrun.
    + injection Hrun as <-. exists O. eexists.
      split; [reflexivity|].
      split.
      { unfold Claims.go_result_ok, Bulk.outcome_of. destruct (st_Err st); cbn.
        - reflexivity.
        - rewrite Herr. reflexivity. }
      cbn [send calls]. rewrite !count_calls_app. cbn.
      split; [lia|]. split; [lia|].
      split; [intros j Hj; lia|].
      rewrite Nat.add_0_r. intros (rest' & Habs). rewrite Hans in Habs.
      discriminate Habs.
    + apply IH in Hrun.
      destruct Hrun as (n & r & Hsent & Hok & Hq & Hs & Hbefore & Hlast).
      exists (S n), r. cbn [Sleep sent calls] in *.
      rewrite !count_calls_app in Hq, Hs. cbn in Hq, Hs.
      split; [exact Hsent|]. split; [exact Hok|].
      split; [lia|]. split; [lia|].
      split.
      * intros j Hj. destruct j as [|j].
        -- rewrite Nat.add_0_r. exists rest. exact Hans.
        -- replace (k + S j)%nat with (S k + j)%nat by lia. apply Hbefore. lia.
      * replace (k + S n)%nat with (S k + n)%nat by lia. exact Hlast.
  - injection Hrun as <-. exists O. eexists.
    split; [reflexivity|].
    split.
    { unfold Claims.go_result_ok, Bulk.outcome_of. cbn. exact Htime. }
    cbn [send calls]. rewrite !count_calls_app. cbn.
    split; [lia|]. split; [lia|].
    split; [intros j Hj; lia|].
    rewrite Nat.add_0_r. intros (rest' & Habs). rewrite Hans in Habs.
    discriminate Habs.
Qed.

(** A worker that returns has sent exactly one result, whichever way it
    went, and the time in it is measured on the two paths that leave the
    status loop with a status and zero on every other path. *)
Lemma executeTransfer_returned fuel lib client transfer g g' :
  Bulk.executeTransfer fuel lib client transfer g = Returned tt g' ->
  exists r,
    sent g' = sent g ++ [r] /\ Claims.go_result_ok (clock g) (clock g') r.
Proof.
  unfold Bulk.executeTransfer, Bulk.fail_with, rpc.
  destruct (DecodeString lib (Bulk.FromPrivateKey transfer)) as [pk|e];
    [|early_return reflexivity].
  destruct (NewAccountFromPrivateKeyBytes lib (elems pk)) as [account|];
    [|discriminate].
  destruct (PublicKeyFromBase58 lib (Bulk.ToAddress transfer)) as [dst|e];
    [|early_return reflexivity].
  destruct (answer (GetRecentBlockhash client CommitmentFinalized)) as [bh|e];
    [|early_return reflexivity].
  destruct (NewTransaction lib _ bh (acc_PublicKey account)) as [tx|e];
    [|early_return reflexivity].
  destruct (Sign lib tx _) as [tx'|e];
    [|early_return reflexivity].
  destruct (answer (SendTransactionWithOpts client tx' _)) as [sig|e];
    [|early_return reflexivity].
  intros Hrun. apply poll_returned in Hrun; [|reflexivity|reflexivity].
  destruct Hrun as (n & r & Hsent & Hok & _).
  exists r. split; [exact Hsent|exact Hok].
Qed.

(** ** The Go [main] *)

Lemma first_panic_none (runs : list Bulk.Ended) :
  Bulk.first_panic runs = None ->
  forall msg g, ~ In (Panicked msg g) runs.
Proof.
  unfold Bulk.first_panic.
  induction runs as [|r runs IH]; intros Hnone msg g Hin; [contradiction|].
  destruct Hin as [->|Hin].
  - cbn in Hnone. discriminate Hnone.
  - apply (IH) with (msg := msg) (g := g); [|exact Hin].
    destruct r; cbn in Hnone; [exact Hnone|discriminate Hnone|exact Hnone].
Qed.

Lemma any_spinning_false (runs : list Bulk.Ended) :
  Bulk.any_spinning runs = false ->
  forall g, ~ In (Spinning g) runs.
Proof.
  unfold Bulk.any_spinning. intros Hnone g Hin.
  apply Bool.not_true_iff_false in Hnone. apply Hnone.
  apply existsb_exists. exists (Spinning g). split; [exact Hin|reflexivity].
Qed.

Lemma insert_by_time_length x l :
  List.length (Bulk.insert_by_time x l) = S (List.length l).
Proof.
  induction l as [|y l IH]; cbn; [reflexivity|].
  destruct (fst x <? fst y); cbn; [reflexivity|]. rewrite IH. reflexivity.
Qed.

Lemma arrival_length l : List.length (Bulk.arrival l) = List.length l.
Proof.
  unfold Bulk.arrival.
  assert (H : forall acc,
             List.length (fold_left (fun a x => Bulk.insert_by_time x a) l acc)
             = (List.length acc + List.length l)%nat).
  { induction l as [|x l IH]; intros acc; cbn; [lia|].
    rewrite IH, insert_by_time_length. lia. }
  rewrite H. reflexivity.
Qed.

(** When every worker has returned, the channel has carried one result per
    transfer. *)
Lemma channel_length fuel lib clients transfers start :
  forall i,
    (forall run, In run (Bulk.run_workers fuel lib clients i transfers start) ->
                 exists g, run = Returned tt g) ->
    List.length (Bulk.channel (Bulk.run_workers fuel lib clients i transfers start))
    = List.length transfers.
Proof.
  intros i Hall. unfold Bulk.channel.
  rewrite length_map, arrival_length.
  revert i Hall.
  induction transfers as [|tr rest IH]; intros i Hall; [reflexivity|].
  cbn [Bulk.run_workers flat_map]. rewrite length_app.
  rewrite IH.
  - destruct (Hall (Bulk.executeTransfer fuel lib (clients i) tr
                      (spawn Bulk.TransferResult start))) as (g & Hrun).
    { left. reflexivity. }
    destruct (executeTransfer_returned _ _ _ _ _ Hrun) as (r & Hsent & _).
    unfold Bulk.deliveries. rewrite Hrun. cbn [final]. rewrite Hsent.
    reflexivity.
  - intros run Hin. apply Hall. right. exact Hin.
Qed.

(** A [main] that exits has seen every worker return. *)
Lemma main_exit_all_returned fuel lib clients config start code report :
  Bulk.main fuel lib clients config start = Exit code report ->
  (forall run,
      In run (Bulk.run_workers fuel lib clients 0 (Bulk.Transfers config) start) ->
      exists g, run = Returned tt g) /\
  Bulk.finish start config
    (Bulk.run_workers fuel lib clients 0 (Bulk.Transfers config) start)
  = Exit code report.
Proof.
  unfold Bulk.main. intros Hmain.
  destruct (Bulk.first_panic _) eqn:Hp; [discriminate|].
  destruct (Bulk.any_spinning _) eqn:Hs; [discriminate|].
  split; [|exact Hmain].
  intros run Hin. destruct run as [[] g|msg g|g].
  - exists g. reflexivity.
  - exfalso. eapply first_panic_none; eassumption.
  - exfalso. eapply any_spinning_false; eassumption.
Qed.

Lemma collect_failCount (l : list Bulk.TransferResult) :
  forall st,
    Bulk.failCount (fold_left Bulk.collect_one l st)
    = Bulk.failCount st + Z.of_nat (List.length (filter Claims.has_error l)).
Proof.
  induction l as [|r l IH]; intros st; cbn [fold_left filter].
  - cbn. lia.
  - rewrite IH. unfold Bulk.collect_one, Claims.has_error.
    destruct (Bulk.Error r); cbn [Bulk.failCount List.length]; lia.
Qed.

Lemma confirmed_iff_no_error (r : Bulk.TransferResult) :
  Bulk.outcome_of r = Confirmed <-> Claims.has_error r = false.
Proof.
  unfold Bulk.outcome_of, Claims.has_error.
  destruct (Bulk.Error r) as [[]|]; split; intros H;
    (reflexivity || discriminate H).
Qed.

(** ** The Rust [execute_transfers] *)

(** The choice of a destination, case by case. *)
Lemma to_wallet_of_cases (config : Multi.WalletConfig) (i : nat) :
  ((i < List.length (Multi.to_wallets config))%nat ->
   Multi.to_wallet_of config i = nth_error (Multi.to_wallets config) i) /\
  ((List.length (Multi.to_wallets config) <= i)%nat ->
   Multi.to_wallet_of config i = nth_error (Multi.to_wallets config) 0).
Proof.
  unfold Multi.to_wallet_of, Multi.index. split; intros Hi.
  - apply Nat.ltb_lt in Hi. rewrite Hi. reflexivity.
  - apply Nat.ltb_ge in Hi. rewrite Hi. reflexivity.
Qed.

Lemma destination_found (config : Multi.WalletConfig) (i : nat) :
  Multi.to_wallets config <> [] ->
  exists d, Multi.to_wallet_of config i = Some d.
Proof.
  intros Hne.
  destruct (to_wallet_of_cases config i) as (Hin & Hout).
  destruct (Nat.lt_ge_cases i (List.length (Multi.to_wallets config)))
    as [Hi|Hi].
  - rewrite (Hin Hi).
    destruct (nth_error (Multi.to_wallets config) i) as [d|] eqn:Hn;
      [exists d; reflexivity|].
    apply nth_error_None in Hn. lia.
  - rewrite (Hout Hi).
    destruct (Multi.to_wallets config) as [|d rest]; [contradiction|].
    exists d. reflexivity.
Qed.

Lemma to_wallet_of_In (config : Multi.WalletConfig) (i : nat) d :
  Multi.to_wallet_of config i = Some d -> In d (Multi.to_wallets config).
Proof.
  unfold Multi.to_wallet_of, Multi.index.
  destruct (i <? List.length (Multi.to_wallets config))%nat;
    intros Hd; eapply nth_error_In; exact Hd.
Qed.

Lemma task_body_fields lib client path f d amount start :
  Multi.from (Multi.task_body lib client path f d amount start) = f /\
  Multi.to (Multi.task_body lib client path f d amount start) = d.
Proof.
  unfold Multi.task_body.
  destruct (fst (Multi.execute_single_transfer lib client path f d amount
                   (Multi.boot start))) as [[sig time]|e];
    split; reflexivity.
Qed.

Section RustTasks.

Variable lib : Multi.Library.
Variable clients : nat -> Multi.RpcClient.
Variable config : Multi.WalletConfig.
Variable amount start : Z.

(** With a destination to pick, the loop never panics. *)
Lemma transfer_tasks_total :
  Multi.to_wallets config <> [] ->
  forall wallets i,
  exists results,
    Multi.transfer_tasks lib clients config amount start i wallets
    = Multi.Finished results.
Proof.
  intros Hne.
  induction wallets as [|w rest IH]; intros i; cbn [Multi.transfer_tasks].
  - exists []. reflexivity.
  - destruct (destination_found config i Hne) as (d & ->).
    destruct (IH (S i)) as (results & ->).
    destruct (Multi.keypair_path w); eexists; reflexivity.
Qed.

(** What a loop that did not panic hands back: one result for each wallet
    with a keypair path, in order, the result of the wallet at index
    [i + j] being that of its task against the destination the code picks
    for that index. *)
Lemma transfer_tasks_finished :
  forall wallets i results,
    Multi.transfer_tasks lib clients config amount start i wallets
    = Multi.Finished results ->
    List.length results = List.length (filter Claims.has_keypair wallets) /\
    (forall j w path,
        nth_error wallets j = Some w ->
        Multi.keypair_path w = Some path ->
        exists d,
          Multi.to_wallet_of config (i + j) = Some d /\
          In (Multi.task_body lib (clients (i + j)) path (Multi.address w)
                              (Multi.address d) amount start) results) /\
    (forall r, In r results ->
               exists d, In d (Multi.to_wallets config) /\
                         Multi.to r = Multi.address d).
Proof.
  induction wallets as [|w rest IH]; intros i results Hrun;
    cbn [Multi.transfer_tasks] in Hrun.
  - injection Hrun as <-. split; [reflexivity|]. split.
    + intros j w path Hj. destruct j; discriminate Hj.
    + intros r [].
  - destruct (Multi.to_wallet_of config i) as [d|] eqn:Hd;
      [|discriminate Hrun].
    pose proof (to_wallet_of_In _ _ Hd) as Hdin.
    cbn [filter]. unfold Claims.has_keypair at 1.
    destruct (Multi.keypair_path w) as [path|] eqn:Hpath.
    + destruct (Multi.transfer_tasks lib clients config amount start (S i) rest)
        as [tail|msg] eqn:Htail; [|discriminate Hrun].
      injection Hrun as <-.
      destruct (IH (S i) tail Htail) as (Hlen & Hpair & Hto).
      split; [cbn; rewrite Hlen; reflexivity|]. split.
      * intros j w' path' Hj Hp'. destruct j as [|j].
        -- cbn in Hj. injection Hj as <-. rewrite Hpath in Hp'.
           injection Hp' as <-. rewrite Nat.add_0_r. exists d.
           split; [exact Hd|]. left. reflexivity.
        -- cbn in Hj. destruct (Hpair j w' path' Hj Hp') as (d' & Hd' & Hin).
           replace (i + S j)%nat with (S i + j)%nat by lia.
           exists d'. split; [exact Hd'|]. right. exact Hin.
      * intros r [<-|Hin].
        -- exists d. split; [exact Hdin|]. apply task_body_fields.
        -- exact (Hto r Hin).
    + destruct (IH (S i) results Hrun) as (Hlen & Hpair & Hto).
      split; [exact Hlen|]. split.
      * intros j w' path' Hj Hp'. destruct j as [|j].
        -- cbn in Hj. injection Hj as <-. rewrite Hpath in Hp'.
           discriminate Hp'.
        -- cbn in Hj. destruct (Hpair j w' path' Hj Hp') as (d' & Hd' & Hin).
           replace (i + S j)%nat with (S i + j)%nat by lia.
           exists d'. split; [exact Hd'|exact Hin].
      * exact Hto.
Qed.

End RustTasks.

Lemma collect_counts (l : list Bulk.TransferResult) :
  forall st,
    Bulk.successCount (fold_left Bulk.collect_one l st)
    + Bulk.failCount (fold_left Bulk.collect_one l st)
    = Bulk.successCount st + Bulk.failCount st + Z.of_nat (List.length l).
Proof.
  induction l as [|r l IH]; intros st; cbn [fold_left List.length].
  - lia.
  - rewrite IH. unfold Bulk.collect_one.
    destruct (Bulk.Error r); cbn [Bulk.successCount Bulk.failCount]; lia.
Qed.

Lemma finish_exit start config runs code report :
  Bulk.finish start config runs = Exit code report ->
  Bulk.Transfers config <> [] /\
  Bulk.Successful report = Bulk.successCount (Bulk.collect (Bulk.channel runs)) /\
  Bulk.Failed report = Bulk.failCount (Bulk.collect (Bulk.channel runs)) /\
  code = (if Bulk.failCount (Bulk.collect (Bulk.channel runs)) >? 0 then 1 else 0).
Proof.
  unfold Bulk.finish.
  destruct (Bulk.Transfers config) as [|tr rest]; [discriminate|].
  destruct (Z.of_nat (List.length (tr :: rest)) =? 0) eqn:Hn;
    [discriminate|].
  destruct (Bulk.failCount (Bulk.collect (Bulk.channel runs)) >? 0);
    intros [= <- <-]; (split; [discriminate|]); repeat split; reflexivity.
Qed.

(** ** C3: one result per worker *)

Lemma confirming_endpoint_submits :
  Bulk.submits Stub.golib (Stub.go_endpoint 3 Stub.go_confirmed)
               Stub.sample_transfer "5sig".
Proof.
  unfold Bulk.submits.
  do 6 eexists. each_step_evaluates.
Qed.

Lemma confirming_endpoint_run :
  Bulk.executeTransfer 30 Stub.golib (Stub.go_endpoint 3 Stub.go_confirmed)
    Stub.sample_transfer (spawn Bulk.TransferResult 0)
  = Returned tt Stub.confirmed_end.
Proof. by_evaluation. Qed.

Lemma confirming_endpoint_absent :
  forall j, (j < 3)%nat ->
            Claims.absent_at (Stub.go_endpoint 3 Stub.go_confirmed) "5sig" j.
Proof.
  intros j Hj. exists []. unfold Stub.go_endpoint.
  cbn [GetSignatureStatuses]. apply Nat.ltb_lt in Hj. rewrite Hj. reflexivity.
Qed.

Lemma mixed_batch_exit :
  Bulk.main 30 Stub.golib Stub.mixed_clients Stub.mixed_config 0
  = Exit 1 Stub.mixed_report.
Proof. by_evaluation. Qed.

(** While the endpoint answers "absent", the loop goes on: after [n] such
    answers it is where it would be had it started at query [k + n], [n]
    sleeps and [n] query latencies later. *)
Lemma poll_skips_absent (client : Go.Client) (sig : Signature) (startTime : Z)
    (result : Bulk.TransferResult) :
  forall n k fuel g,
    (forall j, (j < n)%nat -> Claims.absent_at client sig (k + j)) ->
    exists g1,
      Bulk.poll (n + fuel) k client sig startTime result g
      = Bulk.poll fuel (k + n) client sig startTime result g1 /\
      clock g1
      = clock g + Facts.status_latency client sig k n + Z.of_nat n * poll_interval /\
      sent g1 = sent g /\
      (forall c, count_calls c (calls g1)
                 = (count_calls c (calls g)
                    + match c with
                      | CallStatus | CallSleep => n
                      | _ => 0
                      end)%nat).
Proof.
  induction n as [|n IH]; intros k fuel g Habs.
  - exists g. rewrite Nat.add_0_r. cbn [Nat.add Facts.status_latency].
    split; [reflexivity|]. split; [lia|]. split; [reflexivity|].
    intros c. destruct c; lia.
  - destruct (Habs 0%nat) as (rest & Hans); [lia|]. rewrite Nat.add_0_r in Hans.
    cbn [Nat.add Bulk.poll]. unfold rpc. rewrite Hans.
    match goal with
    | |- context [Bulk.poll (n + fuel) (S k) client sig startTime result ?g0] =>
      destruct (IH (S k) fuel g0) as (g1 & Hrun & Hclock & Hsent & Hcount)
    end.
    { intros j Hj. replace (S k + j)%nat with (k + S j)%nat by lia.
      apply Habs. lia. }
    exists g1. replace (k + S n)%nat with (S k + n)%nat by lia.
    split; [exact Hrun|].
    cbn [Sleep clock sent calls] in Hclock, Hsent, Hcount.
    split.
    { rewrite Hclock. cbn [Facts.status_latency]. lia. }
    split; [exact Hsent|].
    intros c. rewrite Hcount, !count_calls_app. destruct c; cbn; lia.
Qed.

(** A status query that fails, or that reports a status, ends the loop with
    one result. *)
Lemma poll_settled (client : Go.Client) (sig : Signature) (startTime : Z)
    (result : Bulk.TransferResult) (fuel k : nat) (g : Bulk.Task) :
  Claims.settled_at client sig k ->
  exists g' r,
    Bulk.poll (S fuel) k client sig startTime result g = Returned tt g' /\
    sent g' = sent g ++ [r].
Proof.
  intros [(e & Hans)|(st & rest & Hans)];
    cbn [Bulk.poll]; unfold rpc, Bulk.fail_with; rewrite Hans;
    do 2 eexists; split; reflexivity.
Qed.

(** However the loop ends, it has sent one result when it returns and none
    when it does not. *)
Lemma poll_sends (client : Go.Client) (sig : Signature) (startTime : Z)
    (result : Bulk.TransferResult) :
  forall fuel k g,
    match Bulk.poll fuel k client sig startTime result g with
    | Returned _ g' => exists r, sent g' = sent g ++ [r]
    | Panicked _ g' => sent g' = sent g
    | Spinning g' => sent g' = sent g
    end.
Proof.
  induction fuel as [|fuel IH]; intros k g; [reflexivity|].
  cbn [Bulk.poll]. unfold rpc, Bulk.fail_with.
  destruct (answer (GetSignatureStatuses client k [sig])) as [value|e].
  - destruct value as [|[st|] rest].
    + reflexivity.
    + eexists. reflexivity.
    + exact (IH (S k) _).
  - eexists. reflexivity.
Qed.

(** The same for the whole worker. *)
Lemma executeTransfer_sends fuel lib client transfer (g : Bulk.Task) :
  match Bulk.executeTransfer fuel lib client transfer g with
  | Returned _ g' => exists r, sent g' = sent g ++ [r]
  | Panicked _ g' => sent g' = sent g
  | Spinning g' => sent g' = sent g
  end.
Proof.
  unfold Bulk.executeTransfer, Bulk.fail_with, rpc.
  destruct (DecodeString lib (Bulk.FromPrivateKey transfer)) as [pk|e];
    [|eexists; reflexivity].
  destruct (NewAccountFromPrivateKeyBytes lib (elems pk)) as [account|];
    [|reflexivity].
  destruct (PublicKeyFromBase58 lib (Bulk.ToAddress transfer)) as [dst|e];
    [|eexists; reflexivity].
  destruct (answer (GetRecentBlockhash client CommitmentFinalized)) as [bh|e];
    [|eexists; reflexivity].
  destruct (NewTransaction lib _ bh (acc_PublicKey account)) as [tx|e];
    [|eexists; reflexivity].
  destruct (Sign lib tx _) as [tx'|e];
    [|eexists; reflexivity].
  destruct (answer (SendTransactionWithOpts client tx' _)) as [sig|e];
    [|eexists; reflexivity].
  exact (poll_sends _ _ _ _ _ _ _).
Qed.

(** A worker whose run meets an error or a status returns, with one
    result. *)
Lemma executeTransfer_settles fuel lib client transfer (g : Bulk.Task) :
  Claims.settles fuel lib client transfer ->
  exists g' r,
    Bulk.executeTransfer fuel lib client transfer g = Returned tt g' /\
    sent g' = sent g ++ [r].
Proof.
  intros [(e & Hdec)|[Hfail|(sig & n & Hsub & Hn & Habs & Hset)]].
  - unfold Bulk.executeTransfer, Bulk.fail_with. rewrite Hdec.
    do 2 eexists. split; reflexivity.
  - destruct Hfail as (pk & account & Hdec & Hacc & Hstep).
    unfold Bulk.executeTransfer, Bulk.fail_with, rpc. rewrite Hdec, Hacc.
    destruct Hstep as [(e & Hdst)|(dst & Hdst & Hstep)]; rewrite Hdst;
      [do 2 eexists; split; reflexivity|].
    destruct Hstep as [(e & Hbh)|(bh & Hbh & Hstep)]; rewrite Hbh;
      [do 2 eexists; split; reflexivity|].
    destruct Hstep as [(e & Htx)|(tx & Htx & Hstep)]; rewrite Htx;
      [do 2 eexists; split; reflexivity|].
    destruct Hstep as [(e & Hsg)|(tx' & Hsg & e & Hsend)]; rewrite Hsg;
      [do 2 eexists; split; reflexivity|].
    rewrite Hsend. do 2 eexists. split; reflexivity.
  - destruct (executeTransfer_submitted fuel g Hsub)
      as (result & g1 & Heq & Hsent & _).
    rewrite Heq.
    replace fuel with (n + S (fuel - S n))%nat by lia.
    destruct (@poll_skips_absent client sig (clock g) result n 0%nat
                (S (fuel - S n)) g1 Habs)
      as (g2 & Hrun & _ & Hsent2 & _).
    rewrite Hrun.
    destruct (@poll_settled client sig (clock g) result (fuel - S n) (0 + n) g2
                Hset)
      as (g' & r & Hend & Hsent').
    exists g', r. split; [exact Hend|].
    rewrite Hsent', Hsent2, Hsent. reflexivity.
Qed.

(** Runs that have all returned let [main] go on to its statistics. *)
Lemma all_returned (runs : list Bulk.Ended) :
  (forall run, In run runs -> exists g, run = Returned tt g) ->
  Bulk.first_panic runs = None /\ Bulk.any_spinning runs = false.
Proof.
  unfold Bulk.first_panic, Bulk.any_spinning.
  induction runs as [|r runs IH]; intros Hall; [split; reflexivity|].
  destruct (Hall r (or_introl eq_refl)) as (g & ->).
  cbn [filter existsb orb]. apply IH.
  intros run Hin. apply Hall. right. exact Hin.
Qed.

Lemma run_workers_settle fuel lib clients start :
  forall transfers k,
    (forall i tr, nth_error transfers i = Some tr ->
                  Claims.settles fuel lib (clients (k + i)%nat) tr) ->
    forall run,
      In run (Bulk.run_workers fuel lib clients k transfers start) ->
      exists g, run = Returned tt g.
Proof.
  induction transfers as [|t rest IH]; intros k Hall run Hin;
    cbn [Bulk.run_workers] in Hin; [contradiction|].
  destruct Hin as [<-|Hin].
  - destruct (@executeTransfer_settles fuel lib (clients k) t
                (spawn Bulk.TransferResult start)) as (g' & _ & Hrun & _).
    { specialize (Hall 0%nat t eq_refl). rewrite Nat.add_0_r in Hall.
      exact Hall. }
    exists g'. exact Hrun.
  - apply (IH (S k)); [|exact Hin].
    intros i tr Hnth. replace (S k + i)%nat with (k + S i)%nat by lia.
    apply Hall. exact Hnth.
Qed.

(** With a transfer to divide by, a [main] whose workers have all returned
    reaches its exit. *)
Lemma main_exits fuel lib clients config start :
  Bulk.Transfers config <> [] ->
  (forall run,
      In run (Bulk.run_workers fuel lib clients 0 (Bulk.Transfers config) start) ->
      exists g, run = Returned tt g) ->
  exists code report,
    Bulk.main fuel lib clients config start = Exit code report.
Proof.
  intros Hne Hall. unfold Bulk.main. cbv zeta.
  destruct (all_returned _ Hall) as (-> & ->).
  unfold Bulk.finish.
  destruct (Z.of_nat (List.length (Bulk.Transfers config)) =? 0) eqn:Hn.
  - apply Z.eqb_eq in Hn.
    destruct (Bulk.Transfers config); [contradiction|cbn in Hn; lia].
  - destruct (Bulk.failCount _ >? 0); do 2 eexists; reflexivity.
Qed.

(** What a [main] that exits has collected. *)
Lemma main_exit_collected fuel lib clients config start code report :
  Bulk.main fuel lib clients config start = Exit code report ->
  List.length
    (Bulk.channel
       (Bulk.run_workers fuel lib clients 0 (Bulk.Transfers config) start))
  = List.length (Bulk.Transfers config) /\
  Bulk.Successful report + Bulk.Failed report
  = Z.of_nat (List.length (Bulk.Transfers config)).
Proof.
  intros Hmain.
  destruct (main_exit_all_returned _ _ _ _ _ Hmain) as (Hall & Hfin).
  pose proof (channel_length _ _ _ _ _ 0 Hall) as Hlen.
  split; [exact Hlen|].
  destruct (finish_exit _ _ _ Hfin) as (_ & -> & -> & _).
  unfold Bulk.collect. rewrite collect_counts, Hlen. cbn. lia.
Qed.

(** C3, as the programs have it.  A Go worker whose run meets an error or a
    status returns, with exactly one result sent on the channel: a key that
    is not valid base64; with a key the library accepts, a destination that
    does not parse or a failed blockhash request, transaction, signature or
    submission; after the submission, a status query that fails or reports
    a status (given fuel for the turns up to it).  However a worker ends, it
    has sent one result if it returned and none if it did not.  A Go [main]
    over at least one transfer whose workers all end that way reaches its
    exit, and a [main] that reaches its exit has collected exactly one
    result per transfer, each counted once as a success or as a failure.
    In the Rust CLI with a destination to pick, [execute_transfers] returns
    exactly one result per source wallet that names a keypair file. *)
Theorem C3_one_result_per_worker :
  (forall fuel lib client transfer g,
      Claims.settles fuel lib client transfer ->
      exists g' r,
        Bulk.executeTransfer fuel lib client transfer g = Returned tt g' /\
        sent g' = sent g ++ [r])
  /\
  (forall fuel lib client transfer g,
      match Bulk.executeTransfer fuel lib client transfer g with
      | Returned _ g' => exists r, sent g' = sent g ++ [r]
      | Panicked _ g' => sent g' = sent g
      | Spinning g' => sent g' = sent g
      end)
  /\
  (forall fuel lib clients config start,
      Bulk.Transfers config <> [] ->
      (forall i tr,
          nth_error (Bulk.Transfers config) i = Some tr ->
          Claims.settles fuel lib (clients i) tr) ->
      exists code report,
        Bulk.main fuel lib clients config start = Exit code report /\
        List.length
          (Bulk.channel
             (Bulk.run_workers fuel lib clients 0 (Bulk.Transfers config) start))
        = List.length (Bulk.Transfers config) /\
        Bulk.Successful report + Bulk.Failed report
        = Z.of_nat (List.length (Bulk.Transfers config)))
  /\
  (forall fuel lib clients config start code report,
      Bulk.main fuel lib clients config start = Exit code report ->
      List.length
        (Bulk.channel
           (Bulk.run_workers fuel lib clients 0 (Bulk.Transfers config) start))
      = List.length (Bulk.Transfers config) /\
      Bulk.Successful report + Bulk.Failed report
      = Z.of_nat (List.length (Bulk.Transfers config)))
  /\
  (forall lib clients config amount start,
      Multi.to_wallets config <> [] ->
      exists results,
        Multi.execute_transfers lib clients config amount start
        = Multi.Finished (Ok results) /\
        List.length results
        = List.length (filter Claims.has_keypair (Multi.from_wallets config))).
Proof.
  split; [|split; [|split; [|split]]].
  - intros fuel lib client transfer g Hset.
    exact (executeTransfer_settles g Hset).
  - intros fuel lib client transfer g. apply executeTransfer_sends.
  - intros fuel lib clients config start Hne Hset.
    destruct (@main_exits fuel lib clients config start Hne)
      as (code & report & Hmain).
    { apply run_workers_settle. intros i tr Hnth. apply Hset. exact Hnth. }
    exists code, report. split; [exact Hmain|].
    exact (main_exit_collected _ _ _ _ _ Hmain).
  - intros fuel lib clients config start code report Hmain.
    exact (main_exit_collected _ _ _ _ _ Hmain).
  - intros lib clients config amount start Hne.
    unfold Multi.execute_transfers.
    destruct (@transfer_tasks_total lib clients config amount start Hne
                (Multi.from_wallets config) 0%nat) as (results & Hrun).
    rewrite Hrun. exists results. split; [reflexivity|].
    eapply transfer_tasks_finished. exact Hrun.
Qed.

Lemma down_endpoint_settles :
  Claims.settles 30 Stub.golib Stub.go_down Stub.sample_transfer.
Proof.
  right. left. unfold Claims.fails_before_polling.
  do 2 eexists. split; [by_evaluation|]. split; [by_evaluation|].
  right. eexists. split; [by_evaluation|].
  left. eexists. by_evaluation.
Qed.

Lemma confirming_endpoint_settles :
  Claims.settles 30 Stub.golib (Stub.go_endpoint 3 Stub.go_confirmed)
                 Stub.sample_transfer.
Proof.
  right. right. exists "5sig", 3%nat.
  split; [exact confirming_endpoint_submits|].
  split; [lia|].
  split; [exact confirming_endpoint_absent|].
  right. do 2 eexists. reflexivity.
Qed.

Lemma mixed_batch_settles :
  forall i tr,
    nth_error (Bulk.Transfers Stub.mixed_config) i = Some tr ->
    Claims.settles 30 Stub.golib (Stub.mixed_clients i) tr.
Proof.
  intros i tr Hnth.
  destruct i as [|[|i]]; cbn in Hnth.
  - injection Hnth as <-. exact confirming_endpoint_settles.
  - injection Hnth as <-. exact down_endpoint_settles.
  - destruct i; discriminate Hnth.
Qed.

Lemma C3_one_result_per_worker_witness :
  (Claims.settles 30 Stub.golib Stub.go_down Stub.sample_transfer /\
   exists g' r,
     Bulk.executeTransfer 30 Stub.golib Stub.go_down Stub.sample_transfer
       (spawn Bulk.TransferResult 0) = Returned tt g' /\
     sent g' = [] ++ [r])
  /\
  (Claims.settles 30 Stub.golib (Stub.go_endpoint 3 Stub.go_confirmed)
                  Stub.sample_transfer /\
   exists g' r,
     Bulk.executeTransfer 30 Stub.golib (Stub.go_endpoint 3 Stub.go_confirmed)
       Stub.sample_transfer (spawn Bulk.TransferResult 0) = Returned tt g' /\
     sent g' = [] ++ [r])
  /\
  (Bulk.Transfers Stub.mixed_config <> [] /\
   exists code report,
     Bulk.main 30 Stub.golib Stub.mixed_clients Stub.mixed_config 0
     = Exit code report /\
     List.length
       (Bulk.channel
          (Bulk.run_workers 30 Stub.golib Stub.mixed_clients 0
             (Bulk.Transfers Stub.mixed_config) 0))
     = List.length (Bulk.Transfers Stub.mixed_config) /\
     Bulk.Successful report + Bulk.Failed report
     = Z.of_nat (List.length (Bulk.Transfers Stub.mixed_config)))
  /\
  (Bulk.main 30 Stub.golib Stub.mixed_clients Stub.mixed_config 0
   = Exit 1 Stub.mixed_report /\
   List.length
     (Bulk.channel
        (Bulk.run_workers 30 Stub.golib Stub.mixed_clients 0
           (Bulk.Transfers Stub.mixed_config) 0)) = 2%nat /\
   Bulk.Successful Stub.mixed_report + Bulk.Failed Stub.mixed_report = 2)
  /\
  ([Stub.sample_destination] <> [] /\
   exists results,
     Multi.execute_transfers Stub.rustlib (fun _ => Stub.rust_silent)
       (Multi.mkWalletConfig
          [Stub.sample_source; Stub.keyless_source; Stub.sample_source]
          [Stub.sample_destination]) 100000000 0
     = Multi.Finished (Ok results) /\
     List.length results = 2%nat).
Proof.
  destruct C3_one_result_per_worker as (worker & _ & batch & main & rust).
  split; [|split; [|split; [|split]]].
  - split; [exact down_endpoint_settles|].
    exact (worker 30%nat Stub.golib Stub.go_down Stub.sample_transfer
                  (spawn Bulk.TransferResult 0) down_endpoint_settles).
  - split; [exact confirming_endpoint_settles|].
    exact (worker 30%nat Stub.golib (Stub.go_endpoint 3 Stub.go_confirmed)
                  Stub.sample_transfer (spawn Bulk.TransferResult 0)
                  confirming_endpoint_settles).
  - assert (Hne : Bulk.Transfers Stub.mixed_config <> []) by discriminate.
    split; [exact Hne|].
    exact (batch 30%nat Stub.golib Stub.mixed_clients Stub.mixed_config 0
                 Hne mixed_batch_settles).
  - split; [exact mixed_batch_exit|].
    exact (main 30%nat Stub.golib Stub.mixed_clients Stub.mixed_config 0 1
                Stub.mixed_report mixed_batch_exit).
  - split; [discriminate|].
    apply (rust Stub.rustlib (fun _ => Stub.rust_silent)
                (Multi.mkWalletConfig
                   [Stub.sample_source; Stub.keyless_source; Stub.sample_source]
                   [Stub.sample_destination]) 100000000 0).
    discriminate.
Defined.

(** C3 as stated fails on both programs.  In the Rust CLI a source wallet
    whose entry has no keypair path is skipped, so a list of one such wallet
    gives no result.  In the Go batch a worker whose transaction is
    submitted and never reported on meets neither an error nor a status: it
    is still polling after any number of turns and has sent no result. *)
Lemma C3_workers_without_a_result :
  (Multi.execute_transfers Stub.rustlib (fun _ => Stub.rust_silent)
     (Multi.mkWalletConfig [Stub.keyless_source] [Stub.sample_destination])
     100000000 0
   = Multi.Finished (Ok []) /\
   ~ (exists results,
         Multi.execute_transfers Stub.rustlib (fun _ => Stub.rust_silent)
           (Multi.mkWalletConfig [Stub.keyless_source] [Stub.sample_destination])
           100000000 0
         = Multi.Finished (Ok results) /\
         List.length results = List.length [Stub.keyless_source]))
  /\
  (Bulk.submits Stub.golib Stub.go_silent Stub.sample_transfer "5sig" /\
   Bulk.never_reports Stub.go_silent /\
   forall fuel,
   exists g',
     Bulk.executeTransfer fuel Stub.golib Stub.go_silent Stub.sample_transfer
       (spawn Bulk.TransferResult 0) = Spinning g' /\
     sent g' = []).
Proof.
  split.
  - split; [reflexivity|].
    intros (results & Hrun & Hlen).
    vm_compute in Hrun. injection Hrun as <-. discriminate Hlen.
  - split; [exact sample_transfer_submits|].
    split; [exact go_silent_never_reports|].
    intros fuel.
    destruct (executeTransfer_submitted fuel (spawn Bulk.TransferResult 0)
                sample_transfer_submits) as (result & g1 & Hrun & Hsent & _).
    destruct (poll_silent go_silent_never_reports fuel 0 "5sig"%string
                (clock (spawn Bulk.TransferResult 0)) result g1)
      as (g2 & Hloop & _ & Hsent2).
    exists g2. rewrite Hrun. split; [exact Hloop|].
    rewrite Hsent2, Hsent. reflexivity.
Qed.

(** ** C4: the elapsed time in a result *)

Lemma execute_single_transfer_time lib client path f d amount t sig time t' :
  Multi.execute_single_transfer lib client path f d amount t
  = (Ok (sig, time), t') ->
  time = Multi.now t' - Multi.now t.
Proof.
  unfold Multi.execute_single_transfer, Multi.rpc.
  destruct (Multi.read_keypair_file lib path); [|discriminate].
  destruct (Multi.Pubkey_from_str lib f); [|discriminate].
  destruct (Multi.Pubkey_from_str lib d); [|discriminate].
  destruct (negb _); [discriminate|].
  destruct (answer (Multi.get_latest_blockhash client)); [|discriminate].
  destruct (answer (Multi.send_transaction client _)); [|discriminate].
  destruct (Multi.confirm _ _ _ _ _) as [[[]|] t2]; try discriminate.
  intros [= <- <- <-]. reflexivity.
Qed.

(** C4, as the programs have it.  The result of a Go worker carries the time
    from the worker's start to its end when the status loop ended with a
    status (Confirmed or Rejected), and zero on every other path.  The
    result of a Rust task carries the time from the start of
    [execute_single_transfer] to its end when the transfer was confirmed,
    and zero whenever it failed. *)
Theorem C4_elapsed_of_a_result :
  (forall fuel lib client transfer g g',
      Bulk.executeTransfer fuel lib client transfer g = Returned tt g' ->
      exists r,
        sent g' = sent g ++ [r] /\
        Bulk.ProcessingTime r
        = match Bulk.outcome_of r with
          | Confirmed | Rejected _ => clock g' - clock g
          | _ => 0
          end)
  /\
  (forall lib client path f d amount start,
      match Multi.execute_single_transfer lib client path f d amount
              (Multi.boot start) with
      | (Ok _, t') =>
        Multi.success (Multi.task_body lib client path f d amount start) = true /\
        Multi.processing_time (Multi.task_body lib client path f d amount start)
        = Multi.now t' - start
      | (Err _, _) =>
        Multi.success (Multi.task_body lib client path f d amount start) = false /\
        Multi.processing_time (Multi.task_body lib client path f d amount start)
        = 0
      end).
Proof.
  split.
  - intros fuel lib client transfer g g' Hrun.
    destruct (executeTransfer_returned _ _ _ _ _ Hrun) as (r & Hsent & Hok).
    exists r. split; [exact Hsent|].
    unfold Claims.go_result_ok in Hok.
    destruct (Bulk.outcome_of r); (exact Hok || contradiction).
  - intros lib client path f d amount start.
    unfold Multi.task_body.
    destruct (Multi.execute_single_transfer lib client path f d amount
                (Multi.boot start)) as [[[sig time]|e] t'] eqn:Hrun;
      cbn [fst Multi.success Multi.processing_time].
    + split; [reflexivity|].
      apply execute_single_transfer_time in Hrun. exact Hrun.
    + split; reflexivity.
Qed.

Lemma C4_elapsed_of_a_result_witness :
  (Bulk.executeTransfer 30 Stub.golib (Stub.go_endpoint 3 Stub.go_confirmed)
     Stub.sample_transfer (spawn Bulk.TransferResult 0)
   = Returned tt Stub.confirmed_end /\
   exists r,
     sent Stub.confirmed_end = [] ++ [r] /\
     Bulk.ProcessingTime r
     = match Bulk.outcome_of r with
       | Confirmed | Rejected _ => clock Stub.confirmed_end - 0
       | _ => 0
       end)
  /\
  (Bulk.executeTransfer 30 Stub.golib Stub.go_down Stub.sample_transfer
     (spawn Bulk.TransferResult 0)
   = Returned tt Stub.down_end /\
   exists r,
     sent Stub.down_end = [] ++ [r] /\
     Bulk.ProcessingTime r
     = match Bulk.outcome_of r with
       | Confirmed | Rejected _ => clock Stub.down_end - 0
       | _ => 0
       end).
Proof.
  destruct C4_elapsed_of_a_result as (worker & _).
  split.
  - split; [vm_compute; reflexivity|].
    apply (worker 30%nat Stub.golib (Stub.go_endpoint 3 Stub.go_confirmed)
                  Stub.sample_transfer (spawn Bulk.TransferResult 0)
                  Stub.confirmed_end).
    vm_compute. reflexivity.
  - split; [vm_compute; reflexivity|].
    apply (worker 30%nat Stub.golib Stub.go_down Stub.sample_transfer
                  (spawn Bulk.TransferResult 0) Stub.down_end).
    vm_compute. reflexivity.
Defined.

(** C4 as stated fails on a failure result: the endpoint refuses the
    blockhash request after 7 ms, the worker ends 7 ms after it started with
    a precursor failure, and the time in its result is zero. *)
Lemma C4_failure_result_has_no_time :
  exists g' r reason,
    Bulk.executeTransfer 30 Stub.golib Stub.go_down Stub.sample_transfer
      (spawn Bulk.TransferResult 0) = Returned tt g' /\
    sent g' = [r] /\
    Bulk.outcome_of r = PrecursorFailed reason /\
    clock g' - clock (spawn Bulk.TransferResult 0) = 7 * Millisecond /\
    Bulk.ProcessingTime r = 0 /\
    Bulk.ProcessingTime r <> clock g' - clock (spawn Bulk.TransferResult 0).
Proof.
  do 3 eexists.
  split; [vm_compute; reflexivity|].
  split; [reflexivity|].
  split; [reflexivity|].
  split; [reflexivity|].
  split; [reflexivity|].
  vm_compute. discriminate.
Qed.

(** ** C6: malformed input *)

(** C6 at the failing input.  [executeTransfer] makes the account from the
    decoded key before it parses the destination address, and the account
    constructor has no error result.  When the key is valid base64 of bytes
    the library cannot use, the worker panics there: the destination address
    that does not parse is never looked at, no result is sent, and no call
    has been made.  Everywhere else the claim holds.  A worker whose key is
    not valid base64, or whose key is accepted and whose destination does
    not parse, returns with one result that reads [PrecursorFailed], having
    made no call to the endpoint at all.  Whatever the library makes of the
    key, a worker with a malformed key or a malformed destination never
    calls the endpoint, so it never submits.  The Rust worker returns the
    error, without a call, when the keypair file cannot be read or the
    destination address does not parse. *)
Theorem C6_unusable_key_hides_malformed_destination :
  (forall fuel lib client transfer g,
      Claims.key_unusable lib transfer ->
      Claims.malformed_destination lib transfer ->
      Bulk.executeTransfer fuel lib client transfer g
      = Panicked "NewAccountFromPrivateKeyBytes" g)
  /\
  (forall fuel lib client transfer g,
      Claims.malformed_key lib transfer \/
      (Claims.key_accepted lib transfer /\
       Claims.malformed_destination lib transfer) ->
      exists g' r reason,
        Bulk.executeTransfer fuel lib client transfer g = Returned tt g' /\
        sent g' = sent g ++ [r] /\
        Bulk.outcome_of r = PrecursorFailed reason /\
        calls g' = calls g)
  /\
  (forall fuel lib client transfer g,
      Claims.malformed_key lib transfer \/
      Claims.malformed_destination lib transfer ->
      calls (final (Bulk.executeTransfer fuel lib client transfer g)) = calls g /\
      count_calls CallSend
        (calls (final (Bulk.executeTransfer fuel lib client transfer g)))
      = count_calls CallSend (calls g))
  /\
  (forall lib client path f d amount t,
      (exists e, Multi.read_keypair_file lib path = Err e) \/
      (exists e, Multi.Pubkey_from_str lib d = Err e) ->
      exists e reason,
        Multi.execute_single_transfer lib client path f d amount t = (Err e, t) /\
        Multi.outcome_of (Err e) = PrecursorFailed reason).
Proof.
  split; [|split; [|split]].
  - intros fuel lib client transfer g (pk & Hdec & Hacc) _.
    unfold Bulk.executeTransfer. rewrite Hdec, Hacc. reflexivity.
  - intros fuel lib client transfer g
           [(e & Hdec)|((pk & account & Hdec & Hacc) & (e & Hdst))];
      unfold Bulk.executeTransfer, Bulk.fail_with.
    + rewrite Hdec. do 3 eexists. repeat split; reflexivity.
    + rewrite Hdec, Hacc, Hdst. do 3 eexists. repeat split; reflexivity.
  - intros fuel lib client transfer g Hbad.
    assert (Hcalls :
              calls (final (Bulk.executeTransfer fuel lib client transfer g))
              = calls g).
    { unfold Bulk.executeTransfer, Bulk.fail_with.
      destruct Hbad as [(e & Hdec)|(e & Hdst)].
      - rewrite Hdec. reflexivity.
      - destruct (DecodeString lib (Bulk.FromPrivateKey transfer));
          [|reflexivity].
        destruct (NewAccountFromPrivateKeyBytes lib _); [|reflexivity].
        rewrite Hdst. reflexivity. }
    rewrite Hcalls. split; reflexivity.
  - intros lib client path f d amount t Hbad.
    unfold Multi.execute_single_transfer.
    destruct (Multi.read_keypair_file lib path) as [kp|e1] eqn:Hkp.
    + destruct Hbad as [(e & He)|(e & Hd)]; [discriminate He|].
      destruct (Multi.Pubkey_from_str lib f) as [fp|e2].
      * rewrite Hd. do 2 eexists. split; reflexivity.
      * do 2 eexists. split; reflexivity.
    + do 2 eexists. split; reflexivity.
Qed.

Lemma C6_unusable_key_hides_malformed_destination_witness :
  (Claims.key_unusable Stub.golib
     (Bulk.mkTransfer Stub.short_key Stub.placeholder_address 100000000) /\
   Claims.malformed_destination Stub.golib
     (Bulk.mkTransfer Stub.short_key Stub.placeholder_address 100000000) /\
   Bulk.executeTransfer 30 Stub.golib Stub.go_silent
     (Bulk.mkTransfer Stub.short_key Stub.placeholder_address 100000000)
     (spawn Bulk.TransferResult 0)
   = Panicked "NewAccountFromPrivateKeyBytes" (spawn Bulk.TransferResult 0))
  /\
  (Claims.malformed_key Stub.golib
     (Bulk.mkTransfer Stub.placeholder_key Stub.good_address 100000000) /\
   exists g' r reason,
     Bulk.executeTransfer 30 Stub.golib Stub.go_silent
       (Bulk.mkTransfer Stub.placeholder_key Stub.good_address 100000000)
       (spawn Bulk.TransferResult 0) = Returned tt g' /\
     sent g' = [] ++ [r] /\
     Bulk.outcome_of r = PrecursorFailed reason /\
     calls g' = [])
  /\
  (Claims.key_accepted Stub.golib
     (Bulk.mkTransfer Stub.good_key Stub.placeholder_address 100000000) /\
   Claims.malformed_destination Stub.golib
     (Bulk.mkTransfer Stub.good_key Stub.placeholder_address 100000000) /\
   exists g' r reason,
     Bulk.executeTransfer 30 Stub.golib Stub.go_silent
       (Bulk.mkTransfer Stub.good_key Stub.placeholder_address 100000000)
       (spawn Bulk.TransferResult 0) = Returned tt g' /\
     sent g' = [] ++ [r] /\
     Bulk.outcome_of r = PrecursorFailed reason /\
     calls g' = [])
  /\
  (calls (final (Bulk.executeTransfer 30 Stub.golib Stub.go_silent
                   (Bulk.mkTransfer Stub.short_key Stub.placeholder_address
                                    100000000)
                   (spawn Bulk.TransferResult 0))) = [] /\
   count_calls CallSend
     (calls (final (Bulk.executeTransfer 30 Stub.golib Stub.go_silent
                      (Bulk.mkTransfer Stub.short_key Stub.placeholder_address
                                       100000000)
                      (spawn Bulk.TransferResult 0)))) = 0%nat)
  /\
  ((exists e, Multi.read_keypair_file Stub.rustlib "missing.json" = Err e) /\
   exists e reason,
     Multi.execute_single_transfer Stub.rustlib Stub.rust_silent "missing.json"
       Stub.system_address Stub.good_address 100000000 (Multi.boot 0)
     = (Err e, Multi.boot 0) /\
     Multi.outcome_of (Err e) = PrecursorFailed reason).
Proof.
  destruct C6_unusable_key_hides_malformed_destination
    as (panic & go & quiet & rust).
  assert (Hbad : Claims.key_unusable Stub.golib
                   (Bulk.mkTransfer Stub.short_key Stub.placeholder_address
                                    100000000)).
  { eexists. split; vm_compute; reflexivity. }
  assert (Hkey : Claims.malformed_key Stub.golib
                   (Bulk.mkTransfer Stub.placeholder_key Stub.good_address
                                    100000000)).
  { eexists. vm_compute. reflexivity. }
  assert (Hacc : Claims.key_accepted Stub.golib
                   (Bulk.mkTransfer Stub.good_key Stub.placeholder_address
                                    100000000)).
  { do 2 eexists. split; vm_compute; reflexivity. }
  assert (Hdst : Claims.malformed_destination Stub.golib
                   (Bulk.mkTransfer Stub.good_key Stub.placeholder_address
                                    100000000)).
  { eexists. vm_compute. reflexivity. }
  assert (Hdst' : Claims.malformed_destination Stub.golib
                    (Bulk.mkTransfer Stub.short_key Stub.placeholder_address
                                     100000000)).
  { eexists. vm_compute. reflexivity. }
  assert (Hfile : exists e,
             Multi.read_keypair_file Stub.rustlib "missing.json" = Err e).
  { eexists. vm_compute. reflexivity. }
  split; [|split; [|split; [|split]]].
  - split; [exact Hbad|]. split; [exact Hdst'|].
    exact (panic 30%nat Stub.golib Stub.go_silent _
                 (spawn Bulk.TransferResult 0) Hbad Hdst').
  - split; [exact Hkey|].
    exact (go 30%nat Stub.golib Stub.go_silent _ (spawn Bulk.TransferResult 0)
              (or_introl Hkey)).
  - split; [exact Hacc|]. split; [exact Hdst|].
    exact (go 30%nat Stub.golib Stub.go_silent _ (spawn Bulk.TransferResult 0)
              (or_intror (conj Hacc Hdst))).
  - exact (quiet 30%nat Stub.golib Stub.go_silent _ (spawn Bulk.TransferResult 0)
                 (or_intror Hdst')).
  - split; [exact Hfile|].
    exact (rust Stub.rustlib Stub.rust_silent "missing.json" Stub.system_address
                Stub.good_address 100000000 (Multi.boot 0) (or_introl Hfile)).
Defined.

(** ** C7: the exit code *)

Lemma insert_by_time_In x y l :
  In y (Bulk.insert_by_time x l) <-> y = x \/ In y l.
Proof.
  induction l as [|z l IH]; cbn.
  - split; [intros [H|[]]; left; symmetry; exact H
           |intros [H|[]]; left; symmetry; exact H].
  - destruct (fst x <? fst z); cbn.
    + split; [intros [H|H]; [left; symmetry; exact H|right; exact H]
             |intros [H|H]; [left; symmetry; exact H|right; exact H]].
    + rewrite IH. tauto.
Qed.

Lemma arrival_In y l : In y (Bulk.arrival l) <-> In y l.
Proof.
  unfold Bulk.arrival.
  assert (H : forall acc,
             In y (fold_left (fun a x => Bulk.insert_by_time x a) l acc)
             <-> In y acc \/ In y l).
  { induction l as [|x l IH]; intros acc; cbn [fold_left].
    - cbn. tauto.
    - rewrite IH, insert_by_time_In. cbn. intuition congruence. }
  rewrite H. cbn. tauto.
Qed.

(** The channel carries exactly what the workers sent. *)
Lemma channel_In (runs : list Bulk.Ended) (r : Bulk.TransferResult) :
  In r (Bulk.channel runs) <->
  exists run, In run runs /\ In r (sent (final run)).
Proof.
  unfold Bulk.channel. rewrite in_map_iff. split.
  - intros ((t & r') & Hsnd & Hin). cbn in Hsnd. subst r'.
    apply (proj1 (arrival_In _ _)) in Hin. apply in_flat_map in Hin.
    destruct Hin as (run & Hrun & Hd). exists run. split; [exact Hrun|].
    unfold Bulk.deliveries in Hd. apply in_map_iff in Hd.
    destruct Hd as (x & Hx & Hin). injection Hx as _ <-. exact Hin.
  - intros (run & Hrun & Hin). exists (clock (final run), r).
    split; [reflexivity|]. apply arrival_In. apply in_flat_map.
    exists run. split; [exact Hrun|].
    unfold Bulk.deliveries. apply in_map_iff. exists r. split; [reflexivity|exact Hin].
Qed.

Lemma no_failure_iff (l : list Bulk.TransferResult) :
  filter Claims.has_error l = [] <->
  forall r, In r l -> Bulk.outcome_of r = Confirmed.
Proof.
  induction l as [|x l IH]; cbn [filter].
  - split; [intros _ r []|reflexivity].
  - destruct (Claims.has_error x) eqn:Hx.
    + split; [discriminate|]. intros Hall.
      assert (Hc : Bulk.outcome_of x = Confirmed) by (apply Hall; left; reflexivity).
      apply confirmed_iff_no_error in Hc. rewrite Hc in Hx. discriminate Hx.
    + rewrite IH. split.
      * intros Hall r [<-|Hin]; [apply confirmed_iff_no_error; exact Hx|].
        apply Hall. exact Hin.
      * intros Hall r Hin. apply Hall. right. exact Hin.
Qed.

(** The table of the Rust [main]. *)

Lemma task_body_failed lib client path f d amount start :
  Multi.success (Multi.task_body lib client path f d amount start) = false ->
  Multi.signature (Multi.task_body lib client path f d amount start) = "FAILED" /\
  Multi.processing_time (Multi.task_body lib client path f d amount start) = 0.
Proof.
  unfold Multi.task_body.
  destruct (fst (Multi.execute_single_transfer lib client path f d amount
                   (Multi.boot start))) as [[sig time]|e]; cbn.
  - discriminate.
  - intros _. split; reflexivity.
Qed.

Lemma transfer_tasks_order lib clients config amount start :
  forall wallets i results,
    Multi.transfer_tasks lib clients config amount start i wallets
    = Multi.Finished results ->
    map Multi.from results
    = map Multi.address (filter Claims.has_keypair wallets) /\
    Forall (fun r => Multi.success r = false ->
                     Multi.signature r = "FAILED" /\ Multi.processing_time r = 0)
           results.
Proof.
  induction wallets as [|w rest IH]; intros i results Hrun;
    cbn [Multi.transfer_tasks] in Hrun.
  - injection Hrun as <-. split; [reflexivity|constructor].
  - destruct (Multi.to_wallet_of config i) as [d|]; [|discriminate Hrun].
    cbn [filter]. unfold Claims.has_keypair at 1.
    destruct (Multi.keypair_path w) as [path|].
    + destruct (Multi.transfer_tasks lib clients config amount start (S i) rest)
        as [tail|msg] eqn:Htail; [|discriminate Hrun].
      injection Hrun as <-. destruct (IH (S i) tail Htail) as (Hmap & Hall).
      split.
      * cbn [map]. rewrite Hmap.
        rewrite (proj1 (task_body_fields lib (clients i) path (Multi.address w)
                          (Multi.address d) amount start)).
        reflexivity.
      * constructor; [apply task_body_failed|exact Hall].
    + exact (IH (S i) results Hrun).
Qed.

Lemma get_in_list (s : string) :
  forall i b, String.get i s = Some b -> In b (list_ascii_of_string s).
Proof.
  induction s as [|c s IH]; intros i b Hget; cbn in Hget; [discriminate|].
  destruct i as [|i].
  - injection Hget as <-. left. reflexivity.
  - right. exact (IH i b Hget).
Qed.

Lemma get_within (s : string) :
  forall i, (i < String.length s)%nat -> exists b, String.get i s = Some b.
Proof.
  induction s as [|c s IH]; intros i Hi; cbn in Hi; [lia|].
  destruct i as [|i]; [exists c; reflexivity|].
  cbn. apply IH. lia.
Qed.

(** In a string of ASCII bytes every index within is a boundary. *)
Lemma ascii_boundary (s : string) (i : nat) :
  Facts.is_ascii s = true ->
  (i < String.length s)%nat ->
  Multi.is_char_boundary s i = true.
Proof.
  intros Hascii Hi. unfold Multi.is_char_boundary.
  destruct i as [|i]; [reflexivity|].
  destruct (get_within s Hi) as (b & Hget). rewrite Hget.
  unfold Facts.is_ascii in Hascii.
  pose proof (proj1 (forallb_forall _ _) Hascii b (get_in_list _ _ Hget)) as Hb.
  cbn beta in Hb. apply N.ltb_lt in Hb.
  assert (Hlow : (128 <=? N_of_ascii b)%N = false) by (apply N.leb_gt; exact Hb).
  rewrite Hlow. reflexivity.
Qed.

Lemma shorten_address_ascii_total (address : string) :
  Facts.is_ascii address = true ->
  exists r, Multi.shorten_address address = Some r.
Proof.
  intros Hascii. unfold Multi.shorten_address.
  destruct (String.length address <=? 10)%nat eqn:Hlen;
    [eexists; reflexivity|].
  apply Nat.leb_gt in Hlen.
  rewrite !ascii_boundary by (assumption || lia). eexists. reflexivity.
Qed.

Lemma print_rows_total (results : list Multi.TransferResult) :
  Forall (fun r => Facts.is_ascii (Multi.from r) = true /\
                   Facts.is_ascii (Multi.to r) = true) results ->
  exists rows,
    Multi.print_rows results = Some rows /\
    List.length rows = List.length results /\
    map Multi.row_signature rows = map Multi.signature results /\
    map Multi.status rows
    = map (fun r => if Multi.success r then "SUCCESS" else "FAILED") results.
Proof.
  induction 1 as [|r results (Hfrom & Hto) _ IH]; cbn [Multi.print_rows].
  - exists []. repeat split; reflexivity.
  - destruct IH as (rows & -> & Hlen & Hsig & Hstatus).
    unfold Multi.print_row.
    destruct (shorten_address_ascii_total _ Hfrom) as (f & ->).
    destruct (shorten_address_ascii_total _ Hto) as (t & ->).
    eexists. split; [reflexivity|]. cbn. rewrite Hlen, Hsig, Hstatus.
    repeat split; reflexivity.
Qed.

(** A row can be printed exactly when both of its addresses can be
    shortened. *)
Lemma print_row_prints (r : Multi.TransferResult) :
  match Multi.print_row r with Some _ => true | None => false end
  = Facts.row_prints (Multi.from r) (Multi.to r).
Proof.
  unfold Multi.print_row, Facts.row_prints.
  destruct (Multi.shorten_address (Multi.from r)); [|reflexivity].
  destruct (Multi.shorten_address (Multi.to r)); reflexivity.
Qed.

(** Whether the loop of [execute_transfers] panics, and whether the table of
    its results can be printed, is decided by the wallet lists: the
    endpoint, the library and the amount have no part in it. *)
Lemma tasks_table_prints lib clients config amount start :
  forall wallets i,
    match Multi.transfer_tasks lib clients config amount start i wallets with
    | Multi.Panic _ => Facts.table_prints config i wallets = None
    | Multi.Finished results =>
      Facts.table_prints config i wallets
      = Some (match Multi.print_rows results with
              | Some _ => true
              | None => false
              end)
    end.
Proof.
  induction wallets as [|w rest IH]; intros i;
    cbn [Multi.transfer_tasks Facts.table_prints]; [reflexivity|].
  destruct (Multi.to_wallet_of config i) as [d|]; [|reflexivity].
  specialize (IH (S i)).
  destruct (Multi.transfer_tasks lib clients config amount start (S i) rest)
    as [tail|msg]; rewrite IH.
  - destruct (Multi.keypair_path w) as [path|]; [|reflexivity].
    cbn [Multi.print_rows].
    pose proof (print_row_prints
                  (Multi.task_body lib (clients i) path (Multi.address w)
                                   (Multi.address d) amount start)) as Hrow.
    destruct (task_body_fields lib (clients i) path (Multi.address w)
                               (Multi.address d) amount start) as (Hf & Ht).
    rewrite Hf, Ht in Hrow. rewrite <- Hrow.
    destruct (Multi.print_row _); [|reflexivity].
    destruct (Multi.print_rows tail); reflexivity.
  - destruct (Multi.keypair_path w); reflexivity.
Qed.

(** The exit code of the Rust [main], read off the wallet lists. *)
Lemma main_exit_code lib clients config amount start :
  exit_code (Multi.main_with_table lib clients config amount start)
  = match Facts.table_prints config 0 (Multi.from_wallets config) with
    | Some true => Some 0
    | _ => Some 101
    end.
Proof.
  unfold Multi.main_with_table, Multi.execute_transfers.
  pose proof (tasks_table_prints lib clients config amount start
                (Multi.from_wallets config) 0) as Htable.
  destruct (Multi.transfer_tasks lib clients config amount start 0
              (Multi.from_wallets config)) as [results|msg]; rewrite Htable.
  - destruct (Multi.print_rows results); reflexivity.
  - reflexivity.
Qed.

(** C7, as the programs have it.  A Go [main] that reaches its exit (there
    is at least one transfer and every worker has returned) exits with code
    0 exactly when every result a worker sent reads [Confirmed], and with
    code 1 otherwise.  The exit code of the Rust [main] does not depend on
    the outcomes of the transfers: it is the same whatever the endpoint, the
    library and the amount are.  Given a destination to pick and wallet
    addresses made of ASCII bytes, it prints its table and its summary and
    exits with code 0. *)
Theorem C7_exit_code :
  (forall fuel lib clients config start code report,
      Bulk.main fuel lib clients config start = Exit code report ->
      (code = 0 <->
       forall run r,
         In run (Bulk.run_workers fuel lib clients 0 (Bulk.Transfers config) start) ->
         In r (sent (final run)) ->
         Bulk.outcome_of r = Confirmed) /\
      (code = 0 \/ code = 1))
  /\
  (forall lib clients config amount start,
      Multi.to_wallets config <> [] ->
      (forall w, In w (Multi.from_wallets config) ->
                 Facts.is_ascii (Multi.address w) = true) ->
      (forall w, In w (Multi.to_wallets config) ->
                 Facts.is_ascii (Multi.address w) = true) ->
      exists results rows,
        Multi.execute_transfers lib clients config amount start
        = Multi.Finished (Ok results) /\
        Multi.main_with_table lib clients config amount start
        = Exit 0 (rows, Multi.summarize results))
  /\
  (forall lib lib' clients clients' config amount amount' start start',
      exit_code (Multi.main_with_table lib clients config amount start)
      = exit_code (Multi.main_with_table lib' clients' config amount' start')).
Proof.
  split; [|split].
  - intros fuel lib clients config start code report Hmain.
    destruct (main_exit_all_returned _ _ _ _ _ Hmain) as (_ & Hfin).
    destruct (finish_exit _ _ _ Hfin) as (_ & _ & _ & Hcode).
    unfold Bulk.collect in Hcode. rewrite collect_failCount in Hcode.
    cbn [Bulk.failCount Bulk.no_stats] in Hcode.
    set (runs := Bulk.run_workers fuel lib clients 0 (Bulk.Transfers config) start)
      in *.
    assert (Hiff : filter Claims.has_error (Bulk.channel runs) = [] <->
                   forall run r, In run runs -> In r (sent (final run)) ->
                                 Bulk.outcome_of r = Confirmed).
    { rewrite no_failure_iff. split.
      - intros Hall run r Hrun Hin. apply Hall. apply channel_In.
        exists run. split; assumption.
      - intros Hall r Hin. apply (proj1 (channel_In _ _)) in Hin.
        destruct Hin as (run & Hrun & Hin). exact (Hall run r Hrun Hin). }
    destruct (filter Claims.has_error (Bulk.channel runs)) as [|x l] eqn:Hf.
    + cbn in Hcode. subst code. split; [|left; reflexivity].
      split; [intros _; apply Hiff; reflexivity|reflexivity].
    + assert (Hpos : (0 + Z.of_nat (List.length (x :: l)) >? 0) = true).
      { apply Z.gtb_lt. cbn [List.length]. lia. }
      rewrite Hpos in Hcode. subst code. split; [|right; reflexivity].
      split; [discriminate|]. intros Hall. apply Hiff in Hall. discriminate Hall.
  - intros lib clients config amount start Hne Hfrom Hto.
    unfold Multi.main_with_table, Multi.execute_transfers.
    destruct (@transfer_tasks_total lib clients config amount start Hne
                (Multi.from_wallets config) 0%nat) as (results & Hrun).
    rewrite Hrun.
    destruct (transfer_tasks_finished _ _ _ _ _ _ _ Hrun) as (_ & _ & Hdest).
    destruct (transfer_tasks_order _ _ _ _ _ _ _ Hrun) as (Horder & _).
    destruct (print_rows_total (results := results)) as (rows & -> & _).
    + apply Forall_forall. intros r Hin. split.
      * assert (Hf : In (Multi.from r) (map Multi.from results))
          by (apply in_map; exact Hin).
        rewrite Horder in Hf. apply in_map_iff in Hf.
        destruct Hf as (w & <- & Hw). apply filter_In in Hw.
        apply Hfrom. exact (proj1 Hw).
      * destruct (Hdest r Hin) as (d & Hd & ->). apply Hto. exact Hd.
    + exists results, rows. split; reflexivity.
  - intros lib lib' clients clients' config amount amount' start start'.
    rewrite !main_exit_code. reflexivity.
Qed.

Lemma three_sources_ascii :
  (forall w, In w (Multi.from_wallets Stub.three_sources_one_destination) ->
             Facts.is_ascii (Multi.address w) = true) /\
  (forall w, In w (Multi.to_wallets Stub.three_sources_one_destination) ->
             Facts.is_ascii (Multi.address w) = true).
Proof.
  split.
  - intros w [<-|[<-|[<-|[]]]]; reflexivity.
  - intros w [<-|[]]. reflexivity.
Qed.

Lemma C7_exit_code_witness :
  (Bulk.main 30 Stub.golib Stub.mixed_clients Stub.mixed_config 0
   = Exit 1 Stub.mixed_report /\
   (1 = 0 <->
       forall run r,
         In run (Bulk.run_workers 30 Stub.golib Stub.mixed_clients 0
                   (Bulk.Transfers Stub.mixed_config) 0) ->
         In r (sent (final run)) ->
         Bulk.outcome_of r = Confirmed))
  /\
  (Multi.to_wallets Stub.three_sources_one_destination <> [] /\
   exists results rows,
     Multi.execute_transfers Stub.rustlib (fun _ => Stub.rust_down)
       Stub.three_sources_one_destination 100000000 0
     = Multi.Finished (Ok results) /\
     Multi.main_with_table Stub.rustlib (fun _ => Stub.rust_down)
       Stub.three_sources_one_destination 100000000 0
     = Exit 0 (rows, Multi.summarize results)).
Proof.
  destruct C7_exit_code as (go & rust & _).
  split.
  - split; [exact mixed_batch_exit|].
    exact (proj1 (go 30%nat Stub.golib Stub.mixed_clients Stub.mixed_config
                     0 1 Stub.mixed_report mixed_batch_exit)).
  - assert (Hne : Multi.to_wallets Stub.three_sources_one_destination <> [])
      by discriminate.
    split; [exact Hne|].
    exact (rust Stub.rustlib (fun _ => Stub.rust_down)
                Stub.three_sources_one_destination 100000000 0 Hne
                (proj1 three_sources_ascii) (proj2 three_sources_ascii)).
Defined.

(** C7 as stated fails on the Rust CLI: with an endpoint that is down, the
    only transfer fails before submission, the table shows it as failed,
    the summary counts one failed transfer, and the process exits with
    code 0. *)
Lemma C7_rust_main_exits_zero_on_failure :
  Multi.main_with_table Stub.rustlib (fun _ => Stub.rust_down)
    (Multi.mkWalletConfig [Stub.sample_source] [Stub.sample_destination])
    100000000 0
  = Exit 0 ([Multi.mkRow "11111...11111" "Vote1...11111" "FAILED" "FAILED" 0],
            Multi.mkReport 1 0 1 (Some 0)) /\
  Multi.outcome_of
    (fst (Multi.execute_single_transfer Stub.rustlib Stub.rust_down "id.json"
            Stub.system_address Stub.good_address 100000000 (Multi.boot 0)))
  = PrecursorFailed "connection refused" /\
  exit_code
    (Multi.main_with_table Stub.rustlib (fun _ => Stub.rust_down)
       (Multi.mkWalletConfig [Stub.sample_source] [Stub.sample_destination])
       100000000 0)
  = Some 0.
Proof.
  split; [vm_compute; reflexivity|].
  split; vm_compute; reflexivity.
Qed.

(** ** C8: how sources and destinations are paired *)

Lemma filter_all (A : Type) (f : A -> bool) (l : list A) :
  (forall x, In x l -> f x = true) -> filter f l = l.
Proof.
  induction l as [|x l IH]; intros Hall; cbn [filter]; [reflexivity|].
  rewrite (Hall x (or_introl eq_refl)), IH; [reflexivity|].
  intros y Hin. apply Hall. right. exact Hin.
Qed.

(** C8, as the program has it.  With a destination to pick,
    [execute_transfers] returns one result per source wallet that names a
    keypair file, and the result of the source wallet at index [i] carries
    the destination at index [i] when [i] is within the destination list,
    and the first destination when [i] is beyond it; this is the choice the
    loop makes for every source, with or without a keypair file.  With a
    single destination every result shows that destination, and when every
    source names a keypair file there are as many results as sources: three
    such sources give three results with the same destination. *)
Theorem C8_pairing :
  (forall lib clients config amount start,
      Multi.to_wallets config <> [] ->
      exists results,
        Multi.execute_transfers lib clients config amount start
        = Multi.Finished (Ok results) /\
        List.length results
        = List.length (filter Claims.has_keypair (Multi.from_wallets config)) /\
        forall i w path,
          nth_error (Multi.from_wallets config) i = Some w ->
          Multi.keypair_path w = Some path ->
          exists d,
            In (Multi.task_body lib (clients i) path (Multi.address w)
                                (Multi.address d) amount start) results /\
            Multi.to (Multi.task_body lib (clients i) path (Multi.address w)
                                      (Multi.address d) amount start)
            = Multi.address d /\
            ((i < List.length (Multi.to_wallets config))%nat ->
             nth_error (Multi.to_wallets config) i = Some d) /\
            ((List.length (Multi.to_wallets config) <= i)%nat ->
             nth_error (Multi.to_wallets config) 0 = Some d))
  /\
  (forall config i,
      ((i < List.length (Multi.to_wallets config))%nat ->
       Multi.to_wallet_of config i = nth_error (Multi.to_wallets config) i) /\
      ((List.length (Multi.to_wallets config) <= i)%nat ->
       Multi.to_wallet_of config i = nth_error (Multi.to_wallets config) 0))
  /\
  (forall lib clients sources d amount start,
      exists results,
        Multi.execute_transfers lib clients (Multi.mkWalletConfig sources [d])
                                amount start
        = Multi.Finished (Ok results) /\
        List.length results = List.length (filter Claims.has_keypair sources) /\
        Forall (fun r => Multi.to r = Multi.address d) results /\
        ((forall w, In w sources -> Claims.has_keypair w = true) ->
         List.length results = List.length sources)).
Proof.
  split; [|split].
  - intros lib clients config amount start Hne.
    unfold Multi.execute_transfers.
    destruct (@transfer_tasks_total lib clients config amount start Hne
                (Multi.from_wallets config) 0%nat) as (results & Hrun).
    rewrite Hrun. exists results. split; [reflexivity|].
    destruct (transfer_tasks_finished _ _ _ _ _ _ _ Hrun) as (Hlen & Hpair & _).
    split; [exact Hlen|].
    intros i w path Hw Hpath.
    destruct (Hpair i w path Hw Hpath) as (d & Hd & Hin).
    cbn [Nat.add] in Hd, Hin.
    exists d. split; [exact Hin|]. split; [apply task_body_fields|].
    destruct (to_wallet_of_cases config i) as (Hwithin & Hbeyond).
    split; intros Hi.
    + rewrite <- (Hwithin Hi). exact Hd.
    + rewrite <- (Hbeyond Hi). exact Hd.
  - exact to_wallet_of_cases.
  - intros lib clients sources d amount start.
    unfold Multi.execute_transfers.
    assert (Hne : Multi.to_wallets (Multi.mkWalletConfig sources [d]) <> [])
      by discriminate.
    destruct (@transfer_tasks_total lib clients _ amount start Hne
                (Multi.from_wallets (Multi.mkWalletConfig sources [d])) 0%nat)
      as (results & Hrun).
    rewrite Hrun. exists results. split; [reflexivity|].
    destruct (transfer_tasks_finished _ _ _ _ _ _ _ Hrun) as (Hlen & _ & Hto).
    cbn [Multi.from_wallets] in Hlen.
    split; [exact Hlen|].
    split.
    + apply Forall_forall. intros r Hin.
      destruct (Hto r Hin) as (d' & [<-|[]] & Heq). exact Heq.
    + intros Hall. rewrite Hlen, (filter_all _ _ Hall). reflexivity.
Qed.

Lemma C8_pairing_witness :
  (Multi.to_wallets Stub.three_sources_one_destination <> [] /\
   exists results,
     Multi.execute_transfers Stub.rustlib (fun _ => Stub.rust_down)
       Stub.three_sources_one_destination 100000000 0
     = Multi.Finished (Ok results) /\
     List.length results
     = List.length
         (filter Claims.has_keypair
            (Multi.from_wallets Stub.three_sources_one_destination)) /\
     forall i w path,
       nth_error (Multi.from_wallets Stub.three_sources_one_destination) i
       = Some w ->
       Multi.keypair_path w = Some path ->
       exists d,
         In (Multi.task_body Stub.rustlib Stub.rust_down path (Multi.address w)
               (Multi.address d) 100000000 0) results /\
         Multi.to (Multi.task_body Stub.rustlib Stub.rust_down path
                     (Multi.address w) (Multi.address d) 100000000 0)
         = Multi.address d /\
         ((i < List.length
                 (Multi.to_wallets Stub.three_sources_one_destination))%nat ->
          nth_error (Multi.to_wallets Stub.three_sources_one_destination) i
          = Some d) /\
         ((List.length
             (Multi.to_wallets Stub.three_sources_one_destination) <= i)%nat ->
          nth_error (Multi.to_wallets Stub.three_sources_one_destination) 0
          = Some d))
  /\
  ((1 <= 2)%nat /\
   Multi.to_wallet_of Stub.three_sources_one_destination 2
   = nth_error (Multi.to_wallets Stub.three_sources_one_destination) 0)
  /\
  ((forall w, In w [Stub.sample_source; Stub.sample_source; Stub.sample_source] ->
              Claims.has_keypair w = true) /\
   exists results,
     Multi.execute_transfers Stub.rustlib (fun _ => Stub.rust_down)
       (Multi.mkWalletConfig
          [Stub.sample_source; Stub.sample_source; Stub.sample_source]
          [Stub.sample_destination]) 100000000 0
     = Multi.Finished (Ok results) /\
     List.length results = 3%nat /\
     Forall (fun r => Multi.to r = Stub.good_address) results).
Proof.
  destruct C8_pairing as (pairing & choice & single).
  assert (Hne : Multi.to_wallets Stub.three_sources_one_destination <> [])
    by discriminate.
  assert (Hall : forall w,
             In w [Stub.sample_source; Stub.sample_source; Stub.sample_source] ->
             Claims.has_keypair w = true).
  { intros w [<-|[<-|[<-|[]]]]; reflexivity. }
  split; [|split].
  - split; [exact Hne|].
    exact (pairing Stub.rustlib (fun _ => Stub.rust_down)
                   Stub.three_sources_one_destination 100000000 0 Hne).
  - split; [lia|].
    apply (proj2 (choice Stub.three_sources_one_destination 2%nat)).
    cbn. lia.
  - split; [exact Hall|].
    destruct (single Stub.rustlib (fun _ => Stub.rust_down)
                     [Stub.sample_source; Stub.sample_source; Stub.sample_source]
                     Stub.sample_destination 100000000 0)
      as (results & Hrun & _ & Hto & Hlen).
    exists results. split; [exact Hrun|].
    split; [exact (Hlen Hall)|exact Hto].
Defined.

(** C8 as stated fails on the program.  Of three sources and one
    destination, the source that names no keypair file is not paired with
    anything: two results come back, not three.  With no destination at all
    a source has no first destination to fall back on: the loop panics. *)
Lemma C8_keyless_source_is_not_paired :
  Multi.execute_transfers Stub.rustlib (fun _ => Stub.rust_down)
    (Multi.mkWalletConfig
       [Stub.sample_source; Stub.keyless_source; Stub.sample_source]
       [Stub.sample_destination]) 100000000 0
  = Multi.Finished
      (Ok [Multi.mkResult Stub.system_address Stub.good_address
             "FAILED" false 0;
           Multi.mkResult Stub.system_address Stub.good_address
             "FAILED" false 0]) /\
  ~ (exists results,
        Multi.execute_transfers Stub.rustlib (fun _ => Stub.rust_down)
          (Multi.mkWalletConfig
             [Stub.sample_source; Stub.keyless_source; Stub.sample_source]
             [Stub.sample_destination]) 100000000 0
        = Multi.Finished (Ok results) /\
        List.length results = 3%nat) /\
  Multi.execute_transfers Stub.rustlib (fun _ => Stub.rust_down)
    (Multi.mkWalletConfig [Stub.sample_source] []) 100000000 0
  = Multi.Panic "index out of bounds".
Proof.
  split; [vm_compute; reflexivity|].
  split; [|vm_compute; reflexivity].
  intros (results & Hrun & Hlen).
  vm_compute in Hrun. injection Hrun as <-. discriminate Hlen.
Qed.

(** The status loop never reports a key error. *)
Lemma poll_error_kind (client : Go.Client) (sig : Signature) (startTime : Z)
    (result : Bulk.TransferResult) :
  Bulk.Error result = None ->
  forall fuel k g g',
    Bulk.poll fuel k client sig startTime result g = Returned tt g' ->
    exists r,
      sent g' = sent g ++ [r] /\
      forall cause, Bulk.Error r <> Some (Bulk.FailedDecodeKey cause).
Proof.
  intros Herr.
  induction fuel as [|fuel IH]; intros k g g' Hrun; [discriminate Hrun|].
  cbn [Bulk.poll] in Hrun. unfold rpc, Bulk.fail_with in Hrun.
  destruct (answer (GetSignatureStatuses client k [sig])) as [value|e].
  - destruct value as [|[st|] rest].
    + discriminate Hrun.
    + injection Hrun as <-. eexists. split; [reflexivity|].
      intros cause. destruct (st_Err st); cbn; [discriminate|].
      rewrite Herr. discriminate.
    + apply IH in Hrun. exact Hrun.
  - injection Hrun as <-. eexists. split; [reflexivity|].
    intros cause. cbn. discriminate.
Qed.

(** ** C9: a key of the wrong length *)

(** C9 at the failing input.  [sendTransaction] slices the decoded key to
    its first 32 bytes without looking at its length: a key decoded into a
    buffer of fewer than 32 bytes makes the call panic before anything else
    happens.  In the batch job, once the base64 text of the key decodes no
    path reports the key as invalid: a worker that returns has a result
    whose error is never the key error. *)
Theorem C9_wrong_length_key_is_not_reported :
  (forall lib client privateKeyBytes recipientAddr amount g,
      (cap privateKeyBytes < 32)%nat ->
      Geyser.sendTransaction lib client privateKeyBytes recipientAddr amount g
      = Panicked "slice bounds out of range [:32]" g)
  /\
  (forall fuel lib client transfer privateKeyBytes g g',
      DecodeString lib (Bulk.FromPrivateKey transfer) = Ok privateKeyBytes ->
      Bulk.executeTransfer fuel lib client transfer g = Returned tt g' ->
      exists r,
        sent g' = sent g ++ [r] /\
        forall cause, Bulk.Error r <> Some (Bulk.FailedDecodeKey cause)).
Proof.
  split.
  - intros lib client privateKeyBytes recipientAddr amount g Hcap.
    unfold Geyser.sendTransaction, slice_to.
    apply Nat.leb_gt in Hcap. rewrite Hcap. reflexivity.
  - intros fuel lib client transfer pk g g' Hdec.
    unfold Bulk.executeTransfer, Bulk.fail_with, rpc. rewrite Hdec.
    destruct (NewAccountFromPrivateKeyBytes lib (elems pk)) as [account|];
      [|discriminate].
    destruct (PublicKeyFromBase58 lib (Bulk.ToAddress transfer)) as [dst|e];
      [|early_return discriminate].
    destruct (answer (GetRecentBlockhash client CommitmentFinalized)) as [bh|e];
      [|early_return discriminate].
    destruct (NewTransaction lib _ bh (acc_PublicKey account)) as [tx|e];
      [|early_return discriminate].
    destruct (Sign lib tx _) as [tx'|e];
      [|early_return discriminate].
    destruct (answer (SendTransactionWithOpts client tx' _)) as [sig|e];
      [|early_return discriminate].
    intros Hrun. apply poll_error_kind in Hrun; [exact Hrun|reflexivity].
Qed.

Lemma short_slice_decoded :
  DecodeString Stub.golib Stub.short_key = Ok Stub.short_slice.
Proof. by_evaluation. Qed.

Lemma C9_wrong_length_key_is_not_reported_witness :
  (DecodeString Stub.golib Stub.short_key = Ok Stub.short_slice /\
   List.length (elems Stub.short_slice) = 16%nat /\
   (cap Stub.short_slice < 32)%nat /\
   Geyser.sendTransaction Stub.golib Stub.go_silent Stub.short_slice
     Stub.good_address 100000000 (spawn Empty_set 0)
   = Panicked "slice bounds out of range [:32]" (spawn Empty_set 0))
  /\
  (exists privateKeyBytes,
      DecodeString Stub.golib (Bulk.FromPrivateKey Stub.sample_transfer)
      = Ok privateKeyBytes /\
      Bulk.executeTransfer 30 Stub.golib Stub.go_down Stub.sample_transfer
        (spawn Bulk.TransferResult 0) = Returned tt Stub.down_end /\
      exists r,
        sent Stub.down_end = [] ++ [r] /\
        forall cause, Bulk.Error r <> Some (Bulk.FailedDecodeKey cause)).
Proof.
  destruct C9_wrong_length_key_is_not_reported as (geyser & bulk).
  split.
  - split; [exact short_slice_decoded|].
    split; [reflexivity|].
    split; [vm_compute; lia|].
    apply (geyser Stub.golib Stub.go_silent Stub.short_slice Stub.good_address
                  100000000 (spawn Empty_set 0)).
    vm_compute. lia.
  - eexists. split; [vm_compute; reflexivity|].
    split; [vm_compute; reflexivity|].
    eapply (bulk 30%nat Stub.golib Stub.go_down Stub.sample_transfer _
                 (spawn Bulk.TransferResult 0) Stub.down_end).
    + vm_compute. reflexivity.
    + vm_compute. reflexivity.
Defined.

(** ** C10: an empty destination list *)

(** C10.  With at least one source wallet and no destination wallet,
    [execute_transfers] indexes the empty destination vector at 0 and
    panics: it returns neither results nor an error. *)
Theorem C10_empty_destinations_panic :
  forall lib clients sources amount start,
    sources <> [] ->
    Multi.execute_transfers lib clients (Multi.mkWalletConfig sources []) amount start
      = Multi.Panic "index out of bounds".
Proof.
  intros lib clients sources amount start Hne.
  destruct sources as [|w rest]; [contradiction|].
  unfold Multi.execute_transfers. cbn. reflexivity.
Qed.

Lemma C10_empty_destinations_panic_witness :
  [Multi.mkWallet Stub.system_address (Some "id.json"%string)] <> [] /\
  Multi.execute_transfers Stub.rustlib (fun _ => Stub.rust_silent)
    (Multi.mkWalletConfig
       [Multi.mkWallet Stub.system_address (Some "id.json"%string)] [])
    100000000 0
  = Multi.Panic "index out of bounds".
Proof.
  split; [discriminate|].
  apply (C10_empty_destinations_panic Stub.rustlib (fun _ => Stub.rust_silent)
           (sources := [Multi.mkWallet Stub.system_address (Some "id.json"%string)])
           100000000 0).
  discriminate.
Defined.

(* ===================================================================== *)
(** * Further properties of the Go batch job *)
(* ===================================================================== *)

(** ** The status loop, turn by turn *)

(** A status loop that returns has sent one of three results. *)
Lemma poll_result_shape (client : Go.Client) (sig : Signature) (startTime : Z)
    (result : Bulk.TransferResult) :
  forall fuel k g g',
    Bulk.poll fuel k client sig startTime result g = Returned tt g' ->
    exists r,
      sent g' = sent g ++ [r] /\
      (count_calls CallStatus (calls g) < count_calls CallStatus (calls g'))%nat /\
      ((exists e, r = Bulk.set_Error (Bulk.FailedStatus e) result) \/
       (exists t, r = Bulk.set_ProcessingTime t
                        (Bulk.set_Status "Confirmed" result)) \/
       (exists t e, r = Bulk.set_ProcessingTime t
                          (Bulk.set_Error (Bulk.TransactionFailed e)
                                          (Bulk.set_Status "Failed" result)))).
Proof.
  induction fuel as [|fuel IH]; intros k g g' Hrun; [discriminate Hrun|].
  cbn [Bulk.poll] in Hrun. unfold rpc, Bulk.fail_with in Hrun.
  destruct (answer (GetSignatureStatuses client k [sig])) as [value|e].
  - destruct value as [|[st|] rest].
    + discriminate Hrun.
    + injection Hrun as <-. eexists. split; [reflexivity|].
      cbn [send calls]. rewrite count_calls_app. split; [cbn; lia|].
      right. destruct (st_Err st); [right|left]; repeat eexists.
    + apply IH in Hrun. destruct Hrun as (r & Hsent & Hq & Hshape).
      exists r. split; [exact Hsent|]. split; [|exact Hshape].
      cbn [Sleep calls] in Hq. rewrite !count_calls_app in Hq. cbn in Hq. lia.
  - injection Hrun as <-. eexists. split; [reflexivity|].
    cbn [send calls]. rewrite count_calls_app. split; [cbn; lia|].
    left. eexists. reflexivity.
Qed.

(** The loop neither fetches a blockhash nor submits, however it ends. *)
Lemma poll_only_queries (client : Go.Client) (sig : Signature) (startTime : Z)
    (result : Bulk.TransferResult) :
  forall fuel k g,
    count_calls CallSend
      (calls (final (Bulk.poll fuel k client sig startTime result g)))
    = count_calls CallSend (calls g) /\
    count_calls CallBlockhash
      (calls (final (Bulk.poll fuel k client sig startTime result g)))
    = count_calls CallBlockhash (calls g).
Proof.
  induction fuel as [|fuel IH]; intros k g; [split; reflexivity|].
  cbn [Bulk.poll]. unfold rpc, Bulk.fail_with.
  destruct (answer (GetSignatureStatuses client k [sig])) as [value|e].
  - destruct value as [|[st|] rest]; cbn [final send calls];
      try (rewrite !count_calls_app; cbn; split; lia).
    destruct (IH (S k)
                (Sleep poll_interval
                   (mkGoroutine
                      (clock g + latency (GetSignatureStatuses client k [sig]))
                      (calls g ++ [(clock g, CallStatus)]) (sent g))))
      as (-> & ->).
    cbn [Sleep calls]. rewrite !count_calls_app. cbn. split; lia.
  - cbn [final send calls]. rewrite !count_calls_app. cbn. split; lia.
Qed.

(** A submitted transfer enters the status loop with its result filled in
    up to the signature, two calls after its start. *)
Lemma executeTransfer_enters_poll fuel lib client transfer sig g :
  Bulk.submits lib client transfer sig ->
  exists tx result g1,
    Bulk.executeTransfer fuel lib client transfer g
    = Bulk.poll fuel 0 client sig (clock g) result g1 /\
    clock g1
    = clock g + latency (GetRecentBlockhash client CommitmentFinalized)
      + latency (SendTransactionWithOpts client tx (mkOpts false CommitmentFinalized)) /\
    sent g1 = sent g /\
    (forall c, count_calls c (calls g1)
               = (count_calls c (calls g)
                  + match c with
                    | CallBlockhash | CallSend => 1
                    | _ => 0
                    end)%nat) /\
    Bulk.ResSignature result = sig /\
    Bulk.ResAmount result = Bulk.Amount transfer /\
    Bulk.Status result = "" /\
    Bulk.Error result = None /\
    Bulk.ProcessingTime result = 0.
Proof.
  intros (pk & account & destination & blockhash & tx & tx' &
          Hdec & Hacc & Hdst & Hbh & Htx & Hsign & Hsend).
  unfold Bulk.executeTransfer, rpc.
  rewrite Hdec, Hacc, Hdst, Hbh, Htx, Hsign, Hsend.
  exists tx'. eexists. eexists. split; [reflexivity|].
  cbn [clock sent calls Bulk.ResSignature Bulk.ResAmount Bulk.Status Bulk.Error
       Bulk.ProcessingTime Bulk.set_Signature Bulk.set_ToAccount
       Bulk.set_FromAccount].
  split; [lia|]. split; [reflexivity|].
  split; [|repeat split; reflexivity].
  intros c. rewrite !count_calls_app. destruct c; cbn; lia.
Qed.

Lemma status_latency_snoc (client : Go.Client) (sig : Signature) (n : nat) :
  forall k,
    Facts.status_latency client sig k (S n)
    = Facts.status_latency client sig k n
      + latency (GetSignatureStatuses client (k + n) [sig]).
Proof.
  induction n as [|n IH]; intros k.
  - cbn. rewrite Nat.add_0_r. lia.
  - change (Facts.status_latency client sig k (S (S n)))
      with (latency (GetSignatureStatuses client k [sig])
            + Facts.status_latency client sig (S k) (S n)).
    rewrite (IH (S k)). cbn [Facts.status_latency].
    replace (S k + n)%nat with (k + S n)%nat by lia. lia.
Qed.

(** X1.  A submitted Go transfer whose first [n] status queries answer
    "absent" and whose next one reports a status returns (given fuel for
    [n + 1] turns) with one result that keeps the signature and the amount:
    "Confirmed" without error when the status has no error, "Failed" with
    the on-chain error otherwise.  It has made [n + 1] status queries and
    slept [n] times, and the time in the result is the time the worker
    took: the two calls before the loop, the [n + 1] queries and [n] poll
    intervals. *)
Theorem X1_go_status_ends_the_wait :
  forall fuel lib client transfer sig g n st rest,
    Bulk.submits lib client transfer sig ->
    (forall j, (j < n)%nat -> Claims.absent_at client sig j) ->
    answer (GetSignatureStatuses client n [sig]) = Ok (Some st :: rest) ->
    (n < fuel)%nat ->
    exists tx g' r,
      Bulk.executeTransfer fuel lib client transfer g = Returned tt g' /\
      sent g' = sent g ++ [r] /\
      Bulk.ResSignature r = sig /\
      Bulk.ResAmount r = Bulk.Amount transfer /\
      Bulk.Status r = match st_Err st with
                      | None => "Confirmed"
                      | Some _ => "Failed"
                      end /\
      Bulk.Error r = option_map Bulk.TransactionFailed (st_Err st) /\
      count_calls CallStatus (calls g')
      = (count_calls CallStatus (calls g) + S n)%nat /\
      count_calls CallSleep (calls g')
      = (count_calls CallSleep (calls g) + n)%nat /\
      Bulk.ProcessingTime r = clock g' - clock g /\
      clock g' - clock g
      = latency (GetRecentBlockhash client CommitmentFinalized)
        + latency (SendTransactionWithOpts client tx
                     (mkOpts false CommitmentFinalized))
        + Facts.status_latency client sig 0 (S n)
        + Z.of_nat n * poll_interval.
Proof.
  intros fuel lib client transfer sig g n st rest Hsub Habs Hans Hfuel.
  destruct (executeTransfer_enters_poll fuel g Hsub)
    as (tx & result & g1 & Hrun & Hclock1 & Hsent1 & Hcount1 &
        Hsig & Hamount & _ & Herr & _).
  replace fuel with (n + S (fuel - S n))%nat in Hrun |- * by lia.
  destruct (@poll_skips_absent client sig (clock g) result n 0%nat
              (S (fuel - S n)) g1 Habs)
    as (g2 & Hskip & Hclock2 & Hsent2 & Hcount2).
  rewrite Hskip in Hrun. cbn [Nat.add Bulk.poll] in Hrun. unfold rpc in Hrun.
  rewrite Hans in Hrun.
  exists tx. eexists. eexists. split; [exact Hrun|].
  cbn [send sent calls clock].
  split; [rewrite Hsent2, Hsent1; reflexivity|].
  split; [destruct (st_Err st); exact Hsig|].
  split; [destruct (st_Err st); exact Hamount|].
  split; [destruct (st_Err st); reflexivity|].
  split; [destruct (st_Err st); [reflexivity|exact Herr]|].
  rewrite !count_calls_app, !Hcount2, !Hcount1.
  split; [cbn; lia|]. split; [cbn; lia|].
  split; [destruct (st_Err st); reflexivity|].
  rewrite Hclock2, Hclock1, (status_latency_snoc client sig n 0).
  cbn [Nat.add]. lia.
Qed.

Lemma X1_go_status_ends_the_wait_witness :
  Bulk.submits Stub.golib (Stub.go_endpoint 3 Stub.go_confirmed)
               Stub.sample_transfer "5sig" /\
  (forall j, (j < 3)%nat ->
             Claims.absent_at (Stub.go_endpoint 3 Stub.go_confirmed) "5sig" j) /\
  answer (GetSignatureStatuses (Stub.go_endpoint 3 Stub.go_confirmed) 3 ["5sig"])
  = Ok [Some (mkStatus None)] /\
  (3 < 30)%nat /\
  exists tx g' r,
    Bulk.executeTransfer 30 Stub.golib (Stub.go_endpoint 3 Stub.go_confirmed)
      Stub.sample_transfer (spawn Bulk.TransferResult 0) = Returned tt g' /\
    sent g' = [] ++ [r] /\
    Bulk.ResSignature r = "5sig" /\
    Bulk.ResAmount r = 100000000 /\
    Bulk.Status r = "Confirmed" /\
    Bulk.Error r = None /\
    count_calls CallStatus (calls g') = 4%nat /\
    count_calls CallSleep (calls g') = 3%nat /\
    Bulk.ProcessingTime r = clock g' - 0 /\
    clock g' - 0
    = latency (GetRecentBlockhash (Stub.go_endpoint 3 Stub.go_confirmed)
                 CommitmentFinalized)
      + latency (SendTransactionWithOpts (Stub.go_endpoint 3 Stub.go_confirmed)
                   tx (mkOpts false CommitmentFinalized))
      + Facts.status_latency (Stub.go_endpoint 3 Stub.go_confirmed) "5sig" 0 4
      + 3 * poll_interval.
Proof.
  split; [exact confirming_endpoint_submits|].
  split; [exact confirming_endpoint_absent|].
  split; [reflexivity|].
  split; [lia|].
  exact (X1_go_status_ends_the_wait (fuel := 30)
           (spawn Bulk.TransferResult 0) (n := 3) (st := mkStatus None)
           (rest := []) confirming_endpoint_submits
           confirming_endpoint_absent eq_refl ltac:(lia)).
Defined.

(** X2.  A submitted Go transfer whose status query fails after [n]
    "absent" answers returns with one result that has the error of the
    query and still carries the signature; its status is empty and its time
    is zero.  The loop has made [n + 1] status queries and does not try
    again. *)
Theorem X2_go_failed_status_query :
  forall fuel lib client transfer sig g n e,
    Bulk.submits lib client transfer sig ->
    (forall j, (j < n)%nat -> Claims.absent_at client sig j) ->
    answer (GetSignatureStatuses client n [sig]) = Err e ->
    (n < fuel)%nat ->
    exists g' r,
      Bulk.executeTransfer fuel lib client transfer g = Returned tt g' /\
      sent g' = sent g ++ [r] /\
      Bulk.Error r = Some (Bulk.FailedStatus e) /\
      Bulk.ResSignature r = sig /\
      Bulk.Status r = "" /\
      Bulk.ProcessingTime r = 0 /\
      count_calls CallStatus (calls g')
      = (count_calls CallStatus (calls g) + S n)%nat /\
      count_calls CallSend (calls g')
      = (count_calls CallSend (calls g) + 1)%nat.
Proof.
  intros fuel lib client transfer sig g n e Hsub Habs Hans Hfuel.
  destruct (executeTransfer_enters_poll fuel g Hsub)
    as (tx & result & g1 & Hrun & _ & Hsent1 & Hcount1 &
        Hsig & _ & Hstatus & _ & Htime).
  replace fuel with (n + S (fuel - S n))%nat in Hrun |- * by lia.
  destruct (@poll_skips_absent client sig (clock g) result n 0%nat
              (S (fuel - S n)) g1 Habs)
    as (g2 & Hskip & _ & Hsent2 & Hcount2).
  rewrite Hskip in Hrun. cbn [Nat.add Bulk.poll] in Hrun.
  unfold rpc, Bulk.fail_with in Hrun. rewrite Hans in Hrun.
  eexists. eexists. split; [exact Hrun|].
  cbn [send sent calls].
  split; [rewrite Hsent2, Hsent1; reflexivity|].
  split; [reflexivity|].
  split; [exact Hsig|]. split; [exact Hstatus|]. split; [exact Htime|].
  rewrite !count_calls_app, !Hcount2, !Hcount1. cbn. split; lia.
Qed.

Lemma flaky_endpoint_submits :
  Bulk.submits Stub.golib Samples.go_flaky Stub.sample_transfer "5sig".
Proof. unfold Bulk.submits. do 6 eexists. each_step_evaluates. Qed.

Lemma flaky_endpoint_absent :
  forall j, (j < 2)%nat -> Claims.absent_at Samples.go_flaky "5sig" j.
Proof.
  intros j Hj. exists []. unfold Samples.go_flaky, Stub.go_endpoint.
  cbn [GetSignatureStatuses]. apply Nat.ltb_lt in Hj. rewrite Hj. reflexivity.
Qed.

Lemma X2_go_failed_status_query_witness :
  Bulk.submits Stub.golib Samples.go_flaky Stub.sample_transfer "5sig" /\
  (forall j, (j < 2)%nat -> Claims.absent_at Samples.go_flaky "5sig" j) /\
  answer (GetSignatureStatuses Samples.go_flaky 2 ["5sig"])
  = Err "connection reset" /\
  (2 < 30)%nat /\
  exists g' r,
    Bulk.executeTransfer 30 Stub.golib Samples.go_flaky Stub.sample_transfer
      (spawn Bulk.TransferResult 0) = Returned tt g' /\
    sent g' = [] ++ [r] /\
    Bulk.Error r = Some (Bulk.FailedStatus "connection reset") /\
    Bulk.ResSignature r = "5sig" /\
    Bulk.Status r = "" /\
    Bulk.ProcessingTime r = 0 /\
    count_calls CallStatus (calls g') = 3%nat /\
    count_calls CallSend (calls g') = 1%nat.
Proof.
  split; [exact flaky_endpoint_submits|].
  split; [exact flaky_endpoint_absent|].
  split; [reflexivity|].
  split; [lia|].
  exact (X2_go_failed_status_query (fuel := 30)
           (spawn Bulk.TransferResult 0) (n := 2)
           flaky_endpoint_submits flaky_endpoint_absent eq_refl ltac:(lia)).
Defined.

(** Counting the calls of a state written out. *)
Ltac count_now :=
  cbn [final send calls]; rewrite ?count_calls_app;
  cbn [count_calls filter snd Call_eqb List.length].

(** The calls of the status loop come in order: a status query, a sleep, a
    status query, and so on. *)
Lemma poll_order (client : Go.Client) (sig : Signature) (startTime : Z)
    (result : Bulk.TransferResult) :
  forall fuel k g,
  exists suffix,
    calls (final (Bulk.poll fuel k client sig startTime result g))
    = calls g ++ suffix /\
    Facts.polling_order (map snd suffix) = true.
Proof.
  induction fuel as [|fuel IH]; intros k g.
  - exists []. split; [cbn; rewrite app_nil_r; reflexivity|reflexivity].
  - cbn [Bulk.poll]. unfold rpc, Bulk.fail_with.
    destruct (answer (GetSignatureStatuses client k [sig])) as [value|e].
    + destruct value as [|[st|] rest].
      * exists [(clock g, CallStatus)]. split; reflexivity.
      * exists [(clock g, CallStatus)]. split; reflexivity.
      * match goal with
        | |- context [Bulk.poll fuel (S k) client sig startTime result ?g1] =>
          destruct (IH (S k) g1) as (suffix & Hcalls & Hord)
        end.
        rewrite Hcalls. cbn [Sleep calls clock]. rewrite <- !app_assoc.
        eexists. split; [reflexivity|]. exact Hord.
    + exists [(clock g, CallStatus)]. split; reflexivity.
Qed.

(** X3.  Whatever the library and the endpoint do and however it ends, the
    calls a run of [executeTransfer] adds to its log are, in this order:
    nothing; or one blockhash request; or one blockhash request, then one
    submission, then the calls of the status loop (a status query, a sleep,
    a status query, and so on).  So it asks for at most one blockhash and
    submits at most once, it queries the status only after it has submitted,
    and it submits only after it has fetched a blockhash. *)
Theorem X3_go_worker_submits_at_most_once :
  forall fuel lib client transfer g,
    (exists suffix,
        calls (final (Bulk.executeTransfer fuel lib client transfer g))
        = calls g ++ suffix /\
        Facts.go_worker_order (map snd suffix) = true) /\
    (count_calls CallSend
       (calls (final (Bulk.executeTransfer fuel lib client transfer g)))
     <= count_calls CallSend (calls g) + 1)%nat /\
    (count_calls CallBlockhash
       (calls (final (Bulk.executeTransfer fuel lib client transfer g)))
     <= count_calls CallBlockhash (calls g) + 1)%nat /\
    ((count_calls CallStatus (calls g)
      < count_calls CallStatus
          (calls (final (Bulk.executeTransfer fuel lib client transfer g))))%nat ->
     count_calls CallSend
       (calls (final (Bulk.executeTransfer fuel lib client transfer g)))
     = (count_calls CallSend (calls g) + 1)%nat) /\
    (count_calls CallSend
       (calls (final (Bulk.executeTransfer fuel lib client transfer g)))
     = (count_calls CallSend (calls g) + 1)%nat ->
     count_calls CallBlockhash
       (calls (final (Bulk.executeTransfer fuel lib client transfer g)))
     = (count_calls CallBlockhash (calls g) + 1)%nat).
Proof.
  intros fuel lib client transfer g.
  unfold Bulk.executeTransfer, Bulk.fail_with, rpc.
  assert (Hnone : exists suffix : list Event,
             calls g = calls g ++ suffix /\
             Facts.go_worker_order (map snd suffix) = true).
  { exists []. split; [rewrite app_nil_r; reflexivity|reflexivity]. }
  assert (Hone : exists suffix : list Event,
             calls g ++ [(clock g, CallBlockhash)] = calls g ++ suffix /\
             Facts.go_worker_order (map snd suffix) = true).
  { eexists. split; reflexivity. }
  destruct (DecodeString lib (Bulk.FromPrivateKey transfer)) as [pk|e];
    [|split; [exact Hnone|]; count_now; repeat split; lia].
  destruct (NewAccountFromPrivateKeyBytes lib (elems pk)) as [account|];
    [|split; [exact Hnone|]; count_now; repeat split; lia].
  destruct (PublicKeyFromBase58 lib (Bulk.ToAddress transfer)) as [dst|e];
    [|split; [exact Hnone|]; count_now; repeat split; lia].
  destruct (answer (GetRecentBlockhash client CommitmentFinalized)) as [bh|e];
    [|split; [exact Hone|]; count_now; repeat split; lia].
  destruct (NewTransaction lib _ bh (acc_PublicKey account)) as [tx|e];
    [|split; [exact Hone|]; count_now; repeat split; lia].
  destruct (Sign lib tx _) as [tx'|e];
    [|split; [exact Hone|]; count_now; repeat split; lia].
  destruct (answer (SendTransactionWithOpts client tx' _)) as [sig|e].
  - split.
    + match goal with
      | |- context [Bulk.poll fuel 0 client sig ?t ?r ?g1] =>
        destruct (poll_order client sig t r fuel 0 g1) as (suffix & -> & Hord)
      end.
      cbn [calls]. rewrite <- !app_assoc.
      eexists. split; [reflexivity|]. exact Hord.
    + match goal with
      | |- context [Bulk.poll fuel 0 client sig ?t ?r ?g1] =>
        destruct (poll_only_queries client sig t r fuel 0 g1) as (-> & ->)
      end.
      count_now. repeat split; lia.
  - split; [|count_now; repeat split; lia].
    cbn [final send calls]. rewrite <- !app_assoc.
    eexists. split; reflexivity.
Qed.

Lemma X3_go_worker_submits_at_most_once_witness :
  (count_calls CallStatus (calls (spawn Bulk.TransferResult 0))
   < count_calls CallStatus
       (calls (final (Bulk.executeTransfer 30 Stub.golib
                        (Stub.go_endpoint 3 Stub.go_confirmed)
                        Stub.sample_transfer (spawn Bulk.TransferResult 0)))))%nat /\
  count_calls CallSend
    (calls (final (Bulk.executeTransfer 30 Stub.golib
                     (Stub.go_endpoint 3 Stub.go_confirmed)
                     Stub.sample_transfer (spawn Bulk.TransferResult 0))))
  = (count_calls CallSend (calls (spawn Bulk.TransferResult 0)) + 1)%nat /\
  count_calls CallBlockhash
    (calls (final (Bulk.executeTransfer 30 Stub.golib
                     (Stub.go_endpoint 3 Stub.go_confirmed)
                     Stub.sample_transfer (spawn Bulk.TransferResult 0))))
  = (count_calls CallBlockhash (calls (spawn Bulk.TransferResult 0)) + 1)%nat /\
  map snd
    (calls (final (Bulk.executeTransfer 30 Stub.golib
                     (Stub.go_endpoint 3 Stub.go_confirmed)
                     Stub.sample_transfer (spawn Bulk.TransferResult 0))))
  = [CallBlockhash; CallSend; CallStatus; CallSleep; CallStatus; CallSleep;
     CallStatus; CallSleep; CallStatus].
Proof.
  destruct (X3_go_worker_submits_at_most_once 30 Stub.golib
              (Stub.go_endpoint 3 Stub.go_confirmed) Stub.sample_transfer
              (spawn Bulk.TransferResult 0)) as (_ & _ & _ & after & before).
  assert (Hq : (count_calls CallStatus (calls (spawn Bulk.TransferResult 0))
                < count_calls CallStatus
                    (calls (final (Bulk.executeTransfer 30 Stub.golib
                                     (Stub.go_endpoint 3 Stub.go_confirmed)
                                     Stub.sample_transfer
                                     (spawn Bulk.TransferResult 0)))))%nat).
  { vm_compute. lia. }
  split; [exact Hq|].
  split; [exact (after Hq)|].
  split; [exact (before (after Hq))|].
  vm_compute. reflexivity.
Defined.

(** X4.  The one result of a worker that returns always carries the amount
    of the transfer.  Its status is "Confirmed" exactly when it has no
    error and "Failed" exactly when its error is the on-chain one.  A result
    that failed before or at submission has no signature and no status, and
    no status query was made for it. *)
Theorem X4_go_result_fields :
  forall fuel lib client transfer g g',
    Bulk.executeTransfer fuel lib client transfer g = Returned tt g' ->
    exists r,
      sent g' = sent g ++ [r] /\
      Bulk.ResAmount r = Bulk.Amount transfer /\
      (Bulk.Status r = "Confirmed" <-> Bulk.Error r = None) /\
      (Bulk.Status r = "Failed" <->
       exists e, Bulk.Error r = Some (Bulk.TransactionFailed e)) /\
      (forall reason,
          Bulk.outcome_of r = PrecursorFailed reason ->
          Bulk.ResSignature r = "" /\ Bulk.Status r = "" /\
          count_calls CallStatus (calls g') = count_calls CallStatus (calls g)).
Proof.
  intros fuel lib client transfer g g'.
  unfold Bulk.executeTransfer, Bulk.fail_with, rpc.
  assert (Hearly :
            forall e g0,
              (forall c, e <> Bulk.TransactionFailed c) ->
              (forall c, e <> Bulk.FailedStatus c) ->
              count_calls CallStatus (calls g0) = count_calls CallStatus (calls g) ->
              forall r0,
                Bulk.ResAmount r0 = Bulk.Amount transfer ->
                Bulk.ResSignature r0 = "" -> Bulk.Status r0 = "" ->
                sent g0 = sent g ->
                Returned tt (send (Bulk.set_Error e r0) g0) = Returned tt g' ->
                exists r,
                  sent g' = sent g ++ [r] /\
                  Bulk.ResAmount r = Bulk.Amount transfer /\
                  (Bulk.Status r = "Confirmed" <-> Bulk.Error r = None) /\
                  (Bulk.Status r = "Failed" <->
                   exists e, Bulk.Error r = Some (Bulk.TransactionFailed e)) /\
                  (forall reason,
                      Bulk.outcome_of r = PrecursorFailed reason ->
                      Bulk.ResSignature r = "" /\ Bulk.Status r = "" /\
                      count_calls CallStatus (calls g')
                      = count_calls CallStatus (calls g))).
  { intros e g0 Hnot1 Hnot2 Hq r0 Ham Hsg Hst Hsent [= <-].
    eexists. cbn [send sent calls]. split; [rewrite Hsent; reflexivity|].
    cbn [Bulk.set_Error Bulk.ResAmount Bulk.Status Bulk.Error Bulk.ResSignature].
    split; [exact Ham|]. rewrite Hst.
    split; [split; discriminate|].
    split; [split; [discriminate
                   |intros (c & [= ->]); exfalso; exact (Hnot1 c eq_refl)]|].
    intros reason _. repeat split; assumption. }
  destruct (DecodeString lib (Bulk.FromPrivateKey transfer)) as [pk|e];
    [|apply Hearly; (discriminate || reflexivity)].
  destruct (NewAccountFromPrivateKeyBytes lib (elems pk)) as [account|];
    [|discriminate].
  destruct (PublicKeyFromBase58 lib (Bulk.ToAddress transfer)) as [dst|e];
    [|apply Hearly; (discriminate || reflexivity)].
  destruct (answer (GetRecentBlockhash client CommitmentFinalized)) as [bh|e];
    [|apply Hearly; try discriminate; try reflexivity;
      cbn [calls]; rewrite count_calls_app; cbn; lia].
  destruct (NewTransaction lib _ bh (acc_PublicKey account)) as [tx|e];
    [|apply Hearly; try discriminate; try reflexivity;
      cbn [calls]; rewrite count_calls_app; cbn; lia].
  destruct (Sign lib tx _) as [tx'|e];
    [|apply Hearly; try discriminate; try reflexivity;
      cbn [calls]; rewrite count_calls_app; cbn; lia].
  destruct (answer (SendTransactionWithOpts client tx' _)) as [sig|e];
    [|apply Hearly; try discriminate; try reflexivity;
      cbn [calls]; rewrite !count_calls_app; cbn; lia].
  clear Hearly. intros Hrun. apply poll_result_shape in Hrun.
  destruct Hrun as (r & Hsent & Hq & [(e & ->)|[(t & ->)|(t & e & ->)]]);
    exists r || (eexists; split; [exact Hsent|]); cbn.
  - split; [reflexivity|]. split; [split; discriminate|].
    split; [split; [discriminate|intros (c & [= ])]|].
    intros reason [= ].
  - split; [reflexivity|]. split; [split; reflexivity|].
    split; [split; [discriminate|intros (c & [= ])]|].
    intros reason [= ].
  - split; [reflexivity|]. split; [split; discriminate|].
    split; [split; [intros _; exists e; reflexivity|reflexivity]|].
    intros reason [= ].
Qed.

Lemma X4_go_result_fields_witness :
  Bulk.executeTransfer 30 Stub.golib Stub.go_down Stub.sample_transfer
    (spawn Bulk.TransferResult 0) = Returned tt Stub.down_end /\
  exists r,
    sent Stub.down_end = [] ++ [r] /\
    Bulk.ResAmount r = 100000000 /\
    (Bulk.Status r = "Confirmed" <-> Bulk.Error r = None) /\
    (Bulk.Status r = "Failed" <->
     exists e, Bulk.Error r = Some (Bulk.TransactionFailed e)) /\
    (forall reason,
        Bulk.outcome_of r = PrecursorFailed reason ->
        Bulk.ResSignature r = "" /\ Bulk.Status r = "" /\
        count_calls CallStatus (calls Stub.down_end) = 0%nat).
Proof.
  assert (Hrun : Bulk.executeTransfer 30 Stub.golib Stub.go_down
                   Stub.sample_transfer (spawn Bulk.TransferResult 0)
                 = Returned tt Stub.down_end).
  { vm_compute. reflexivity. }
  split; [exact Hrun|].
  exact (X4_go_result_fields 30 Stub.golib Stub.go_down Stub.sample_transfer
           (spawn Bulk.TransferResult 0) Hrun).
Defined.

(** ** The statistics of the Go [main] *)

Lemma run_workers_nth fuel lib clients start :
  forall transfers k i tr,
    nth_error transfers i = Some tr ->
    In (Bulk.executeTransfer fuel lib (clients (k + i)%nat) tr
          (spawn Bulk.TransferResult start))
       (Bulk.run_workers fuel lib clients k transfers start).
Proof.
  induction transfers as [|t rest IH]; intros k i tr Hnth.
  - destruct i; discriminate Hnth.
  - destruct i as [|i]; cbn in Hnth |- *.
    + injection Hnth as ->. rewrite Nat.add_0_r. left. reflexivity.
    + right. replace (k + S i)%nat with (S k + i)%nat by lia.
      apply IH. exact Hnth.
Qed.

Lemma run_workers_origin fuel lib clients start :
  forall transfers k run,
    In run (Bulk.run_workers fuel lib clients k transfers start) ->
    exists j tr,
      run = Bulk.executeTransfer fuel lib (clients j) tr
              (spawn Bulk.TransferResult start).
Proof.
  induction transfers as [|t rest IH]; intros k run Hin; cbn in Hin.
  - contradiction.
  - destruct Hin as [<-|Hin]; [exists k, t; reflexivity|].
    exact (IH (S k) run Hin).
Qed.

Lemma last_finish_bounds (start : Z) (runs : list Bulk.Ended) :
  start <= Bulk.last_finish start runs /\
  forall run, In run runs -> clock (final run) <= Bulk.last_finish start runs.
Proof.
  unfold Bulk.last_finish. revert start.
  induction runs as [|r runs IH]; intros start; cbn [fold_left].
  - split; [lia|intros run []].
  - destruct (IH (Z.max start (clock (final r)))) as (Hstart & Hall).
    split; [lia|]. intros run [<-|Hin]; [lia|]. exact (Hall run Hin).
Qed.

Lemma collect_maxTime (l : list Bulk.TransferResult) :
  forall st,
    Bulk.maxTime (fold_left Bulk.collect_one l st)
    = Facts.greatest (Bulk.maxTime st) (Facts.times l).
Proof.
  unfold Facts.greatest, Facts.times.
  induction l as [|r l IH]; intros st; cbn [fold_left map]; [reflexivity|].
  rewrite IH. f_equal. unfold Bulk.collect_one.
  destruct (Bulk.Error r); cbn [Bulk.maxTime];
    destruct (Bulk.ProcessingTime r >? Bulk.maxTime st) eqn:Hgt;
    rewrite Z.gtb_ltb in Hgt;
    (apply Z.ltb_lt in Hgt || apply Z.ltb_ge in Hgt); lia.
Qed.

Lemma greatest_bounds (l : list Z) :
  forall x,
    x <= Facts.greatest x l /\
    (forall y, In y l -> y <= Facts.greatest x l) /\
    (forall b, x <= b -> (forall y, In y l -> y <= b) -> Facts.greatest x l <= b).
Proof.
  unfold Facts.greatest.
  induction l as [|z l IH]; intros x; cbn [fold_left].
  - split; [lia|]. split; [intros y []|]. intros b Hb _. exact Hb.
  - destruct (IH (Z.max x z)) as (Hx & Hall & Hleast).
    split; [lia|]. split.
    + intros y [<-|Hin]; [lia|exact (Hall y Hin)].
    + intros b Hb Hbound. apply Hleast.
      * assert (z <= b) by (apply Hbound; left; reflexivity). lia.
      * intros y Hin. apply Hbound. right. exact Hin.
Qed.

(** What the report of a [main] that exits is made of. *)
Lemma finish_report start config runs code report :
  Bulk.finish start config runs = Exit code report ->
  Bulk.TotalTransactions report = List.length (Bulk.Transfers config) /\
  Bulk.TotalTime report = Bulk.last_finish start runs - start /\
  Bulk.MinimumProcessingTime report
  = Bulk.minTime (Bulk.collect (Bulk.channel runs)) /\
  Bulk.MaximumProcessingTime report
  = Bulk.maxTime (Bulk.collect (Bulk.channel runs)) /\
  Bulk.AverageProcessingTime report
  = Z.quot (Bulk.totalProcessingTime (Bulk.collect (Bulk.channel runs)))
           (Z.of_nat (List.length (Bulk.Transfers config))) /\
  (0 < List.length (Bulk.Transfers config))%nat.
Proof.
  unfold Bulk.finish.
  destruct (Z.of_nat (List.length (Bulk.Transfers config)) =? 0) eqn:Hn;
    [discriminate|].
  apply Z.eqb_neq in Hn.
  destruct (Bulk.failCount (Bulk.collect (Bulk.channel runs)) >? 0);
    intros [= <- <-]; cbn; repeat split; lia.
Qed.

(** The time in a result of the batch never exceeds the time from the start
    of the batch to the end of its last worker. *)
Lemma channel_time_bound fuel lib clients config start code report :
  Bulk.main fuel lib clients config start = Exit code report ->
  forall r,
    In r (Bulk.channel
            (Bulk.run_workers fuel lib clients 0 (Bulk.Transfers config) start)) ->
    Bulk.ProcessingTime r
    <= Bulk.last_finish start
         (Bulk.run_workers fuel lib clients 0 (Bulk.Transfers config) start)
       - start.
Proof.
  intros Hmain r Hin.
  destruct (main_exit_all_returned _ _ _ _ _ Hmain) as (Hall & _).
  apply (proj1 (channel_In _ _)) in Hin. destruct Hin as (run & Hrun & Hsent).
  destruct (last_finish_bounds start
              (Bulk.run_workers fuel lib clients 0 (Bulk.Transfers config) start))
    as (Hstart & Hlast).
  specialize (Hlast run Hrun).
  destruct (Hall run Hrun) as (g' & ->).
  destruct (run_workers_origin _ _ _ _ _ _ _ Hrun) as (j & tr & Heq).
  symmetry in Heq.
  destruct (executeTransfer_returned _ _ _ _ _ Heq) as (r' & Hs & Hok).
  cbn [final] in Hsent, Hlast. rewrite Hs in Hsent. cbn in Hsent.
  destruct Hsent as [<-|[]].
  unfold Claims.go_result_ok in Hok. cbn [spawn clock] in Hok.
  destruct (Bulk.outcome_of r'); try contradiction; lia.
Qed.

(** X5.  In the report of a Go [main] that exits, the maximum processing
    time is the greatest of the times of the collected results (and of
    zero), no result took longer than it, and it is never more than the
    total time of the batch. *)
Theorem X5_go_maximum_and_total_time :
  forall fuel lib clients config start code report,
    Bulk.main fuel lib clients config start = Exit code report ->
    Bulk.MaximumProcessingTime report
    = Facts.greatest 0
        (Facts.times
           (Bulk.channel
              (Bulk.run_workers fuel lib clients 0 (Bulk.Transfers config) start))) /\
    (forall r,
        In r (Bulk.channel
                (Bulk.run_workers fuel lib clients 0 (Bulk.Transfers config)
                                  start)) ->
        Bulk.ProcessingTime r <= Bulk.MaximumProcessingTime report) /\
    0 <= Bulk.MaximumProcessingTime report <= Bulk.TotalTime report.
Proof.
  intros fuel lib clients config start code report Hmain.
  destruct (main_exit_all_returned _ _ _ _ _ Hmain) as (_ & Hfin).
  destruct (finish_report _ _ _ Hfin) as (_ & Htotal & _ & Hmax & _).
  unfold Bulk.collect in Hmax. rewrite collect_maxTime in Hmax.
  cbn [Bulk.maxTime Bulk.no_stats] in Hmax.
  set (runs := Bulk.run_workers fuel lib clients 0 (Bulk.Transfers config) start)
    in *.
  destruct (greatest_bounds (Facts.times (Bulk.channel runs)) 0)
    as (Hzero & Hall & Hleast).
  split; [exact Hmax|]. rewrite Hmax, Htotal. split.
  - intros r Hin. apply Hall. unfold Facts.times. apply in_map. exact Hin.
  - split; [exact Hzero|]. apply Hleast.
    + pose proof (proj1 (last_finish_bounds start runs)). lia.
    + intros y Hy. unfold Facts.times in Hy. apply in_map_iff in Hy.
      destruct Hy as (r & <- & Hin).
      exact (channel_time_bound _ _ _ _ _ Hmain r Hin).
Qed.

Lemma X5_go_maximum_and_total_time_witness :
  Bulk.main 30 Stub.golib Stub.mixed_clients Stub.mixed_config 0
  = Exit 1 Stub.mixed_report /\
  Bulk.MaximumProcessingTime Stub.mixed_report
  = Facts.greatest 0
      (Facts.times
         (Bulk.channel
            (Bulk.run_workers 30 Stub.golib Stub.mixed_clients 0
               (Bulk.Transfers Stub.mixed_config) 0))) /\
  (forall r,
      In r (Bulk.channel
              (Bulk.run_workers 30 Stub.golib Stub.mixed_clients 0
                 (Bulk.Transfers Stub.mixed_config) 0)) ->
      Bulk.ProcessingTime r <= Bulk.MaximumProcessingTime Stub.mixed_report) /\
  0 <= Bulk.MaximumProcessingTime Stub.mixed_report
    <= Bulk.TotalTime Stub.mixed_report.
Proof.
  split; [exact mixed_batch_exit|].
  exact (X5_go_maximum_and_total_time 30 Stub.golib Stub.mixed_clients
           Stub.mixed_config 0 mixed_batch_exit).
Defined.

Lemma least_bounds (l : list Z) :
  forall x,
    Facts.least x l <= x /\
    (forall y, In y l -> Facts.least x l <= y) /\
    (Facts.least x l = x \/ In (Facts.least x l) l) /\
    (forall b, b <= x -> (forall y, In y l -> b <= y) -> b <= Facts.least x l).
Proof.
  unfold Facts.least.
  induction l as [|z l IH]; intros x; cbn [fold_left].
  - split; [lia|]. split; [intros y []|]. split; [left; reflexivity|].
    intros b Hb _. exact Hb.
  - destruct (IH (Z.min x z)) as (Hx & Hall & Hin & Hgreatest).
    split; [lia|]. split; [|split].
    + intros y [<-|Hy]; [lia|exact (Hall y Hy)].
    + destruct Hin as [Heq|Hin]; [|right; right; exact Hin].
      rewrite Heq. destruct (Z.min_spec x z) as [(_ & ->)|(_ & ->)];
        [left; reflexivity|right; left; reflexivity].
    + intros b Hb Hbound. apply Hgreatest.
      * assert (b <= z) by (apply Hbound; left; reflexivity). lia.
      * intros y Hy. apply Hbound. right. exact Hy.
Qed.

(** Once the running minimum is positive and as long as the times are
    positive, the loop keeps the least time seen. *)
Lemma collect_minTime_positive (l : list Bulk.TransferResult) :
  forall st,
    0 < Bulk.minTime st ->
    (forall r, In r l -> 0 < Bulk.ProcessingTime r) ->
    Bulk.minTime (fold_left Bulk.collect_one l st)
    = Facts.least (Bulk.minTime st) (Facts.times l).
Proof.
  unfold Facts.least, Facts.times.
  induction l as [|r l IH]; intros st Hpos Hall; cbn [fold_left map];
    [reflexivity|].
  assert (Hr : 0 < Bulk.ProcessingTime r) by (apply Hall; left; reflexivity).
  assert (Hstep : Bulk.minTime (Bulk.collect_one st r)
                  = Z.min (Bulk.minTime st) (Bulk.ProcessingTime r)).
  { unfold Bulk.collect_one.
    destruct (Bulk.minTime st =? 0) eqn:Hz; [apply Z.eqb_eq in Hz; lia|].
    destruct (Bulk.Error r); cbn [Bulk.minTime];
      destruct (Bulk.ProcessingTime r <? Bulk.minTime st) eqn:Hlt;
      (apply Z.ltb_lt in Hlt || apply Z.ltb_ge in Hlt); lia. }
  rewrite IH.
  - rewrite Hstep. reflexivity.
  - rewrite Hstep. lia.
  - intros x Hx. apply Hall. right. exact Hx.
Qed.

Lemma collect_minTime_first (r : Bulk.TransferResult) :
  Bulk.minTime (Bulk.collect_one Bulk.no_stats r) = Bulk.ProcessingTime r.
Proof.
  unfold Bulk.collect_one. cbn [Bulk.minTime Bulk.no_stats Z.eqb].
  rewrite Z.ltb_irrefl. destruct (Bulk.Error r); reflexivity.
Qed.

(** X6.  When every collected result has a positive time, the minimum
    processing time in the report of a Go [main] that exits is the least of
    those times: no result took less, and one result took exactly that. *)
Theorem X6_go_minimum_when_all_positive :
  forall fuel lib clients config start code report,
    Bulk.main fuel lib clients config start = Exit code report ->
    (forall r,
        In r (Bulk.channel
                (Bulk.run_workers fuel lib clients 0 (Bulk.Transfers config)
                                  start)) ->
        0 < Bulk.ProcessingTime r) ->
    (forall r,
        In r (Bulk.channel
                (Bulk.run_workers fuel lib clients 0 (Bulk.Transfers config)
                                  start)) ->
        Bulk.MinimumProcessingTime report <= Bulk.ProcessingTime r) /\
    (exists r,
        In r (Bulk.channel
                (Bulk.run_workers fuel lib clients 0 (Bulk.Transfers config)
                                  start)) /\
        Bulk.ProcessingTime r = Bulk.MinimumProcessingTime report).
Proof.
  intros fuel lib clients config start code report Hmain Hpos.
  destruct (main_exit_all_returned _ _ _ _ _ Hmain) as (Hall & Hfin).
  destruct (finish_report _ _ _ Hfin) as (_ & _ & Hmin & _ & _ & Hn).
  pose proof (channel_length _ _ _ _ _ 0 Hall) as Hlen.
  set (results := Bulk.channel
                    (Bulk.run_workers fuel lib clients 0 (Bulk.Transfers config)
                                      start)) in *.
  destruct results as [|r0 rest] eqn:Hres; [cbn in Hlen; lia|].
  unfold Bulk.collect in Hmin. cbn [fold_left] in Hmin.
  rewrite collect_minTime_positive in Hmin.
  - rewrite collect_minTime_first in Hmin.
    destruct (least_bounds (Facts.times rest) (Bulk.ProcessingTime r0))
      as (Hx & Hle & Hin & _).
    rewrite Hmin. split.
    + intros r [<-|Hr]; [exact Hx|]. apply Hle. unfold Facts.times.
      apply in_map. exact Hr.
    + destruct Hin as [Heq|Hin].
      * exists r0. split; [left; reflexivity|symmetry; exact Heq].
      * unfold Facts.times in Hin. apply in_map_iff in Hin.
        destruct Hin as (r & Heq & Hr). exists r.
        split; [right; exact Hr|exact Heq].
  - rewrite collect_minTime_first. apply Hpos. left. reflexivity.
  - intros r Hr. apply Hpos. right. exact Hr.
Qed.

(** The statistics loop on times that are not negative keeps a running
    minimum that is not negative. *)
Lemma collect_minTime_nonneg (l : list Bulk.TransferResult) :
  forall st,
    0 <= Bulk.minTime st ->
    (forall r, In r l -> 0 <= Bulk.ProcessingTime r) ->
    0 <= Bulk.minTime (fold_left Bulk.collect_one l st).
Proof.
  induction l as [|r l IH]; intros st Hst Hall; cbn [fold_left];
    [exact Hst|].
  apply IH; [|intros x Hx; apply Hall; right; exact Hx].
  assert (Hr : 0 <= Bulk.ProcessingTime r) by (apply Hall; left; reflexivity).
  unfold Bulk.collect_one.
  destruct (Bulk.minTime st =? 0);
    destruct (Bulk.Error r); cbn [Bulk.minTime];
    match goal with
    | |- context [if ?a <? ?b then _ else _] => destruct (a <? b)
    end; lia.
Qed.

(** X7.  The minimum of the statistics loop starts afresh after a result
    with time zero (every result that failed before the status loop ended
    has one): if such a result is followed by a last result [r], the
    minimum reported is the time of [r], whatever the earlier results
    took. *)
Theorem X7_go_minimum_restarts_after_zero :
  forall l z r,
    (forall x, In x l -> 0 <= Bulk.ProcessingTime x) ->
    Bulk.ProcessingTime z = 0 ->
    0 <= Bulk.ProcessingTime r ->
    Bulk.minTime (Bulk.collect (l ++ [z; r])) = Bulk.ProcessingTime r.
Proof.
  intros l z r Hl Hz Hr. unfold Bulk.collect.
  rewrite fold_left_app. cbn [fold_left].
  pose proof (@collect_minTime_nonneg l Bulk.no_stats (Z.le_refl 0) Hl) as Hmin.
  set (st := fold_left Bulk.collect_one l Bulk.no_stats) in *.
  assert (Hafter : Bulk.minTime (Bulk.collect_one st z) = 0).
  { unfold Bulk.collect_one. rewrite Hz.
    destruct (Bulk.minTime st =? 0) eqn:H0.
    - rewrite Z.ltb_irrefl. destruct (Bulk.Error z); reflexivity.
    - apply Z.eqb_neq in H0.
      assert (Hlt : (0 <? Bulk.minTime st) = true) by (apply Z.ltb_lt; lia).
      rewrite Hlt. destruct (Bulk.Error z); reflexivity. }
  unfold Bulk.collect_one at 1. rewrite Hafter. cbn [Z.eqb].
  rewrite Z.ltb_irrefl. destruct (Bulk.Error r); reflexivity.
Qed.

Lemma X7_go_minimum_restarts_after_zero_witness :
  (forall x, In x [Samples.timed (5 * Millisecond) None] ->
             0 <= Bulk.ProcessingTime x) /\
  Bulk.ProcessingTime (Samples.timed 0 (Some (Bulk.FailedSend "refused"))) = 0 /\
  0 <= Bulk.ProcessingTime (Samples.timed (7 * Millisecond) None) /\
  Bulk.minTime
    (Bulk.collect
       ([Samples.timed (5 * Millisecond) None]
        ++ [Samples.timed 0 (Some (Bulk.FailedSend "refused"));
            Samples.timed (7 * Millisecond) None]))
  = 7 * Millisecond.
Proof.
  assert (Hl : forall x, In x [Samples.timed (5 * Millisecond) None] ->
                         0 <= Bulk.ProcessingTime x).
  { intros x [<-|[]]. vm_compute. discriminate. }
  split; [exact Hl|].
  split; [reflexivity|].
  split; [vm_compute; discriminate|].
  apply (X7_go_minimum_restarts_after_zero
           [Samples.timed (5 * Millisecond) None]
           (Samples.timed 0 (Some (Bulk.FailedSend "refused")))
           (Samples.timed (7 * Millisecond) None) Hl eq_refl).
  vm_compute. discriminate.
Defined.

Lemma steady_batch_exit :
  Bulk.main 30 Stub.golib Samples.steady_clients Stub.mixed_config 0
  = Exit 0 Samples.steady_report.
Proof. by_evaluation. Qed.

Lemma steady_batch_channel :
  Bulk.channel
    (Bulk.run_workers 30 Stub.golib Samples.steady_clients 0
       (Bulk.Transfers Stub.mixed_config) 0)
  = Samples.steady_channel.
Proof. by_evaluation. Qed.

Lemma steady_batch_positive :
  forall r,
    In r (Bulk.channel
            (Bulk.run_workers 30 Stub.golib Samples.steady_clients 0
               (Bulk.Transfers Stub.mixed_config) 0)) ->
    0 < Bulk.ProcessingTime r.
Proof.
  intros r Hin. rewrite steady_batch_channel in Hin.
  destruct Hin as [<-|[<-|[]]]; vm_compute; reflexivity.
Qed.

Lemma X6_go_minimum_when_all_positive_witness :
  Bulk.main 30 Stub.golib Samples.steady_clients Stub.mixed_config 0
  = Exit 0 Samples.steady_report /\
  (forall r,
      In r (Bulk.channel
              (Bulk.run_workers 30 Stub.golib Samples.steady_clients 0
                 (Bulk.Transfers Stub.mixed_config) 0)) ->
      0 < Bulk.ProcessingTime r) /\
  (forall r,
      In r (Bulk.channel
              (Bulk.run_workers 30 Stub.golib Samples.steady_clients 0
                 (Bulk.Transfers Stub.mixed_config) 0)) ->
      Bulk.MinimumProcessingTime Samples.steady_report <= Bulk.ProcessingTime r) /\
  (exists r,
      In r (Bulk.channel
              (Bulk.run_workers 30 Stub.golib Samples.steady_clients 0
                 (Bulk.Transfers Stub.mixed_config) 0)) /\
      Bulk.ProcessingTime r = Bulk.MinimumProcessingTime Samples.steady_report).
Proof.
  split; [exact steady_batch_exit|].
  split; [exact steady_batch_positive|].
  exact (X6_go_minimum_when_all_positive 30 Stub.golib Samples.steady_clients
           Stub.mixed_config 0 steady_batch_exit steady_batch_positive).
Defined.

(** ** The average *)

Lemma wrap64_small (z : Z) : - 2 ^ 63 <= z < 2 ^ 63 -> wrap64 z = z.
Proof.
  intros Hz. unfold wrap64. rewrite Z.mod_small; lia.
Qed.

Lemma sum_from (l : list Z) :
  forall a, fold_left Z.add l a = a + Facts.sum l.
Proof.
  unfold Facts.sum.
  induction l as [|x l IH]; intros a; cbn [fold_left]; [lia|].
  rewrite (IH (a + x)), (IH (0 + x)). lia.
Qed.

Lemma sum_cons (x : Z) (l : list Z) : Facts.sum (x :: l) = x + Facts.sum l.
Proof. unfold Facts.sum at 1. cbn [fold_left]. rewrite sum_from. lia. Qed.

Lemma sum_bounds (a b : Z) (l : list Z) :
  (forall y, In y l -> a <= y <= b) ->
  a * Z.of_nat (List.length l) <= Facts.sum l <= b * Z.of_nat (List.length l).
Proof.
  induction l as [|x l IH]; intros Hall.
  - cbn. lia.
  - rewrite sum_cons. cbn [List.length]. rewrite Nat2Z.inj_succ.
    assert (a <= x <= b) by (apply Hall; left; reflexivity).
    assert (a * Z.of_nat (List.length l) <= Facts.sum l
            <= b * Z.of_nat (List.length l)).
    { apply IH. intros y Hy. apply Hall. right. exact Hy. }
    lia.
Qed.

Lemma sum_nonneg (l : list Z) :
  (forall y, In y l -> 0 <= y) -> 0 <= Facts.sum l.
Proof.
  induction l as [|x l IH]; intros Hall; [cbn; lia|].
  rewrite sum_cons.
  assert (0 <= x) by (apply Hall; left; reflexivity).
  assert (0 <= Facts.sum l) by (apply IH; intros y Hy; apply Hall; right; exact Hy).
  lia.
Qed.

(** Without overflow the running total is the sum of the times. *)
Lemma collect_total (l : list Bulk.TransferResult) :
  forall st,
    0 <= Bulk.totalProcessingTime st ->
    (forall r, In r l -> 0 <= Bulk.ProcessingTime r) ->
    Bulk.totalProcessingTime st + Facts.sum (Facts.times l) < 2 ^ 63 ->
    Bulk.totalProcessingTime (fold_left Bulk.collect_one l st)
    = Bulk.totalProcessingTime st + Facts.sum (Facts.times l).
Proof.
  induction l as [|r l IH]; intros st Hst Hall Hsum; cbn [fold_left].
  - cbn. lia.
  - unfold Facts.times in *. cbn [map] in *. rewrite sum_cons in Hsum |- *.
    assert (Hr : 0 <= Bulk.ProcessingTime r) by (apply Hall; left; reflexivity).
    assert (Hrest : 0 <= Facts.sum (map Bulk.ProcessingTime l)).
    { apply sum_nonneg. intros y Hy. apply in_map_iff in Hy.
      destruct Hy as (x & <- & Hx). apply Hall. right. exact Hx. }
    assert (Hstep : Bulk.totalProcessingTime (Bulk.collect_one st r)
                    = Bulk.totalProcessingTime st + Bulk.ProcessingTime r).
    { unfold Bulk.collect_one.
      destruct (Bulk.Error r); cbn [Bulk.totalProcessingTime];
        apply wrap64_small; lia. }
    rewrite IH; rewrite ?Hstep; try lia.
    intros x Hx. apply Hall. right. exact Hx.
Qed.

(** The bounds the report gives on the times of the results. *)
Lemma report_bounds fuel lib clients config start code report :
  Bulk.main fuel lib clients config start = Exit code report ->
  (forall r,
      In r (Bulk.channel
              (Bulk.run_workers fuel lib clients 0 (Bulk.Transfers config) start)) ->
      0 < Bulk.ProcessingTime r) ->
  forall r,
    In r (Bulk.channel
            (Bulk.run_workers fuel lib clients 0 (Bulk.Transfers config) start)) ->
    Bulk.MinimumProcessingTime report <= Bulk.ProcessingTime r
    <= Bulk.MaximumProcessingTime report.
Proof.
  intros Hmain Hpos r Hr.
  destruct (main_exit_all_returned _ _ _ _ _ Hmain) as (_ & Hfin).
  destruct (finish_report _ _ _ Hfin) as (_ & _ & Hmin & Hmax & _).
  unfold Bulk.collect in Hmin, Hmax. rewrite collect_maxTime in Hmax.
  cbn [Bulk.maxTime Bulk.no_stats] in Hmax.
  set (results := Bulk.channel
                    (Bulk.run_workers fuel lib clients 0 (Bulk.Transfers config)
                                      start)) in *.
  split.
  - destruct results as [|r0 rest]; [contradiction|].
    cbn [fold_left] in Hmin. rewrite collect_minTime_positive in Hmin.
    + rewrite collect_minTime_first in Hmin. rewrite Hmin.
      destruct (least_bounds (Facts.times rest) (Bulk.ProcessingTime r0))
        as (Hx & Hle & _).
      destruct Hr as [<-|Hr]; [exact Hx|].
      apply Hle. unfold Facts.times. apply in_map. exact Hr.
    + rewrite collect_minTime_first. apply Hpos. left. reflexivity.
    + intros x Hx. apply Hpos. right. exact Hx.
  - rewrite Hmax.
    apply (proj1 (proj2 (greatest_bounds (Facts.times results) 0))).
    unfold Facts.times. apply in_map. exact Hr.
Qed.

(** X8.  When every collected result has a positive time and the times add
    up to less than 2^63 nanoseconds, the average in the report of a Go
    [main] that exits is the sum of the times divided by the number of
    transfers (rounded down), and it lies between the minimum and the
    maximum reported. *)
Theorem X8_go_average_between_minimum_and_maximum :
  forall fuel lib clients config start code report,
    Bulk.main fuel lib clients config start = Exit code report ->
    (forall r,
        In r (Bulk.channel
                (Bulk.run_workers fuel lib clients 0 (Bulk.Transfers config)
                                  start)) ->
        0 < Bulk.ProcessingTime r) ->
    Facts.sum
      (Facts.times
         (Bulk.channel
            (Bulk.run_workers fuel lib clients 0 (Bulk.Transfers config) start)))
    < 2 ^ 63 ->
    Bulk.AverageProcessingTime report
    = Facts.sum
        (Facts.times
           (Bulk.channel
              (Bulk.run_workers fuel lib clients 0 (Bulk.Transfers config)
                                start)))
      / Z.of_nat (List.length (Bulk.Transfers config)) /\
    Bulk.MinimumProcessingTime report <= Bulk.AverageProcessingTime report
    <= Bulk.MaximumProcessingTime report.
Proof.
  intros fuel lib clients config start code report Hmain Hpos Hsum.
  pose proof (fun r Hr => proj1 (report_bounds _ _ _ _ _ Hmain Hpos r Hr)) as Hmin.
  pose proof (fun r Hr => proj2 (report_bounds _ _ _ _ _ Hmain Hpos r Hr)) as Hmax.
  destruct (main_exit_all_returned _ _ _ _ _ Hmain) as (Hall & Hfin).
  destruct (finish_report _ _ _ Hfin) as (_ & _ & _ & _ & Havg & Hn).
  pose proof (channel_length _ _ _ _ _ 0 Hall) as Hlen.
  set (results := Bulk.channel
                    (Bulk.run_workers fuel lib clients 0 (Bulk.Transfers config)
                                      start)) in *.
  unfold Bulk.collect in Havg. rewrite collect_total in Havg.
  - cbn [Bulk.totalProcessingTime Bulk.no_stats Z.add] in Havg.
    assert (Hbounds :
              Bulk.MinimumProcessingTime report * Z.of_nat (List.length results)
              <= Facts.sum (Facts.times results)
              <= Bulk.MaximumProcessingTime report
                 * Z.of_nat (List.length results)).
    { rewrite <- (length_map Bulk.ProcessingTime results).
      apply sum_bounds. intros y Hy. unfold Facts.times in Hy.
      apply in_map_iff in Hy. destruct Hy as (r & <- & Hr).
      split; [exact (Hmin r Hr)|exact (Hmax r Hr)]. }
    rewrite Hlen in Hbounds.
    assert (Hnonneg : 0 <= Facts.sum (Facts.times results)).
    { apply sum_nonneg. intros y Hy. unfold Facts.times in Hy.
      apply in_map_iff in Hy. destruct Hy as (r & <- & Hr).
      specialize (Hpos r Hr). lia. }
    rewrite Z.quot_div_nonneg in Havg by lia.
    split; [exact Havg|]. rewrite Havg. split.
    + apply Z.div_le_lower_bound; lia.
    + apply Z.div_le_upper_bound; lia.
  - cbn. lia.
  - intros r Hr. specialize (Hpos r Hr). lia.
  - cbn [Bulk.totalProcessingTime Bulk.no_stats Z.add]. exact Hsum.
Qed.

Lemma X8_go_average_between_minimum_and_maximum_witness :
  Bulk.main 30 Stub.golib Samples.steady_clients Stub.mixed_config 0
  = Exit 0 Samples.steady_report /\
  (forall r,
      In r (Bulk.channel
              (Bulk.run_workers 30 Stub.golib Samples.steady_clients 0
                 (Bulk.Transfers Stub.mixed_config) 0)) ->
      0 < Bulk.ProcessingTime r) /\
  Facts.sum
    (Facts.times
       (Bulk.channel
          (Bulk.run_workers 30 Stub.golib Samples.steady_clients 0
             (Bulk.Transfers Stub.mixed_config) 0)))
  < 2 ^ 63 /\
  Bulk.AverageProcessingTime Samples.steady_report
  = Facts.sum
      (Facts.times
         (Bulk.channel
            (Bulk.run_workers 30 Stub.golib Samples.steady_clients 0
               (Bulk.Transfers Stub.mixed_config) 0)))
    / Z.of_nat (List.length (Bulk.Transfers Stub.mixed_config)) /\
  Bulk.MinimumProcessingTime Samples.steady_report
  <= Bulk.AverageProcessingTime Samples.steady_report
  <= Bulk.MaximumProcessingTime Samples.steady_report.
Proof.
  assert (Hsum : Facts.sum
                   (Facts.times
                      (Bulk.channel
                         (Bulk.run_workers 30 Stub.golib Samples.steady_clients 0
                            (Bulk.Transfers Stub.mixed_config) 0)))
                 < 2 ^ 63).
  { vm_compute. reflexivity. }
  split; [exact steady_batch_exit|].
  split; [exact steady_batch_positive|].
  split; [exact Hsum|].
  exact (X8_go_average_between_minimum_and_maximum 30 Stub.golib
           Samples.steady_clients Stub.mixed_config 0 steady_batch_exit
           steady_batch_positive Hsum).
Defined.

(** X9.  One transfer that is submitted and never reported on keeps the
    whole batch from finishing: whatever the other transfers do, the Go
    [main] never reaches its statistics and its exit, for any amount of
    fuel. *)
Theorem X9_go_one_silent_transfer_blocks_the_batch :
  forall lib clients config start i transfer sig,
    nth_error (Bulk.Transfers config) i = Some transfer ->
    Bulk.submits lib (clients i) transfer sig ->
    Bulk.never_reports (clients i) ->
    forall fuel code report,
      Bulk.main fuel lib clients config start <> Exit code report.
Proof.
  intros lib clients config start i transfer sig Hnth Hsub Hsilent
         fuel code report Hmain.
  destruct (main_exit_all_returned _ _ _ _ _ Hmain) as (Hall & _).
  pose proof (@run_workers_nth fuel lib clients start (Bulk.Transfers config)
                0%nat i transfer Hnth) as Hin.
  cbn [Nat.add] in Hin. destruct (Hall _ Hin) as (g' & Hret).
  destruct (executeTransfer_submitted fuel (spawn Bulk.TransferResult start) Hsub)
    as (result & g1 & Hrun & _).
  destruct (poll_silent Hsilent fuel 0 sig
              (clock (spawn Bulk.TransferResult start)) result g1)
    as (g2 & Hloop & _).
  rewrite Hrun, Hloop in Hret. discriminate Hret.
Qed.

Lemma stuck_endpoint_submits :
  Bulk.submits Stub.golib (Samples.stuck_clients 1) Stub.sample_transfer "5sig".
Proof. exact sample_transfer_submits. Qed.

Lemma X9_go_one_silent_transfer_blocks_the_batch_witness :
  nth_error (Bulk.Transfers Stub.mixed_config) 1 = Some Stub.sample_transfer /\
  Bulk.submits Stub.golib (Samples.stuck_clients 1) Stub.sample_transfer "5sig" /\
  Bulk.never_reports (Samples.stuck_clients 1) /\
  forall fuel code report,
    Bulk.main fuel Stub.golib Samples.stuck_clients Stub.mixed_config 0
    <> Exit code report.
Proof.
  split; [reflexivity|].
  split; [exact stuck_endpoint_submits|].
  split; [exact go_silent_never_reports|].
  exact (@X9_go_one_silent_transfer_blocks_the_batch Stub.golib
           Samples.stuck_clients Stub.mixed_config 0 1%nat
           Stub.sample_transfer "5sig" eq_refl
           stuck_endpoint_submits go_silent_never_reports).
Defined.

(* ===================================================================== *)
(** * Further properties of the block-triggered sender *)
(* ===================================================================== *)

(** X10.  [sendTransaction] looks at the first 32 bytes of the buffer of
    the key and at nothing else of it: two key slices with room for 32
    bytes that agree on those bytes give the same run, whatever their
    lengths and whatever follows.  A longer key is cut, a shorter one is
    filled up from its buffer, and neither is reported. *)
Theorem X10_geyser_key_is_cut_to_32_bytes :
  forall lib client key1 key2 recipientAddr amount g,
    (32 <= cap key1)%nat ->
    (32 <= cap key2)%nat ->
    firstn 32 (array key1) = firstn 32 (array key2) ->
    Geyser.sendTransaction lib client key1 recipientAddr amount g
    = Geyser.sendTransaction lib client key2 recipientAddr amount g.
Proof.
  intros lib client key1 key2 recipientAddr amount g H1 H2 Heq.
  unfold Geyser.sendTransaction, slice_to.
  apply Nat.leb_le in H1, H2. rewrite H1, H2.
  unfold elems. cbn [array len]. rewrite Heq. reflexivity.
Qed.

Lemma X10_geyser_key_is_cut_to_32_bytes_witness :
  (32 <= cap Samples.full_slice)%nat /\
  (32 <= cap Samples.other_slice)%nat /\
  firstn 32 (array Samples.full_slice) = firstn 32 (array Samples.other_slice) /\
  len Samples.full_slice <> len Samples.other_slice /\
  Geyser.sendTransaction Stub.golib Stub.go_silent Samples.full_slice
    Stub.good_address 100000000 (spawn Empty_set 0)
  = Geyser.sendTransaction Stub.golib Stub.go_silent Samples.other_slice
      Stub.good_address 100000000 (spawn Empty_set 0).
Proof.
  split; [vm_compute; lia|].
  split; [vm_compute; lia|].
  split; [reflexivity|].
  split; [discriminate|].
  apply X10_geyser_key_is_cut_to_32_bytes.
  - vm_compute. lia.
  - vm_compute. lia.
  - reflexivity.
Defined.

(** With a key it can use, [sendTransaction] comes back, with [nil] or with
    an error, after one blockhash request and at most one submission. *)
Lemma sendTransaction_returns lib client key recipientAddr amount g :
  Facts.seed_accepted lib key ->
  exists err g',
    Geyser.sendTransaction lib client key recipientAddr amount g
    = Returned err g' /\
    count_calls CallBlockhash (calls g')
    = (count_calls CallBlockhash (calls g) + 1)%nat /\
    count_calls CallSend (calls g')
    = (count_calls CallSend (calls g)
       + match err with
         | None | Some (Geyser.FailedSend _) => 1
         | Some _ => 0
         end)%nat /\
    count_calls CallStatus (calls g') = count_calls CallStatus (calls g).
Proof.
  intros (Hcap & account & Hacc).
  unfold Geyser.sendTransaction, slice_to, rpc.
  apply Nat.leb_le in Hcap. rewrite Hcap.
  unfold elems. cbn [array len]. rewrite Hacc.
  destruct (answer (GetRecentBlockhash client CommitmentFinalized)) as [bh|e];
    [|do 2 eexists; split; [reflexivity|]; count_now; repeat split; lia].
  destruct (PublicKeyFromBase58 lib recipientAddr) as [recipient|e];
    [|do 2 eexists; split; [reflexivity|]; count_now; repeat split; lia].
  destruct (NewTransaction lib _ bh (acc_PublicKey account)) as [tx|e];
    [|do 2 eexists; split; [reflexivity|]; count_now; repeat split; lia].
  destruct (Sign lib tx _) as [tx'|e];
    [|do 2 eexists; split; [reflexivity|]; count_now; repeat split; lia].
  destruct (answer (SendTransactionWithOpts client tx' _)) as [sig|e];
    do 2 eexists; (split; [reflexivity|]); count_now; repeat split; lia.
Qed.

(** X11.  With a key it can use and an endpoint that hands out a blockhash,
    [sendTransaction] given a recipient address that does not parse returns
    the invalid-recipient error.  It has asked the endpoint for a blockhash
    first (the only call it makes) and it has not submitted anything. *)
Theorem X11_geyser_invalid_recipient :
  forall lib client key recipientAddr amount g blockhash e,
    Facts.seed_accepted lib key ->
    answer (GetRecentBlockhash client CommitmentFinalized) = Ok blockhash ->
    PublicKeyFromBase58 lib recipientAddr = Err e ->
    exists g',
      Geyser.sendTransaction lib client key recipientAddr amount g
      = Returned (Some (Geyser.InvalidRecipient e)) g' /\
      calls g' = calls g ++ [(clock g, CallBlockhash)] /\
      clock g' = clock g + latency (GetRecentBlockhash client CommitmentFinalized) /\
      count_calls CallSend (calls g') = count_calls CallSend (calls g).
Proof.
  intros lib client key recipientAddr amount g blockhash e
         (Hcap & account & Hacc) Hbh Hrec.
  unfold Geyser.sendTransaction, slice_to, rpc.
  apply Nat.leb_le in Hcap. rewrite Hcap.
  unfold elems. cbn [array len]. rewrite Hacc, Hbh, Hrec.
  eexists. split; [reflexivity|]. cbn [calls clock].
  split; [reflexivity|]. split; [reflexivity|].
  rewrite count_calls_app. cbn. lia.
Qed.

Lemma full_slice_accepted : Facts.seed_accepted Stub.golib Samples.full_slice.
Proof.
  split; [vm_compute; lia|]. eexists. vm_compute. reflexivity.
Qed.

Lemma X11_geyser_invalid_recipient_witness :
  Facts.seed_accepted Stub.golib Samples.full_slice /\
  answer (GetRecentBlockhash Stub.go_silent CommitmentFinalized) = Ok "hash" /\
  PublicKeyFromBase58 Stub.golib Stub.placeholder_address
  = Err "invalid base58 address" /\
  exists g',
    Geyser.sendTransaction Stub.golib Stub.go_silent Samples.full_slice
      Stub.placeholder_address 100000000 (spawn Empty_set 0)
    = Returned (Some (Geyser.InvalidRecipient "invalid base58 address")) g' /\
    calls g' = [] ++ [(0, CallBlockhash)] /\
    clock g' = 0 + latency (GetRecentBlockhash Stub.go_silent CommitmentFinalized) /\
    count_calls CallSend (calls g') = 0%nat.
Proof.
  split; [exact full_slice_accepted|].
  split; [reflexivity|].
  split; [vm_compute; reflexivity|].
  apply (@X11_geyser_invalid_recipient Stub.golib Stub.go_silent
           Samples.full_slice Stub.placeholder_address 100000000
           (spawn Empty_set 0) "hash" "invalid base58 address"
           full_slice_accepted eq_refl).
  vm_compute. reflexivity.
Defined.

(** X12.  However it ends, the calls [sendTransaction] adds to its log are,
    in this order: nothing; or one blockhash request; or one blockhash
    request and then one submission.  It never queries a status.  When it
    returns [nil] the log has grown by exactly the blockhash request, made
    at the start, and the submission, made when the blockhash reply had
    come. *)
Theorem X12_geyser_submits_at_most_once :
  forall lib client key recipientAddr amount g,
    (exists suffix,
        calls (final (Geyser.sendTransaction lib client key recipientAddr
                        amount g))
        = calls g ++ suffix /\
        Facts.geyser_order (map snd suffix) = true) /\
    (count_calls CallSend
       (calls (final (Geyser.sendTransaction lib client key recipientAddr
                        amount g)))
     <= count_calls CallSend (calls g) + 1)%nat /\
    count_calls CallStatus
      (calls (final (Geyser.sendTransaction lib client key recipientAddr
                       amount g)))
    = count_calls CallStatus (calls g) /\
    (forall g',
        Geyser.sendTransaction lib client key recipientAddr amount g
        = Returned None g' ->
        calls g'
        = calls g
          ++ [(clock g, CallBlockhash);
              (clock g + latency (GetRecentBlockhash client CommitmentFinalized),
               CallSend)] /\
        count_calls CallSend (calls g') = (count_calls CallSend (calls g) + 1)%nat /\
        count_calls CallBlockhash (calls g')
        = (count_calls CallBlockhash (calls g) + 1)%nat).
Proof.
  intros lib client key recipientAddr amount g.
  unfold Geyser.sendTransaction, rpc.
  assert (Hnone : exists suffix : list Event,
             calls g = calls g ++ suffix /\
             Facts.geyser_order (map snd suffix) = true).
  { exists []. split; [rewrite app_nil_r; reflexivity|reflexivity]. }
  assert (Hone : exists suffix : list Event,
             calls g ++ [(clock g, CallBlockhash)] = calls g ++ suffix /\
             Facts.geyser_order (map snd suffix) = true).
  { eexists. split; reflexivity. }
  assert (Htwo : forall t,
             exists suffix : list Event,
               (calls g ++ [(clock g, CallBlockhash)]) ++ [(t, CallSend)]
               = calls g ++ suffix /\
               Facts.geyser_order (map snd suffix) = true).
  { intros t. rewrite <- app_assoc. eexists. split; reflexivity. }
  destruct (slice_to key 32) as [seed|];
    [|split; [exact Hnone|]; count_now; split; [lia|];
      split; [reflexivity|]; discriminate].
  destruct (NewAccountFromPrivateKeyBytes lib _) as [account|];
    [|split; [exact Hnone|]; count_now; split; [lia|];
      split; [reflexivity|]; discriminate].
  destruct (answer (GetRecentBlockhash client CommitmentFinalized)) as [bh|e];
    [|split; [exact Hone|]; count_now; split; [lia|];
      split; [cbn; lia|]; discriminate].
  destruct (PublicKeyFromBase58 lib recipientAddr) as [recipient|e];
    [|split; [exact Hone|]; count_now; split; [lia|];
      split; [cbn; lia|]; discriminate].
  destruct (NewTransaction lib _ bh (acc_PublicKey account)) as [tx|e];
    [|split; [exact Hone|]; count_now; split; [lia|];
      split; [cbn; lia|]; discriminate].
  destruct (Sign lib tx _) as [tx'|e];
    [|split; [exact Hone|]; count_now; split; [lia|];
      split; [cbn; lia|]; discriminate].
  destruct (answer (SendTransactionWithOpts client tx' _)) as [sig|e];
    (split; [apply Htwo|]); count_now; (split; [lia|]);
    (split; [cbn; lia|]); [|discriminate].
  intros g' [= <-]. cbn [calls clock]. rewrite <- app_assoc.
  split; [reflexivity|]. count_now. split; lia.
Qed.

Lemma X12_geyser_submits_at_most_once_witness :
  Geyser.sendTransaction Stub.golib Stub.go_silent Samples.full_slice
    Stub.good_address 100000000 (spawn Empty_set 0)
  = Returned None Samples.sent_end /\
  calls Samples.sent_end
  = calls (spawn Empty_set 0)
    ++ [(clock (spawn Empty_set 0), CallBlockhash);
        (clock (spawn Empty_set 0)
         + latency (GetRecentBlockhash Stub.go_silent CommitmentFinalized),
         CallSend)] /\
  count_calls CallSend (calls Samples.sent_end)
  = (count_calls CallSend (calls (spawn Empty_set 0)) + 1)%nat /\
  count_calls CallBlockhash (calls Samples.sent_end)
  = (count_calls CallBlockhash (calls (spawn Empty_set 0)) + 1)%nat.
Proof.
  assert (Hrun : Geyser.sendTransaction Stub.golib Stub.go_silent
                   Samples.full_slice Stub.good_address 100000000
                   (spawn Empty_set 0)
                 = Returned None Samples.sent_end).
  { vm_compute. reflexivity. }
  split; [exact Hrun|].
  exact (proj2 (proj2 (proj2
                  (X12_geyser_submits_at_most_once Stub.golib Stub.go_silent
                     Samples.full_slice Stub.good_address 100000000
                     (spawn Empty_set 0))))
               Samples.sent_end Hrun).
Defined.

(** ** The event loop *)

(** X13.  With a key it can use and an endpoint that answers every
    blockhash request with a blockhash or with an error, the event loop
    attempts one transaction per update that carries a slot, up to the first
    receive error: it logs as many outcomes (sent or failed) as there are
    such updates, asks for as many blockhashes, submits at most as many
    times, and goes on after a failed attempt.  It ends exactly when a
    receive fails; otherwise it is still waiting for the next update. *)
Theorem X13_geyser_one_attempt_per_slot :
  forall lib clients key recipientAddr amount stream n g,
    Facts.seed_accepted lib key ->
    Facts.blockhash_answered clients ->
    List.length
      (filter Facts.is_attempt
         (fst (Geyser.event_loop lib clients key recipientAddr amount stream n g)))
    = List.length (Facts.slots_before_error stream) /\
    (exists g',
        snd (Geyser.event_loop lib clients key recipientAddr amount stream n g)
        = (if Facts.has_receive_error stream
           then Returned tt g' else Spinning g') /\
        (count_calls CallSend (calls g')
         <= count_calls CallSend (calls g)
            + List.length (Facts.slots_before_error stream))%nat /\
        count_calls CallBlockhash (calls g')
        = (count_calls CallBlockhash (calls g)
           + List.length (Facts.slots_before_error stream))%nat).
Proof.
  intros lib clients key recipientAddr amount stream n g Hkey _. revert n g.
  induction stream as [|u rest IH]; intros n g.
  - cbn. split; [reflexivity|]. exists g. repeat split; lia.
  - destruct u as [[slot|]|err].
    + cbn [Geyser.event_loop Facts.slots_before_error Facts.has_receive_error
           existsb orb List.length].
      destruct (sendTransaction_returns (clients n) recipientAddr amount g Hkey)
        as (err & g1 & -> & Hbh & Hsend & _).
      specialize (IH (S n) g1).
      destruct (Geyser.event_loop lib clients key recipientAddr amount rest
                  (S n) g1) as [lines ending].
      cbn [fst snd] in IH |- *.
      destruct IH as (Hlen & g' & Hend & Hs & Hb).
      split.
      * cbn [filter Facts.is_attempt].
        destruct err as [e|]; cbn [Facts.is_attempt List.length];
          rewrite Hlen; reflexivity.
      * exists g'. split; [exact Hend|].
        destruct err as [[]|]; lia.
    + cbn [Geyser.event_loop Facts.slots_before_error Facts.has_receive_error
           existsb orb].
      exact (IH n g).
    + cbn. split; [reflexivity|]. exists g. repeat split; lia.
Qed.

Lemma sample_clients_answer : Facts.blockhash_answered Samples.sample_clients.
Proof.
  intros n. destruct n as [|[|n]].
  - left. eexists. reflexivity.
  - right. eexists. reflexivity.
  - left. eexists. reflexivity.
Qed.

Lemma X13_geyser_one_attempt_per_slot_witness :
  Facts.seed_accepted Stub.golib Samples.full_slice /\
  Facts.blockhash_answered Samples.sample_clients /\
  Facts.slots_before_error Samples.sample_stream = [100; 101; 102] /\
  Samples.sample_lines
  = [Geyser.NewBlock 100; Geyser.SentFor 100;
     Geyser.NewBlock 101;
     Geyser.FailedToSend (Geyser.FailedBlockhash "connection refused");
     Geyser.NewBlock 102; Geyser.SentFor 102;
     Geyser.ErrorReceiving "EOF"] /\
  List.length
    (filter Facts.is_attempt
       (fst (Geyser.event_loop Stub.golib Samples.sample_clients
               Samples.full_slice Stub.good_address 100000000
               Samples.sample_stream 0 (spawn Empty_set 0))))
  = List.length (Facts.slots_before_error Samples.sample_stream) /\
  (exists g',
      snd (Geyser.event_loop Stub.golib Samples.sample_clients
             Samples.full_slice Stub.good_address 100000000
             Samples.sample_stream 0 (spawn Empty_set 0))
      = (if Facts.has_receive_error Samples.sample_stream
         then Returned tt g' else Spinning g') /\
      (count_calls CallSend (calls g')
       <= count_calls CallSend (calls (spawn Empty_set 0))
          + List.length (Facts.slots_before_error Samples.sample_stream))%nat /\
      count_calls CallBlockhash (calls g')
      = (count_calls CallBlockhash (calls (spawn Empty_set 0))
         + List.length (Facts.slots_before_error Samples.sample_stream))%nat).
Proof.
  split; [exact full_slice_accepted|].
  split; [exact sample_clients_answer|].
  split; [reflexivity|].
  split; [reflexivity|].
  exact (X13_geyser_one_attempt_per_slot Stub.good_address 100000000
           Samples.sample_stream 0 (spawn Empty_set 0) full_slice_accepted
           sample_clients_answer).
Defined.

(** X14.  A key too short to be cut to 32 bytes is not noticed before the
    first block: the event loop passes over the updates without a slot,
    then panics at the first update that carries one, having logged the new
    block and made no call to the endpoint.  When a receive fails before
    any such update, the loop ends without a panic. *)
Theorem X14_geyser_short_key_panics_at_first_slot :
  forall lib clients key recipientAddr amount stream n g,
    (cap key < 32)%nat ->
    match Facts.slots_before_error stream with
    | [] =>
      snd (Geyser.event_loop lib clients key recipientAddr amount stream n g)
      = (if Facts.has_receive_error stream then Returned tt g else Spinning g)
    | slot :: _ =>
      Geyser.event_loop lib clients key recipientAddr amount stream n g
      = ([Geyser.NewBlock slot], Panicked "slice bounds out of range [:32]" g)
    end.
Proof.
  intros lib clients key recipientAddr amount stream n g Hcap. revert n g.
  induction stream as [|u rest IH]; intros n g.
  - reflexivity.
  - destruct u as [[slot|]|err].
    + cbn [Facts.slots_before_error Geyser.event_loop].
      unfold Geyser.sendTransaction, slice_to.
      apply Nat.leb_gt in Hcap. rewrite Hcap. reflexivity.
    + cbn [Facts.slots_before_error Geyser.event_loop Facts.has_receive_error
           existsb orb].
      exact (IH n g).
    + reflexivity.
Qed.

Lemma X14_geyser_short_key_panics_at_first_slot_witness :
  (cap Stub.short_slice < 32)%nat /\
  Geyser.event_loop Stub.golib Samples.sample_clients Stub.short_slice
    Stub.good_address 100000000
    (Geyser.Update None :: Samples.sample_stream) 0 (spawn Empty_set 0)
  = ([Geyser.NewBlock 100],
     Panicked "slice bounds out of range [:32]" (spawn Empty_set 0)).
Proof.
  split; [vm_compute; lia|].
  apply (@X14_geyser_short_key_panics_at_first_slot Stub.golib
           Samples.sample_clients Stub.short_slice Stub.good_address 100000000
           (Geyser.Update None :: Samples.sample_stream) 0%nat
           (spawn Empty_set 0)).
  vm_compute. lia.
Defined.

(* ===================================================================== *)
(** * Further properties of the Rust CLI *)
(* ===================================================================== *)

(** Counting the calls of a Rust task written out. *)
Ltac rust_count_now :=
  cbn [snd fst Multi.log Multi.sleep]; rewrite ?count_calls_app;
  cbn [count_calls filter snd Call_eqb List.length].

Lemma rust_status_latency_snoc (client : Multi.RpcClient) (sig : Signature)
    (n : nat) :
  forall k,
    Facts.rust_status_latency client sig k (S n)
    = Facts.rust_status_latency client sig k n
      + latency (Multi.get_signature_status client (k + n) sig).
Proof.
  induction n as [|n IH]; intros k.
  - cbn. rewrite Nat.add_0_r. lia.
  - change (Facts.rust_status_latency client sig k (S (S n)))
      with (latency (Multi.get_signature_status client k sig)
            + Facts.rust_status_latency client sig (S k) (S n)).
    rewrite (IH (S k)). cbn [Facts.rust_status_latency].
    replace (S k + n)%nat with (k + S n)%nat by lia. lia.
Qed.

(** While the endpoint answers "absent" the confirmation loop goes on. *)
Lemma confirm_skips_absent (client : Multi.RpcClient) (sig : Signature) :
  forall n k m t,
    (forall j, (j < n)%nat -> Facts.rust_absent_at client sig (k + j)) ->
    exists t1,
      Multi.confirm (n + m) k client sig t
      = Multi.confirm m (k + n) client sig t1 /\
      Multi.now t1
      = Multi.now t + Facts.rust_status_latency client sig k n
        + Z.of_nat n * poll_interval /\
      (forall c, count_calls c (Multi.log t1)
                 = (count_calls c (Multi.log t)
                    + match c with
                      | CallStatus | CallSleep => n
                      | _ => 0
                      end)%nat).
Proof.
  induction n as [|n IH]; intros k m t Habs.
  - exists t. rewrite Nat.add_0_r. cbn [Nat.add Facts.rust_status_latency].
    split; [reflexivity|]. split; [lia|]. intros c. destruct c; lia.
  - pose proof (Habs 0%nat ltac:(lia)) as Hans.
    unfold Facts.rust_absent_at in Hans. rewrite Nat.add_0_r in Hans.
    cbn [Nat.add Multi.confirm]. unfold Multi.rpc. rewrite Hans.
    match goal with
    | |- context [Multi.confirm (n + m) (S k) client sig ?t0] =>
      destruct (IH (S k) m t0) as (t1 & Hrun & Hclock & Hcount)
    end.
    { intros j Hj. replace (S k + j)%nat with (k + S j)%nat by lia.
      apply Habs. lia. }
    exists t1. replace (k + S n)%nat with (S k + n)%nat by lia.
    split; [exact Hrun|].
    cbn [Multi.sleep Multi.now Multi.log] in Hclock, Hcount.
    split.
    { rewrite Hclock. cbn [Facts.rust_status_latency]. lia. }
    intros c. rewrite Hcount, !count_calls_app. destruct c; cbn; lia.
Qed.

(** A submitted Rust transfer enters the confirmation loop two calls after
    its start. *)
Lemma execute_single_transfer_enters_confirm lib client kp f d amount sig t :
  Multi.submits lib client kp f d amount sig ->
  exists tx t1,
    Multi.execute_single_transfer lib client kp f d amount t
    = (let (confirmed, t2) := Multi.confirm Multi.max_retries 0 client sig t1 in
       match confirmed with
       | Err e => (Err e, t2)
       | Ok false => (Err Multi.ConfirmationTimedOut, t2)
       | Ok true => (Ok (sig, Multi.now t2 - Multi.now t), t2)
       end) /\
    Multi.now t1
    = Multi.now t + latency (Multi.get_latest_blockhash client)
      + latency (Multi.send_transaction client tx) /\
    Multi.payer tx = Some (Multi.pubkey (hd (Multi.mkKeypair [] "") (Multi.signers tx))) /\
    (forall c, count_calls c (Multi.log t1)
               = (count_calls c (Multi.log t)
                  + match c with
                    | CallBlockhash | CallSend => 1
                    | _ => 0
                    end)%nat).
Proof.
  intros (kpair & fp & tp & bh & Hkp & Hf & Hd & Heq & Hbh & Hsend).
  unfold Multi.execute_single_transfer, Multi.rpc.
  rewrite Hkp, Hf, Hd, Heq, Hbh. cbn [negb]. rewrite Hsend.
  exists (Multi.new_signed_with_payer [Multi.transfer fp tp amount] (Some fp)
                                      [kpair] bh).
  eexists. split; [reflexivity|].
  cbn [Multi.now Multi.log Multi.payer Multi.signers hd].
  split; [lia|]. split.
  { apply String.eqb_eq in Heq. rewrite Heq. reflexivity. }
  intros c. rewrite !count_calls_app. destruct c; cbn; lia.
Qed.

(** X15.  A submitted Rust transfer whose first [n] status queries answer
    "absent" and whose next one, within the budget of 20, reports a status
    ends there: with the signature and the time it took when the status is
    a success, with the status as an error when it is not.  It has made
    [n + 1] status queries and slept [n] times; the time it took is that of
    the two calls before the loop, the [n + 1] queries and [n] poll
    intervals; and the transaction it submitted is paid for by its
    signer. *)
Theorem X15_rust_status_ends_the_wait :
  forall lib client kp f d amount sig t n st,
    Multi.submits lib client kp f d amount sig ->
    (forall j, (j < n)%nat -> Facts.rust_absent_at client sig j) ->
    answer (Multi.get_signature_status client n sig) = Ok (Some st) ->
    (n < Multi.max_retries)%nat ->
    exists tx t',
      Multi.execute_single_transfer lib client kp f d amount t
      = (match st with
         | Ok _ => Ok (sig, Multi.now t' - Multi.now t)
         | Err status => Err (Multi.TransactionFailedStatus status)
         end, t') /\
      count_calls CallStatus (Multi.log t')
      = (count_calls CallStatus (Multi.log t) + S n)%nat /\
      count_calls CallSleep (Multi.log t')
      = (count_calls CallSleep (Multi.log t) + n)%nat /\
      Multi.now t' - Multi.now t
      = latency (Multi.get_latest_blockhash client)
        + latency (Multi.send_transaction client tx)
        + Facts.rust_status_latency client sig 0 (S n)
        + Z.of_nat n * poll_interval /\
      Multi.payer tx
      = Some (Multi.pubkey (hd (Multi.mkKeypair [] "") (Multi.signers tx))).
Proof.
  intros lib client kp f d amount sig t n st Hsub Habs Hans Hn.
  destruct (execute_single_transfer_enters_confirm t Hsub)
    as (tx & t1 & Hrun & Hclock1 & Hpayer & Hcount1).
  replace Multi.max_retries with (n + S (Multi.max_retries - S n))%nat in Hrun
    by lia.
  destruct (@confirm_skips_absent client sig n 0%nat
              (S (Multi.max_retries - S n)) t1 Habs)
    as (t2 & Hskip & Hclock2 & Hcount2).
  rewrite Hskip in Hrun. cbn [Nat.add Multi.confirm] in Hrun.
  unfold Multi.rpc in Hrun. rewrite Hans in Hrun.
  exists tx. eexists. split.
  - rewrite Hrun. destruct st as [[]|status]; reflexivity.
  - cbn [Multi.log Multi.now]. rewrite !count_calls_app, !Hcount2, !Hcount1.
    split; [cbn; lia|]. split; [cbn; lia|]. split; [|exact Hpayer].
    rewrite Hclock2, Hclock1, (rust_status_latency_snoc client sig n 0).
    cbn [Nat.add]. lia.
Qed.

Lemma rust_confirming_submits :
  Multi.submits Stub.rustlib Samples.rust_confirming "id.json"
                Stub.system_address Stub.good_address 100000000 "5sig".
Proof. unfold Multi.submits. do 4 eexists. each_step_evaluates. Qed.

Lemma rust_confirming_absent :
  forall j, (j < 3)%nat -> Facts.rust_absent_at Samples.rust_confirming "5sig" j.
Proof.
  intros j Hj.
  unfold Facts.rust_absent_at, Samples.rust_confirming, Stub.rust_endpoint.
  cbn [Multi.get_signature_status]. apply Nat.ltb_lt in Hj. rewrite Hj.
  reflexivity.
Qed.

Lemma X15_rust_status_ends_the_wait_witness :
  Multi.submits Stub.rustlib Samples.rust_confirming "id.json"
                Stub.system_address Stub.good_address 100000000 "5sig" /\
  (forall j, (j < 3)%nat -> Facts.rust_absent_at Samples.rust_confirming "5sig" j) /\
  answer (Multi.get_signature_status Samples.rust_confirming 3 "5sig")
  = Ok (Some (Ok tt)) /\
  (3 < Multi.max_retries)%nat /\
  exists tx t',
    Multi.execute_single_transfer Stub.rustlib Samples.rust_confirming "id.json"
      Stub.system_address Stub.good_address 100000000 (Multi.boot 0)
    = (Ok ("5sig", Multi.now t' - 0), t') /\
    count_calls CallStatus (Multi.log t') = 4%nat /\
    count_calls CallSleep (Multi.log t') = 3%nat /\
    Multi.now t' - 0
    = latency (Multi.get_latest_blockhash Samples.rust_confirming)
      + latency (Multi.send_transaction Samples.rust_confirming tx)
      + Facts.rust_status_latency Samples.rust_confirming "5sig" 0 4
      + 3 * poll_interval /\
    Multi.payer tx
    = Some (Multi.pubkey (hd (Multi.mkKeypair [] "") (Multi.signers tx))).
Proof.
  split; [exact rust_confirming_submits|].
  split; [exact rust_confirming_absent|].
  split; [reflexivity|].
  split; [unfold Multi.max_retries; lia|].
  exact (@X15_rust_status_ends_the_wait Stub.rustlib Samples.rust_confirming
           "id.json" Stub.system_address Stub.good_address 100000000 "5sig"
           (Multi.boot 0) 3%nat (Ok tt) rust_confirming_submits
           rust_confirming_absent eq_refl ltac:(unfold Multi.max_retries; lia)).
Defined.

(** X16.  Only the first 20 status replies count.  A submitted Rust
    transfer whose first 20 status queries answer "absent" times out,
    whatever the endpoint would have answered afterwards: it has made
    exactly 20 status queries and slept 20 times, the last sleep after the
    last query, so that the error comes 20 poll intervals plus the time of
    the calls after the start. *)
Theorem X16_rust_only_twenty_replies_count :
  forall lib client kp f d amount sig t,
    Multi.submits lib client kp f d amount sig ->
    (forall j, (j < 20)%nat -> Facts.rust_absent_at client sig j) ->
    exists tx t',
      Multi.execute_single_transfer lib client kp f d amount t
      = (Err Multi.ConfirmationTimedOut, t') /\
      count_calls CallStatus (Multi.log t')
      = (count_calls CallStatus (Multi.log t) + 20)%nat /\
      count_calls CallSleep (Multi.log t')
      = (count_calls CallSleep (Multi.log t) + 20)%nat /\
      Multi.now t' - Multi.now t
      = latency (Multi.get_latest_blockhash client)
        + latency (Multi.send_transaction client tx)
        + Facts.rust_status_latency client sig 0 20
        + 20 * poll_interval.
Proof.
  intros lib client kp f d amount sig t Hsub Habs.
  destruct (execute_single_transfer_enters_confirm t Hsub)
    as (tx & t1 & Hrun & Hclock1 & _ & Hcount1).
  destruct (@confirm_skips_absent client sig 20 0%nat 0%nat t1 Habs)
    as (t2 & Hskip & Hclock2 & Hcount2).
  change (20 + 0)%nat with Multi.max_retries in Hskip.
  rewrite Hskip in Hrun. cbn [Multi.confirm] in Hrun.
  exists tx, t2. split; [exact Hrun|].
  rewrite !Hcount2, !Hcount1. split; [lia|]. split; [lia|].
  rewrite Hclock2, Hclock1. lia.
Qed.

Lemma rust_late_submits :
  Multi.submits Stub.rustlib Samples.rust_late "id.json"
                Stub.system_address Stub.good_address 100000000 "5sig".
Proof. unfold Multi.submits. do 4 eexists. each_step_evaluates. Qed.

Lemma rust_late_absent :
  forall j, (j < 20)%nat -> Facts.rust_absent_at Samples.rust_late "5sig" j.
Proof.
  intros j Hj.
  unfold Facts.rust_absent_at, Samples.rust_late, Stub.rust_endpoint.
  cbn [Multi.get_signature_status]. apply Nat.ltb_lt in Hj. rewrite Hj.
  reflexivity.
Qed.

Lemma X16_rust_only_twenty_replies_count_witness :
  Multi.submits Stub.rustlib Samples.rust_late "id.json"
                Stub.system_address Stub.good_address 100000000 "5sig" /\
  (forall j, (j < 20)%nat -> Facts.rust_absent_at Samples.rust_late "5sig" j) /\
  answer (Multi.get_signature_status Samples.rust_late 20 "5sig")
  = Ok (Some (Ok tt)) /\
  exists tx t',
    Multi.execute_single_transfer Stub.rustlib Samples.rust_late "id.json"
      Stub.system_address Stub.good_address 100000000 (Multi.boot 0)
    = (Err Multi.ConfirmationTimedOut, t') /\
    count_calls CallStatus (Multi.log t') = 20%nat /\
    count_calls CallSleep (Multi.log t') = 20%nat /\
    Multi.now t' - 0
    = latency (Multi.get_latest_blockhash Samples.rust_late)
      + latency (Multi.send_transaction Samples.rust_late tx)
      + Facts.rust_status_latency Samples.rust_late "5sig" 0 20
      + 20 * poll_interval.
Proof.
  split; [exact rust_late_submits|].
  split; [exact rust_late_absent|].
  split; [reflexivity|].
  exact (@X16_rust_only_twenty_replies_count Stub.rustlib Samples.rust_late
           "id.json" Stub.system_address Stub.good_address 100000000 "5sig"
           (Multi.boot 0) rust_late_submits rust_late_absent).
Defined.

(** X17.  The Rust worker contacts the endpoint only for a keypair that
    matches the declared source.  When the keypair file is read and both
    addresses parse but the public key of the file is not the source
    address, it returns the mismatch error without any call; and whenever a
    run has made a call, the file was read, both addresses parsed, and the
    key of the file is the source address. *)
Theorem X17_rust_keypair_must_match :
  (forall lib client kp f d amount t keypair from_pubkey to_pubkey,
      Multi.read_keypair_file lib kp = Ok keypair ->
      Multi.Pubkey_from_str lib f = Ok from_pubkey ->
      Multi.Pubkey_from_str lib d = Ok to_pubkey ->
      Multi.pubkey keypair <> from_pubkey ->
      Multi.execute_single_transfer lib client kp f d amount t
      = (Err (Multi.KeypairMismatch (Multi.pubkey keypair) from_pubkey), t))
  /\
  (forall lib client kp f d amount t,
      Multi.log (snd (Multi.execute_single_transfer lib client kp f d amount t))
      <> Multi.log t ->
      exists keypair to_pubkey,
        Multi.read_keypair_file lib kp = Ok keypair /\
        Multi.Pubkey_from_str lib f = Ok (Multi.pubkey keypair) /\
        Multi.Pubkey_from_str lib d = Ok to_pubkey).
Proof.
  split.
  - intros lib client kp f d amount t keypair fp tp Hkp Hf Hd Hne.
    unfold Multi.execute_single_transfer. rewrite Hkp, Hf, Hd.
    apply String.eqb_neq in Hne. rewrite Hne. reflexivity.
  - intros lib client kp f d amount t.
    unfold Multi.execute_single_transfer.
    destruct (Multi.read_keypair_file lib kp) as [keypair|e];
      [|intros H; exfalso; apply H; reflexivity].
    destruct (Multi.Pubkey_from_str lib f) as [fp|e];
      [|intros H; exfalso; apply H; reflexivity].
    destruct (Multi.Pubkey_from_str lib d) as [tp|e];
      [|intros H; exfalso; apply H; reflexivity].
    destruct (String.eqb (Multi.pubkey keypair) fp) eqn:Heq;
      [|intros H; exfalso; apply H; reflexivity].
    intros _. apply String.eqb_eq in Heq. subst fp.
    exists keypair, tp. repeat split; reflexivity.
Qed.

Lemma X17_rust_keypair_must_match_witness :
  (Multi.read_keypair_file Stub.rustlib "id.json"
   = Ok (Multi.mkKeypair (repeat Byte.x00 64) Stub.system_address) /\
   Multi.Pubkey_from_str Stub.rustlib Stub.good_address = Ok Stub.good_address /\
   Stub.system_address <> Stub.good_address /\
   Multi.execute_single_transfer Stub.rustlib Stub.rust_silent "id.json"
     Stub.good_address Stub.good_address 100000000 (Multi.boot 0)
   = (Err (Multi.KeypairMismatch Stub.system_address Stub.good_address),
      Multi.boot 0))
  /\
  (Multi.log (snd (Multi.execute_single_transfer Stub.rustlib Stub.rust_down
                     "id.json" Stub.system_address Stub.good_address 100000000
                     (Multi.boot 0)))
   <> Multi.log (Multi.boot 0) /\
   exists keypair to_pubkey,
     Multi.read_keypair_file Stub.rustlib "id.json" = Ok keypair /\
     Multi.Pubkey_from_str Stub.rustlib Stub.system_address
     = Ok (Multi.pubkey keypair) /\
     Multi.Pubkey_from_str Stub.rustlib Stub.good_address = Ok to_pubkey).
Proof.
  destruct X17_rust_keypair_must_match as (mismatch & contacted).
  assert (Hne : Stub.system_address <> Stub.good_address).
  { vm_compute. discriminate. }
  split.
  - split; [reflexivity|]. split; [vm_compute; reflexivity|].
    split; [exact Hne|].
    apply (mismatch Stub.rustlib Stub.rust_silent "id.json" Stub.good_address
                    Stub.good_address 100000000 (Multi.boot 0)
                    (Multi.mkKeypair (repeat Byte.x00 64) Stub.system_address)
                    Stub.good_address Stub.good_address).
    + reflexivity.
    + vm_compute. reflexivity.
    + vm_compute. reflexivity.
    + exact Hne.
  - assert (Hlog : Multi.log
                     (snd (Multi.execute_single_transfer Stub.rustlib
                             Stub.rust_down "id.json" Stub.system_address
                             Stub.good_address 100000000 (Multi.boot 0)))
                   <> Multi.log (Multi.boot 0)).
    { vm_compute. discriminate. }
    split; [exact Hlog|].
    exact (contacted Stub.rustlib Stub.rust_down "id.json" Stub.system_address
                     Stub.good_address 100000000 (Multi.boot 0) Hlog).
Defined.

(** The confirmation loop makes at most as many status queries as it has
    turns, sleeps at most once per query, and makes no other call. *)
Lemma confirm_counts (client : Multi.RpcClient) (sig : Signature) :
  forall n k t,
    (count_calls CallStatus (Multi.log (snd (Multi.confirm n k client sig t)))
     <= count_calls CallStatus (Multi.log t) + n)%nat /\
    (count_calls CallSleep (Multi.log (snd (Multi.confirm n k client sig t)))
     <= count_calls CallSleep (Multi.log t) + n)%nat /\
    count_calls CallSend (Multi.log (snd (Multi.confirm n k client sig t)))
    = count_calls CallSend (Multi.log t) /\
    count_calls CallBlockhash (Multi.log (snd (Multi.confirm n k client sig t)))
    = count_calls CallBlockhash (Multi.log t).
Proof.
  induction n as [|n IH]; intros k t; cbn [Multi.confirm].
  - cbn [snd]. repeat split; lia.
  - unfold Multi.rpc.
    destruct (answer (Multi.get_signature_status client k sig))
      as [[[[]|e]|]|e];
      try (rust_count_now; repeat split; lia).
    match goal with
    | |- context [Multi.confirm n (S k) client sig ?t0] =>
      destruct (IH (S k) t0) as (Hq & Hs & -> & ->); revert Hq Hs
    end.
    rust_count_now. intros Hq Hs. repeat split; lia.
Qed.

(** X18.  However it ends, a run of [execute_single_transfer] asks for at
    most one blockhash, submits at most once, and makes at most 20 status
    queries, each followed by at most one sleep; a transfer that has failed
    is never submitted again. *)
Theorem X18_rust_worker_call_budget :
  forall lib client kp f d amount t,
    (count_calls CallBlockhash
       (Multi.log (snd (Multi.execute_single_transfer lib client kp f d amount t)))
     <= count_calls CallBlockhash (Multi.log t) + 1)%nat /\
    (count_calls CallSend
       (Multi.log (snd (Multi.execute_single_transfer lib client kp f d amount t)))
     <= count_calls CallSend (Multi.log t) + 1)%nat /\
    (count_calls CallStatus
       (Multi.log (snd (Multi.execute_single_transfer lib client kp f d amount t)))
     <= count_calls CallStatus (Multi.log t) + 20)%nat /\
    (count_calls CallSleep
       (Multi.log (snd (Multi.execute_single_transfer lib client kp f d amount t)))
     <= count_calls CallSleep (Multi.log t) + 20)%nat.
Proof.
  intros lib client kp f d amount t.
  unfold Multi.execute_single_transfer, Multi.rpc.
  destruct (Multi.read_keypair_file lib kp) as [keypair|e];
    [|rust_count_now; repeat split; lia].
  destruct (Multi.Pubkey_from_str lib f) as [fp|e];
    [|rust_count_now; repeat split; lia].
  destruct (Multi.Pubkey_from_str lib d) as [tp|e];
    [|rust_count_now; repeat split; lia].
  destruct (negb _); [rust_count_now; repeat split; lia|].
  destruct (answer (Multi.get_latest_blockhash client)) as [bh|e];
    [|rust_count_now; repeat split; lia].
  destruct (answer (Multi.send_transaction client _)) as [sig|e];
    [|rust_count_now; repeat split; lia].
  match goal with
  | |- context [Multi.confirm Multi.max_retries 0 client sig ?t0] =>
    pose proof (confirm_counts client sig Multi.max_retries 0 t0) as H;
      destruct (Multi.confirm Multi.max_retries 0 client sig t0)
      as [[[]|e] t2]
  end;
    cbn [snd] in H |- *; destruct H as (Hq & Hs & Hsend & Hbh);
    revert Hq Hs Hsend Hbh; rust_count_now; unfold Multi.max_retries;
    intros Hq Hs Hsend Hbh; repeat split; lia.
Qed.

(** ** The results and the summary *)

(** X19.  The results of [execute_transfers] come back in the order of the
    source wallets: their [from] fields are the addresses of the source
    wallets that name a keypair file, in the order of the configuration.
    Every result that is not a success carries the signature "FAILED" and a
    processing time of zero. *)
Theorem X19_rust_results_in_source_order :
  forall lib clients config amount start results,
    Multi.execute_transfers lib clients config amount start
    = Multi.Finished (Ok results) ->
    map Multi.from results
    = map Multi.address (filter Claims.has_keypair (Multi.from_wallets config)) /\
    Forall (fun r => Multi.success r = false ->
                     Multi.signature r = "FAILED" /\ Multi.processing_time r = 0)
           results.
Proof.
  intros lib clients config amount start results Hrun.
  unfold Multi.execute_transfers in Hrun.
  destruct (Multi.transfer_tasks lib clients config amount start 0
              (Multi.from_wallets config)) as [rs|msg] eqn:Htasks;
    [|discriminate Hrun].
  injection Hrun as <-.
  exact (transfer_tasks_order _ _ _ _ _ _ _ Htasks).
Qed.

Lemma X19_rust_results_in_source_order_witness :
  Multi.execute_transfers Stub.rustlib (fun _ => Stub.rust_down)
    Stub.three_sources_one_destination 100000000 0
  = Multi.Finished (Ok Stub.three_results) /\
  map Multi.from Stub.three_results
  = map Multi.address
      (filter Claims.has_keypair
         (Multi.from_wallets Stub.three_sources_one_destination)) /\
  Forall (fun r => Multi.success r = false ->
                   Multi.signature r = "FAILED" /\ Multi.processing_time r = 0)
         Stub.three_results.
Proof.
  assert (Hrun : Multi.execute_transfers Stub.rustlib (fun _ => Stub.rust_down)
                   Stub.three_sources_one_destination 100000000 0
                 = Multi.Finished (Ok Stub.three_results)).
  { vm_compute. reflexivity. }
  split; [exact Hrun|].
  exact (X19_rust_results_in_source_order Stub.rustlib (fun _ => Stub.rust_down)
           Stub.three_sources_one_destination 100000000 0 Hrun).
Defined.

Lemma tally_fold (l : list Multi.TransferResult) :
  forall c t,
    fold_left Multi.tally l (c, t)
    = ((c + List.length (filter Multi.success l))%nat,
       fold_left (fun acc r => acc + Multi.processing_time r) l t).
Proof.
  induction l as [|r l IH]; intros c t; cbn [fold_left filter].
  - rewrite Nat.add_0_r. reflexivity.
  - unfold Multi.tally at 2. rewrite IH.
    destruct (Multi.success r); cbn [List.length]; f_equal; lia.
Qed.

(** X20.  In the summary of the Rust [main] the successful transfers are
    the results with the success flag, the successful and the failed
    transfers add up to the total (the subtraction that gives the failed
    count never goes below zero), and an average is printed exactly when
    there is at least one result. *)
Theorem X20_rust_summary_counts :
  forall results,
    Multi.total_transfers (Multi.summarize results) = List.length results /\
    Multi.successful_transfers (Multi.summarize results)
    = List.length (filter Multi.success results) /\
    (Multi.successful_transfers (Multi.summarize results)
     <= Multi.total_transfers (Multi.summarize results))%nat /\
    (Multi.successful_transfers (Multi.summarize results)
     + Multi.failed_transfers (Multi.summarize results))%nat
    = Multi.total_transfers (Multi.summarize results) /\
    (Multi.average_ms (Multi.summarize results) = None <-> results = []).
Proof.
  intros results. unfold Multi.summarize. rewrite tally_fold.
  cbn [Multi.total_transfers Multi.successful_transfers Multi.failed_transfers
       Multi.average_ms Nat.add].
  pose proof (filter_length_le Multi.success results) as Hle.
  split; [reflexivity|]. split; [reflexivity|]. split; [exact Hle|].
  split; [lia|].
  destruct results as [|r rest]; cbn [List.length Nat.eqb].
  - split; reflexivity.
  - split; discriminate.
Qed.

Lemma X20_rust_summary_counts_witness :
  Multi.total_transfers (Multi.summarize Stub.three_results) = 3%nat /\
  Multi.successful_transfers (Multi.summarize Stub.three_results) = 0%nat /\
  Multi.failed_transfers (Multi.summarize Stub.three_results) = 3%nat /\
  (Multi.average_ms (Multi.summarize Stub.three_results) = None <->
   Stub.three_results = []).
Proof.
  destruct (X20_rust_summary_counts Stub.three_results)
    as (Htotal & Hsucc & _ & Hsum & Havg).
  split; [exact Htotal|]. split; [exact Hsucc|].
  split; [|exact Havg].
  rewrite Htotal, Hsucc in Hsum. cbn in Hsum. exact Hsum.
Defined.

(** ** [shorten_address] *)

Lemma string_length_append (a b : string) :
  String.length (a ++ b) = (String.length a + String.length b)%nat.
Proof.
  induction a as [|c a IH]; cbn; [reflexivity|]. rewrite IH. reflexivity.
Qed.

Lemma substring_length (s : string) :
  forall n m,
    (n + m <= String.length s)%nat -> String.length (substring n m s) = m.
Proof.
  induction s as [|c s IH]; intros n m Hle; cbn in Hle.
  - assert (n = 0 /\ m = 0)%nat as (-> & ->) by lia. reflexivity.
  - destruct n as [|n].
    + destruct m as [|m]; [reflexivity|]. cbn. rewrite IH; [reflexivity|lia].
    + cbn. apply IH. lia.
Qed.

(** A string of five bytes, byte by byte. *)
Lemma five_bytes (s : string) :
  String.length s = 5%nat ->
  exists a b c d e,
    s = String a (String b (String c (String d (String e EmptyString)))).
Proof.
  intros Hlen.
  destruct s as [|a [|b [|c [|d [|e [|x s]]]]]]; try discriminate Hlen.
  exists a, b, c, d, e. reflexivity.
Qed.

(** What [shorten_address] makes of an address of more than ten bytes that
    it can cut. *)
Lemma shorten_address_long (address r : string) :
  (10 < String.length address)%nat ->
  Multi.shorten_address address = Some r ->
  r = (substring 0 5 address ++ "..."
       ++ substring (String.length address - 5) 5 address)%string /\
  Multi.is_char_boundary address (String.length address - 5) = true.
Proof.
  intros Hlen. unfold Multi.shorten_address.
  apply Nat.leb_gt in Hlen. rewrite Hlen.
  destruct (Multi.is_char_boundary address 5); [|discriminate].
  destruct (Multi.is_char_boundary address (String.length address - 5));
    [|discriminate].
  intros [= <-]. split; reflexivity.
Qed.

(** X21.  [shorten_address] leaves an address of at most 10 bytes as it is.
    An address of more than 10 ASCII bytes is always shortened, never
    refused: the result has 13 bytes, the first five and the last five of
    the address around three dots. *)
Theorem X21_shorten_address_of_ascii :
  (forall address,
      (String.length address <= 10)%nat ->
      Multi.shorten_address address = Some address)
  /\
  (forall address,
      Facts.is_ascii address = true ->
      (10 < String.length address)%nat ->
      exists r,
        Multi.shorten_address address = Some r /\
        String.length r = 13%nat /\
        substring 0 5 r = substring 0 5 address /\
        substring 5 3 r = "..." /\
        substring 8 5 r = substring (String.length address - 5) 5 address).
Proof.
  split.
  - intros address Hlen. unfold Multi.shorten_address.
    apply Nat.leb_le in Hlen. rewrite Hlen. reflexivity.
  - intros address Hascii Hlen. unfold Multi.shorten_address.
    assert (Hgt : (String.length address <=? 10)%nat = false)
      by (apply Nat.leb_gt; exact Hlen).
    rewrite Hgt, !ascii_boundary by (assumption || lia). cbn [andb].
    eexists. split; [reflexivity|].
    destruct (five_bytes (substring 0 5 address)) as (a1 & a2 & a3 & a4 & a5 & ->).
    { apply substring_length. lia. }
    destruct (five_bytes (substring (String.length address - 5) 5 address))
      as (b1 & b2 & b3 & b4 & b5 & ->).
    { apply substring_length. lia. }
    repeat split; reflexivity.
Qed.

Lemma X21_shorten_address_of_ascii_witness :
  ((String.length "short" <= 10)%nat /\
   Multi.shorten_address "short" = Some "short")
  /\
  (Facts.is_ascii Stub.good_address = true /\
   (10 < String.length Stub.good_address)%nat /\
   Multi.shorten_address Stub.good_address = Some "Vote1...11111" /\
   exists r,
     Multi.shorten_address Stub.good_address = Some r /\
     String.length r = 13%nat /\
     substring 0 5 r = substring 0 5 Stub.good_address /\
     substring 5 3 r = "..." /\
     substring 8 5 r
     = substring (String.length Stub.good_address - 5) 5 Stub.good_address).
Proof.
  destruct X21_shorten_address_of_ascii as (short & long).
  split.
  - split; [cbn; lia|]. apply short. cbn. lia.
  - split; [reflexivity|]. split; [vm_compute; lia|].
    split; [reflexivity|].
    apply long; [reflexivity|vm_compute; lia].
Defined.

(** X22.  Shortening is idempotent: whatever [shorten_address] returns, it
    returns unchanged when given it again (so a shortened address is never
    refused and never cut further). *)
Theorem X22_shorten_address_idempotent :
  forall address r,
    Multi.shorten_address address = Some r ->
    Multi.shorten_address r = Some r.
Proof.
  intros address r Hr.
  destruct (Nat.le_gt_cases (String.length address) 10) as [Hshort|Hlong].
  - assert (Hsame : Multi.shorten_address address = Some address).
    { unfold Multi.shorten_address. apply Nat.leb_le in Hshort.
      rewrite Hshort. reflexivity. }
    rewrite Hsame in Hr. injection Hr as <-. exact Hsame.
  - destruct (shorten_address_long address Hlong Hr) as (-> & Hboundary).
    assert (Hget : String.get 0 (substring (String.length address - 5) 5 address)
                   = String.get (String.length address - 5) address).
    { rewrite (substring_correct1 address (String.length address - 5) 5 0)
        by lia.
      reflexivity. }
    destruct (five_bytes (substring 0 5 address))
      as (a1 & a2 & a3 & a4 & a5 & Hstart).
    { apply substring_length. lia. }
    destruct (five_bytes (substring (String.length address - 5) 5 address))
      as (b1 & b2 & b3 & b4 & b5 & Hend).
    { apply substring_length. lia. }
    rewrite Hend in Hget. rewrite Hstart, Hend. cbn [String.get] in Hget.
    unfold Multi.is_char_boundary in Hboundary.
    destruct (String.length address - 5)%nat as [|k] eqn:Hk; [lia|].
    rewrite <- Hget in Hboundary.
    unfold Multi.shorten_address. cbn [append String.length Nat.leb].
    cbn [Multi.is_char_boundary String.get Nat.sub].
    rewrite Hboundary. reflexivity.
Qed.

Lemma X22_shorten_address_idempotent_witness :
  Multi.shorten_address Stub.good_address = Some "Vote1...11111" /\
  Multi.shorten_address "Vote1...11111" = Some "Vote1...11111".
Proof.
  split; [reflexivity|].
  apply (X22_shorten_address_idempotent Stub.good_address). reflexivity.
Defined.

(** ** The table and the exit of [main] *)


(** X23.  With a destination to pick and addresses made of ASCII bytes,
    the Rust [main] prints one row per result, with the signature and the
    status of the result, then the summary, and exits with code 0. *)
Theorem X23_rust_main_prints_one_row_per_result :
  forall lib clients config amount start,
    Multi.to_wallets config <> [] ->
    (forall w, In w (Multi.from_wallets config) ->
               Facts.is_ascii (Multi.address w) = true) ->
    (forall w, In w (Multi.to_wallets config) ->
               Facts.is_ascii (Multi.address w) = true) ->
    exists results rows,
      Multi.execute_transfers lib clients config amount start
      = Multi.Finished (Ok results) /\
      Multi.main_with_table lib clients config amount start
      = Exit 0 (rows, Multi.summarize results) /\
      List.length rows = List.length results /\
      map Multi.row_signature rows = map Multi.signature results /\
      map Multi.status rows
      = map (fun r => if Multi.success r then "SUCCESS" else "FAILED") results.
Proof.
  intros lib clients config amount start Hne Hfrom Hto.
  unfold Multi.main_with_table, Multi.execute_transfers.
  destruct (@transfer_tasks_total lib clients config amount start Hne
              (Multi.from_wallets config) 0%nat) as (results & Hrun).
  rewrite Hrun.
  destruct (transfer_tasks_finished _ _ _ _ _ _ _ Hrun) as (_ & _ & Hdest).
  destruct (transfer_tasks_order _ _ _ _ _ _ _ Hrun) as (Horder & _).
  destruct (print_rows_total (results := results)) as (rows & -> & Hrows).
  - apply Forall_forall. intros r Hin. split.
    + assert (Hf : In (Multi.from r) (map Multi.from results))
        by (apply in_map; exact Hin).
      rewrite Horder in Hf. apply in_map_iff in Hf.
      destruct Hf as (w & <- & Hw). apply filter_In in Hw.
      apply Hfrom. exact (proj1 Hw).
    + destruct (Hdest r Hin) as (d & Hd & ->). apply Hto. exact Hd.
  - exists results, rows. split; [reflexivity|]. split; [reflexivity|].
    exact Hrows.
Qed.

Lemma X23_rust_main_prints_one_row_per_result_witness :
  Multi.to_wallets Stub.three_sources_one_destination <> [] /\
  exists results rows,
    Multi.execute_transfers Stub.rustlib (fun _ => Stub.rust_down)
      Stub.three_sources_one_destination 100000000 0
    = Multi.Finished (Ok results) /\
    Multi.main_with_table Stub.rustlib (fun _ => Stub.rust_down)
      Stub.three_sources_one_destination 100000000 0
    = Exit 0 (rows, Multi.summarize results) /\
    List.length rows = List.length results /\
    map Multi.row_signature rows = map Multi.signature results /\
    map Multi.status rows
    = map (fun r => if Multi.success r then "SUCCESS" else "FAILED") results.
Proof.
  split; [discriminate|].
  apply X23_rust_main_prints_one_row_per_result.
  - discriminate.
  - exact (proj1 three_sources_ascii).
  - exact (proj2 three_sources_ascii).
Defined.



(* ===================================================================== *)
(** * A panic in one worker of the Go batch *)
(* ===================================================================== *)

Lemma first_panic_some (runs : list Bulk.Ended) msg g :
  In (Panicked msg g) runs -> exists msg', Bulk.first_panic runs = Some msg'.
Proof.
  intros Hin.
  destruct (Bulk.first_panic runs) as [msg'|] eqn:Hp; [exists msg'; reflexivity|].
  exfalso. eapply first_panic_none; eassumption.
Qed.

(** X25.  The Go batch has no defence against a key the library cannot
    use: when the key of one transfer decodes and the library panics on it,
    that worker panics before any call to the endpoint and the whole
    process ends with exit code 2, without a report, whatever the other
    transfers are. *)
Theorem X25_go_one_unusable_key_ends_the_batch :
  forall lib clients config start i transfer privateKeyBytes,
    nth_error (Bulk.Transfers config) i = Some transfer ->
    DecodeString lib (Bulk.FromPrivateKey transfer) = Ok privateKeyBytes ->
    NewAccountFromPrivateKeyBytes lib (elems privateKeyBytes) = None ->
    forall fuel,
      Bulk.executeTransfer fuel lib (clients i) transfer
        (spawn Bulk.TransferResult start)
      = Panicked "NewAccountFromPrivateKeyBytes" (spawn Bulk.TransferResult start) /\
      exists msg, Bulk.main fuel lib clients config start = Crashed 2 msg.
Proof.
  intros lib clients config start i transfer pk Hnth Hdec Hacc fuel.
  assert (Hrun : Bulk.executeTransfer fuel lib (clients i) transfer
                   (spawn Bulk.TransferResult start)
                 = Panicked "NewAccountFromPrivateKeyBytes"
                            (spawn Bulk.TransferResult start)).
  { unfold Bulk.executeTransfer. rewrite Hdec, Hacc. reflexivity. }
  split; [exact Hrun|].
  pose proof (@run_workers_nth fuel lib clients start (Bulk.Transfers config)
                0%nat i transfer Hnth) as Hin.
  cbn [Nat.add] in Hin. rewrite Hrun in Hin.
  destruct (first_panic_some _ _ _ Hin) as (msg & Hp).
  exists msg. unfold Bulk.main. rewrite Hp. reflexivity.
Qed.

Lemma X25_go_one_unusable_key_ends_the_batch_witness :
  nth_error
    (Bulk.Transfers
       (Bulk.mkConfig "https://api.devnet.solana.com"
          [Stub.sample_transfer;
           Bulk.mkTransfer Stub.short_key Stub.good_address 100000000])) 1
  = Some (Bulk.mkTransfer Stub.short_key Stub.good_address 100000000) /\
  DecodeString Stub.golib Stub.short_key = Ok Stub.short_slice /\
  NewAccountFromPrivateKeyBytes Stub.golib (elems Stub.short_slice) = None /\
  forall fuel,
    Bulk.executeTransfer fuel Stub.golib (Samples.steady_clients 1)
      (Bulk.mkTransfer Stub.short_key Stub.good_address 100000000)
      (spawn Bulk.TransferResult 0)
    = Panicked "NewAccountFromPrivateKeyBytes" (spawn Bulk.TransferResult 0) /\
    exists msg,
      Bulk.main fuel Stub.golib Samples.steady_clients
        (Bulk.mkConfig "https://api.devnet.solana.com"
           [Stub.sample_transfer;
            Bulk.mkTransfer Stub.short_key Stub.good_address 100000000]) 0
      = Crashed 2 msg.
Proof.
  split; [reflexivity|].
  split; [exact short_slice_decoded|].
  split; [vm_compute; reflexivity|].
  apply (@X25_go_one_unusable_key_ends_the_batch Stub.golib
           Samples.steady_clients
           (Bulk.mkConfig "https://api.devnet.solana.com"
              [Stub.sample_transfer;
               Bulk.mkTransfer Stub.short_key Stub.good_address 100000000])
           0 1%nat
           (Bulk.mkTransfer Stub.short_key Stub.good_address 100000000)
           Stub.short_slice).
  - reflexivity.
  - exact short_slice_decoded.
  - vm_compute. reflexivity.
Defined.

(* ===================================================================== *)
(** * What ends the wait of a Go worker *)
(* ===================================================================== *)

(** A status loop that returns has been answered: after fewer than [fuel]
    answers "absent", a status query failed or reported a status. *)
Lemma poll_returned_settled (client : Go.Client) (sig : Signature)
    (startTime : Z) (result : Bulk.TransferResult) :
  forall fuel k g g',
    Bulk.poll fuel k client sig startTime result g = Returned tt g' ->
    exists n,
      (n < fuel)%nat /\
      (forall j, (j < n)%nat -> Claims.absent_at client sig (k + j)) /\
      Claims.settled_at client sig (k + n) /\
      count_calls CallStatus (calls g')
      = (count_calls CallStatus (calls g) + S n)%nat.
Proof.
  induction fuel as [|fuel IH]; intros k g g' Hrun; [discriminate Hrun|].
  cbn [Bulk.poll] in Hrun. unfold rpc, Bulk.fail_with in Hrun.
  destruct (answer (GetSignatureStatuses client k [sig])) as [value|e] eqn:Hans.
  - destruct value as [|[st|] rest].
    + discriminate Hrun.
    + injection Hrun as <-. exists O. split; [lia|].
      split; [intros j Hj; lia|]. rewrite Nat.add_0_r. split.
      * right. exists st, rest. exact Hans.
      * cbn [send calls]. rewrite !count_calls_app. cbn. lia.
    + apply IH in Hrun. destruct Hrun as (n & Hn & Hbefore & Hlast & Hq).
      exists (S n). split; [lia|]. split; [|split].
      * intros j Hj. destruct j as [|j].
        -- rewrite Nat.add_0_r. exists rest. exact Hans.
        -- replace (k + S j)%nat with (S k + j)%nat by lia. apply Hbefore. lia.
      * replace (k + S n)%nat with (S k + n)%nat by lia. exact Hlast.
      * cbn [Sleep calls] in Hq. rewrite !count_calls_app in Hq. cbn in Hq. lia.
  - injection Hrun as <-. exists O. split; [lia|].
    split; [intros j Hj; lia|]. rewrite Nat.add_0_r. split.
    + left. exists e. exact Hans.
    + cbn [send calls]. rewrite !count_calls_app. cbn. lia.
Qed.

(** X26.  Nothing but an answer ends the wait of a submitted Go worker: it
    returns exactly when, after fewer answers "absent" than it has fuel for
    turns, a status query fails or reports a status; and when it returns
    after [n] answers "absent" it has made exactly [n + 1] status queries.
    The loop has no deadline and no budget that would end it earlier. *)
Theorem X26_go_only_an_answer_ends_the_wait :
  forall fuel lib client transfer sig g,
    Bulk.submits lib client transfer sig ->
    ((exists g', Bulk.executeTransfer fuel lib client transfer g = Returned tt g')
     <->
     (exists n,
         (n < fuel)%nat /\
         (forall j, (j < n)%nat -> Claims.absent_at client sig j) /\
         Claims.settled_at client sig n)) /\
    (forall g',
        Bulk.executeTransfer fuel lib client transfer g = Returned tt g' ->
        exists n,
          count_calls CallStatus (calls g')
          = (count_calls CallStatus (calls g) + S n)%nat /\
          (forall j, (j < n)%nat -> Claims.absent_at client sig j) /\
          Claims.settled_at client sig n).
Proof.
  intros fuel lib client transfer sig g Hsub.
  destruct (executeTransfer_submitted fuel g Hsub)
    as (result & g1 & Heq & _ & Hq & _).
  assert (Hback : forall g',
             Bulk.executeTransfer fuel lib client transfer g = Returned tt g' ->
             exists n,
               (n < fuel)%nat /\
               count_calls CallStatus (calls g')
               = (count_calls CallStatus (calls g) + S n)%nat /\
               (forall j, (j < n)%nat -> Claims.absent_at client sig j) /\
               Claims.settled_at client sig n).
  { intros g' Hrun. rewrite Heq in Hrun.
    destruct (poll_returned_settled _ _ _ _ _ _ _ Hrun)
      as (n & Hn & Hbefore & Hlast & Hq').
    exists n. split; [exact Hn|]. rewrite Hq', Hq.
    split; [reflexivity|]. split; [exact Hbefore|exact Hlast]. }
  split; [split|].
  - intros (g' & Hrun).
    destruct (Hback g' Hrun) as (n & Hn & _ & Hbefore & Hlast).
    exists n. split; [exact Hn|]. split; [exact Hbefore|exact Hlast].
  - intros (n & Hn & Hbefore & Hlast).
    destruct (@executeTransfer_settles fuel lib client transfer g)
      as (g' & _ & Hrun & _).
    { right. right. exists sig, n. repeat split; assumption. }
    exists g'. exact Hrun.
  - intros g' Hrun.
    destruct (Hback g' Hrun) as (n & _ & Hcount & Hbefore & Hlast).
    exists n. split; [exact Hcount|]. split; [exact Hbefore|exact Hlast].
Qed.

Lemma X26_go_only_an_answer_ends_the_wait_witness :
  Bulk.submits Stub.golib (Stub.go_endpoint 3 Stub.go_confirmed)
               Stub.sample_transfer "5sig" /\
  Bulk.executeTransfer 30 Stub.golib (Stub.go_endpoint 3 Stub.go_confirmed)
    Stub.sample_transfer (spawn Bulk.TransferResult 0)
  = Returned tt Stub.confirmed_end /\
  (exists n,
      count_calls CallStatus (calls Stub.confirmed_end) = (0 + S n)%nat /\
      (forall j, (j < n)%nat ->
                 Claims.absent_at (Stub.go_endpoint 3 Stub.go_confirmed) "5sig" j) /\
      Claims.settled_at (Stub.go_endpoint 3 Stub.go_confirmed) "5sig" n) /\
  ~ (exists g',
        Bulk.executeTransfer 3 Stub.golib (Stub.go_endpoint 3 Stub.go_confirmed)
          Stub.sample_transfer (spawn Bulk.TransferResult 0)
        = Returned tt g').
Proof.
  split; [exact confirming_endpoint_submits|].
  split; [exact confirming_endpoint_run|].
  split.
  - exact (proj2 (X26_go_only_an_answer_ends_the_wait 30
                    (spawn Bulk.TransferResult 0) confirming_endpoint_submits)
                 Stub.confirmed_end confirming_endpoint_run).
  - intros (g' & Hrun). vm_compute in Hrun. discriminate Hrun.
Defined.
